(** * block-checker: connection-resilience subsystem

    A shallow embedding of [database/error_analyzer.go] (the error
    analyzer, the logger and the reconnector) and of
    [database/connection.go], with the properties of the logger, the error
    classifier and the reconnector that the specification states about
    them. *)

From Stdlib Require Import ZArith Lia Bool List Ascii String Sorted.
From stdpp Require Import base option list strings gmap fin_maps.

Local Open Scope string_scope.
Local Open Scope Z_scope.

(** ** Outcomes of Go code: a value, or a run-time panic *)

Inductive result (A : Type) : Type :=
| Ok (a : A)
| Panic (msg : string)
| Exit (code : Z).
Arguments Ok {A} a.
Arguments Panic {A} msg.
Arguments Exit {A} code.

#[global] Instance result_ret : MRet result := fun A a => Ok a.
#[global] Instance result_fmap : FMap result := fun A B f m =>
  match m with
  | Ok a => Ok (f a)
  | Panic msg => Panic msg
  | Exit code => Exit code
  end.
#[global] Instance result_bind : MBind result := fun A B k m =>
  match m with
  | Ok a => k a
  | Panic msg => Panic msg
  | Exit code => Exit code
  end.

(** ** The parts of Go's standard library the code calls *)

Module Go.

(** [int] and [time.Duration] are 64-bit two's-complement integers. *)
Definition wrap64 (z : Z) : Z := (z + 2 ^ 63) mod 2 ^ 64 - 2 ^ 63.
Definition minInt64 : Z := - 2 ^ 63.
Definition maxInt64 : Z := 2 ^ 63 - 1.
Definition int_add (a b : Z) : Z := wrap64 (a + b).
Definition int_mul (a b : Z) : Z := wrap64 (a * b).
Definition int_neg (a : Z) : Z := wrap64 (- a).

(** [time.Second] and friends, in nanoseconds. *)
Definition Second : Z := 1000000000.
Definition Hour : Z := 3600 * Second.

(** [d.Round(m)]: to the nearest multiple of [m], halves away from zero;
    [lessThanHalf] compares in [uint64]. *)
Definition lessThanHalf (x y : Z) : bool := (x + x) mod 2 ^ 64 <? y mod 2 ^ 64.
Definition Duration_Round (d m : Z) : Z :=
  if m <=? 0 then d
  else
    let r := Z.rem d m in
    if d <? 0 then
      let r := int_neg r in
      if lessThanHalf r m then int_add d r
      else
        let d1 := wrap64 (d - m + r) in
        if d1 <? d then d1 else minInt64
    else if lessThanHalf r m then wrap64 (d - r)
    else
      let d1 := wrap64 (d + m - r) in
      if d <? d1 then d1 else maxInt64.

(** A [time.Time] instant, in nanoseconds on the clock that [time.Now]
    reads; [t.Add(d)], [t.Before(u)] and [t.Sub(u)]. *)
Definition Time := Z.
Definition Time_Add (t : Time) (d : Z) : Time := t + d.
Definition Time_Before (t u : Time) : bool := t <? u.
(** [t.Sub(u)], a [Duration]: it saturates. *)
Definition Time_Sub (t u : Time) : Z :=
  let d := t - u in
  if d <? minInt64 then minInt64 else if maxInt64 <? d then maxInt64 else d.

(** *** [fmt.Sprintf("%d", n)] *)

Definition digit (d : Z) : ascii := ascii_of_N (48 + Z.to_N d).

Fixpoint digits (fuel : nat) (n : Z) (acc : string) : string :=
  match fuel with
  | O => acc
  | S fuel' =>
      let acc' := String (digit (n mod 10)) acc in
      if n / 10 =? 0 then acc' else digits fuel' (n / 10) acc'
  end.

Definition itoa (n : Z) : string :=
  if n <? 0 then String "-" (digits 20 (- n) "") else digits 20 n "".

(** *** [strings.Contains] *)

Fixpoint HasPrefix (s p : string) : bool :=
  match p, s with
  | EmptyString, _ => true
  | String _ _, EmptyString => false
  | String b p', String a s' => if Ascii.eqb a b then HasPrefix s' p' else false
  end.

Fixpoint Contains (s substr : string) : bool :=
  HasPrefix s substr ||
  match s with
  | EmptyString => false
  | String _ s' => Contains s' substr
  end.

(** *** [unicode/utf8] *)

Definition RuneError : Z := 65533.
Definition byteOf (a : ascii) : Z := Z.of_N (N_of_ascii a).
Definition ofByte (z : Z) : ascii := ascii_of_N (Z.to_N (z mod 256)).

Definition locb : Z := 128.
Definition hicb : Z := 191.

(** The [first] table of [utf8]: for a leading byte, [None] when it
    starts no multi-byte sequence (ASCII or invalid), otherwise the
    sequence's size and the range accepted for its second byte. *)
Definition first (s0 : Z) : option (Z * Z * Z) :=
  if s0 <? 194 then None
  else if s0 <? 224 then Some (2, locb, hicb)
  else if s0 =? 224 then Some (3, 160, hicb)
  else if s0 <? 237 then Some (3, locb, hicb)
  else if s0 =? 237 then Some (3, locb, 159)
  else if s0 <? 240 then Some (3, locb, hicb)
  else if s0 =? 240 then Some (4, 144, hicb)
  else if s0 <? 244 then Some (4, locb, hicb)
  else if s0 =? 244 then Some (4, locb, 143)
  else None.

Definition isCont (b : Z) : bool := (locb <=? b) && (b <=? hicb).

(** [utf8.DecodeRuneInString] on a non-empty string: the rune and its
    width in bytes. *)
Definition DecodeRuneInString (c : ascii) (rest : string) : Z * nat :=
  let s0 := byteOf c in
  match first s0 with
  | None => (if s0 <? 128 then s0 else RuneError, 1%nat)
  | Some (sz, lo, hi) =>
      match rest with
      | EmptyString => (RuneError, 1%nat)
      | String c1 r1 =>
          let s1 := byteOf c1 in
          if (s1 <? lo) || (hi <? s1) then (RuneError, 1%nat)
          else if sz <=? 2 then
            (Z.lor (Z.shiftl (Z.land s0 31) 6) (Z.land s1 63), 2%nat)
          else
            match r1 with
            | EmptyString => (RuneError, 1%nat)
            | String c2 r2 =>
                let s2 := byteOf c2 in
                if negb (isCont s2) then (RuneError, 1%nat)
                else if sz <=? 3 then
                  (Z.lor (Z.shiftl (Z.land s0 15) 12)
                     (Z.lor (Z.shiftl (Z.land s1 63) 6) (Z.land s2 63)), 3%nat)
                else
                  match r2 with
                  | EmptyString => (RuneError, 1%nat)
                  | String c3 _ =>
                      let s3 := byteOf c3 in
                      if negb (isCont s3) then (RuneError, 1%nat)
                      else
                        (Z.lor (Z.shiftl (Z.land s0 7) 18)
                           (Z.lor (Z.shiftl (Z.land s1 63) 12)
                              (Z.lor (Z.shiftl (Z.land s2 63) 6) (Z.land s3 63))),
                         4%nat)
                  end
            end
      end
  end.

(** [utf8.AppendRune]; a surrogate or out-of-range rune is written as
    [RuneError]. *)
Definition encode3 (r : Z) : string :=
  String (ofByte (Z.lor 224 (Z.shiftr r 12)))
    (String (ofByte (Z.lor 128 (Z.land (Z.shiftr r 6) 63)))
       (String (ofByte (Z.lor 128 (Z.land r 63))) EmptyString)).

Definition AppendRune (r : Z) : string :=
  if (0 <=? r) && (r <=? 127) then String (ofByte r) EmptyString
  else if (0 <=? r) && (r <=? 2047) then
    String (ofByte (Z.lor 192 (Z.shiftr r 6)))
      (String (ofByte (Z.lor 128 (Z.land r 63))) EmptyString)
  else if (r <? 0) || (1114111 <? r) || ((55296 <=? r) && (r <=? 57343)) then
    encode3 RuneError
  else if r <=? 65535 then encode3 r
  else
    String (ofByte (Z.lor 240 (Z.shiftr r 18)))
      (String (ofByte (Z.lor 128 (Z.land (Z.shiftr r 12) 63)))
         (String (ofByte (Z.lor 128 (Z.land (Z.shiftr r 6) 63)))
            (String (ofByte (Z.lor 128 (Z.land r 63))) EmptyString))).

(** *** [strings.ToLower]

    The case tables of package [unicode] for runes above ASCII are a
    parameter: [caseTable r] is [unicode.To(unicode.LowerCase, r)]. *)
Section ToLower.
Variable caseTable : Z -> Z.

Definition unicode_ToLower (r : Z) : Z :=
  if r <=? 127 then
    (if (65 <=? r) && (r <=? 90) then r + 32 else r)
  else caseTable r.

(** [strings.Map(mapping, s)]: every rune of [s] (an invalid byte
    reads as [RuneError], one byte wide) is replaced by its image; a
    negative image is dropped.  [skip] counts the bytes of the current
    rune still to pass over. *)
Fixpoint Map (mapping : Z -> Z) (skip : nat) (s : string) : string :=
  match s with
  | EmptyString => EmptyString
  | String c rest =>
      match skip with
      | S k => Map mapping k rest
      | O =>
          let '(r, w) := DecodeRuneInString c rest in
          let r' := mapping r in
          (if r' <? 0 then EmptyString else AppendRune r')
            ++ Map mapping (Nat.pred w) rest
      end
  end.

Definition isASCII (s : string) : bool :=
  forallb (fun c => byteOf c <? 128) (list_ascii_of_string s).

Definition lowerByte (c : ascii) : ascii :=
  let b := byteOf c in
  if (65 <=? b) && (b <=? 90) then ofByte (b + 32) else c.

Fixpoint lowerASCII (s : string) : string :=
  match s with
  | EmptyString => EmptyString
  | String c rest => String (lowerByte c) (lowerASCII rest)
  end.

Definition ToLower (s : string) : string :=
  if isASCII s then lowerASCII s else Map unicode_ToLower 0 s.
End ToLower.

(** How many bytes at the head of [s] are outside ASCII. *)
Fixpoint leadingNonASCII (s : string) : nat :=
  match s with
  | EmptyString => O
  | String c rest => if byteOf c <? 128 then O else S (leadingNonASCII rest)
  end.

(** [s] is empty or begins with an ASCII byte. *)
Definition startsASCII (s : string) : bool :=
  match s with
  | EmptyString => true
  | String c _ => byteOf c <? 128
  end.

End Go.

(** ** The logger: [DatabaseLogger] in [database/error_analyzer.go] *)

Definition LogLevel := Z.
Definition LogLevelDebug : LogLevel := 0.
Definition LogLevelInfo : LogLevel := 1.
Definition LogLevelWarn : LogLevel := 2.
Definition LogLevelError : LogLevel := 3.
Definition LogLevelFatal : LogLevel := 4.

Record ConnectionInfo := mkConnectionInfo {
  Host : string;
  Port : string;
  Username : string;
  Password : string;
  Database : string
}.

Record LogEntry := mkLogEntry {
  Level : LogLevel;
  Message : string;
  Timestamp : Go.Time;
  Details : string;
  Count : Z;
  ConnInfo : option ConnectionInfo
}.

(** [entries] is the slice of stored entries.  [lastEntry] is a pointer:
    [addEntry] sets it to the address of its local variable [entry], a
    heap cell of its own, distinct from the copy that [append] wrote into
    the slice.  The field therefore carries that cell's contents. *)
Record DatabaseLogger := mkDatabaseLogger {
  entries : list LogEntry;
  maxEntries : Z;
  currentLevel : LogLevel;
  lastEntry : option LogEntry;
  suppressDuplicates : bool
}.

Module Logger.

(** The logger that [GetDatabaseLogger] builds on first use. *)
Definition GetDatabaseLogger : DatabaseLogger :=
  {| entries := [];
     maxEntries := 100;
     currentLevel := LogLevelInfo;
     lastEntry := None;
     suppressDuplicates := true |}.

Definition SetLogLevel (level : LogLevel) (dl : DatabaseLogger) : DatabaseLogger :=
  {| entries := entries dl;
     maxEntries := maxEntries dl;
     currentLevel := level;
     lastEntry := lastEntry dl;
     suppressDuplicates := suppressDuplicates dl |}.

Definition SetMaxEntries (max : Z) (dl : DatabaseLogger) : DatabaseLogger :=
  {| entries := entries dl;
     maxEntries := max;
     currentLevel := currentLevel dl;
     lastEntry := lastEntry dl;
     suppressDuplicates := suppressDuplicates dl |}.

Definition SetSuppressDuplicates (suppress : bool) (dl : DatabaseLogger) : DatabaseLogger :=
  {| entries := entries dl;
     maxEntries := maxEntries dl;
     currentLevel := currentLevel dl;
     lastEntry := lastEntry dl;
     suppressDuplicates := suppress |}.

Definition getLevelString (level : LogLevel) : string :=
  if level =? LogLevelDebug then "调试"
  else if level =? LogLevelInfo then "信息"
  else if level =? LogLevelWarn then "警告"
  else if level =? LogLevelError then "错误"
  else if level =? LogLevelFatal then "致命"
  else "未知".

(** The lines [outputToStdLog] hands to [log.Printf]. *)
Definition outputToStdLog (entry : LogEntry) : list string :=
  let levelStr := getLevelString (Level entry) in
  (if Z.ltb 1 (Count entry)
   then "[" ++ levelStr ++ "] " ++ Message entry
          ++ " (重复 " ++ Go.itoa (Count entry) ++ " 次)"
   else "[" ++ levelStr ++ "] " ++ Message entry)%string
  :: (if negb (String.eqb (Details entry) "") && (LogLevelWarn <=? Level entry)
      then [("   详情: " ++ Details entry)%string]
      else []).

(** [s[1:]] on a slice. *)
Definition slice_from_1 {A : Type} (s : list A) : result (list A) :=
  match s with
  | [] => Panic "slice bounds out of range [1:0]"
  | _ :: s' => Ok s'
  end.

Definition isDuplicate (dl : DatabaseLogger) (level : LogLevel) (message : string) : bool :=
  suppressDuplicates dl &&
  match lastEntry dl with
  | Some last => String.eqb (Message last) message && (Level last =? level)
  | None => false
  end.

(** The duplicate branch of [addEntry]: [dl.lastEntry.Count++] and
    [dl.lastEntry.Timestamp = time.Now()], both through the pointer. *)
Definition bumpLast (now : Go.Time) (dl : DatabaseLogger) : DatabaseLogger :=
  match lastEntry dl with
  | None => dl
  | Some last =>
      {| entries := entries dl;
         maxEntries := maxEntries dl;
         currentLevel := currentLevel dl;
         lastEntry :=
           Some {| Level := Level last;
                   Message := Message last;
                   Timestamp := now;
                   Details := Details last;
                   Count := Go.int_add (Count last) 1;
                   ConnInfo := ConnInfo last |};
         suppressDuplicates := suppressDuplicates dl |}
  end.

(** [addEntry]; [now] is what [time.Now()] reads during the call, and
    the second component of the result the lines sent to the standard
    log. *)
Definition addEntry (now : Go.Time) (level : LogLevel) (message details : string)
    (connInfo : list (option ConnectionInfo)) (dl : DatabaseLogger)
  : result (DatabaseLogger * list string) :=
  if level <? currentLevel dl then Ok (dl, [])
  else if isDuplicate dl level message then Ok (bumpLast now dl, [])
  else
    let entry :=
      {| Level := level;
         Message := message;
         Timestamp := now;
         Details := details;
         Count := 1;
         ConnInfo := match connInfo with
                     | Some ci :: _ => Some ci
                     | _ => None
                     end |} in
    kept ← (if maxEntries dl <=? Z.of_nat (length (entries dl))
            then slice_from_1 (entries dl)
            else Ok (entries dl));
    Ok ({| entries := kept ++ [entry];
           maxEntries := maxEntries dl;
           currentLevel := currentLevel dl;
           lastEntry := Some entry;
           suppressDuplicates := suppressDuplicates dl |},
        outputToStdLog entry).

Definition addEntryWithConnection (now : Go.Time) (level : LogLevel)
    (message details : string) (connInfo : option ConnectionInfo) :=
  addEntry now level message details [connInfo].

Definition firstDetail (details : list string) : string :=
  match details with
  | d :: _ => d
  | [] => ""
  end.

Definition Debug (now : Go.Time) (message : string) (details : list string) :=
  addEntry now LogLevelDebug message (firstDetail details) [].
Definition Info (now : Go.Time) (message : string) (details : list string) :=
  addEntry now LogLevelInfo message (firstDetail details) [].
Definition Warn (now : Go.Time) (message : string) (details : list string) :=
  addEntry now LogLevelWarn message (firstDetail details) [].
Definition Error (now : Go.Time) (message : string) (details : list string) :=
  addEntry now LogLevelError message (firstDetail details) [].
(** [Fatal] logs and then calls [os.Exit(1)]. *)
Definition Fatal (now : Go.Time) (message : string) (details : list string)
    (dl : DatabaseLogger) : result (DatabaseLogger * list string) :=
  _ ← addEntry now LogLevelFatal message (firstDetail details) [] dl;
  Exit 1.

Definition InfoWithConnection (now : Go.Time) (message : string)
    (connInfo : option ConnectionInfo) (details : list string) :=
  addEntryWithConnection now LogLevelInfo message (firstDetail details) connInfo.
Definition ErrorWithConnection (now : Go.Time) (message : string)
    (connInfo : option ConnectionInfo) (details : list string) :=
  addEntryWithConnection now LogLevelError message (firstDetail details) connInfo.

Definition GetEntries (dl : DatabaseLogger) : list LogEntry := entries dl.

Definition GetRecentEntries (n : Z) (dl : DatabaseLogger) : list LogEntry :=
  if (n <=? 0) || (Z.of_nat (length (entries dl)) =? 0) then []
  else
    let start := Z.of_nat (length (entries dl)) - n in
    let start := if start <? 0 then 0 else start in
    drop (Z.to_nat start) (entries dl).

Definition Clear (dl : DatabaseLogger) : DatabaseLogger :=
  {| entries := [];
     maxEntries := maxEntries dl;
     currentLevel := currentLevel dl;
     lastEntry := None;
     suppressDuplicates := suppressDuplicates dl |}.

(** The ["last_entry"] part of [GetSummary]: read from the slice. *)
Definition summaryLastCount (dl : DatabaseLogger) : option Z :=
  Count <$> last (entries dl).

(** The retention bound: no more entries than the configured maximum. *)
Definition boundOk (dl : DatabaseLogger) : Prop :=
  Z.of_nat (length (entries dl)) <= maxEntries dl.

(** The operations that write to the logger. *)
Inductive Op :=
| OpSetLogLevel (level : LogLevel)
| OpSetMaxEntries (max : Z)
| OpSetSuppressDuplicates (suppress : bool)
| OpAddEntry (now : Go.Time) (level : LogLevel) (message details : string)
    (connInfo : list (option ConnectionInfo))
| OpClear.

Definition run (op : Op) (dl : DatabaseLogger) : result (DatabaseLogger * list string) :=
  match op with
  | OpSetLogLevel level => Ok (SetLogLevel level dl, [])
  | OpSetMaxEntries max => Ok (SetMaxEntries max dl, [])
  | OpSetSuppressDuplicates suppress => Ok (SetSuppressDuplicates suppress dl, [])
  | OpAddEntry now level message details connInfo =>
      addEntry now level message details connInfo dl
  | OpClear => Ok (Clear dl, [])
  end.

(** [n] calls of [addEntry] in a row with the same level and message;
    the [i]-th call reads the clock at [now i]. *)
Fixpoint addEntryTimes (n : nat) (now : nat -> Go.Time) (level : LogLevel)
    (message details : string) (dl : DatabaseLogger) : result DatabaseLogger :=
  match n with
  | O => Ok dl
  | S n' =>
      '(dl', _) ← addEntry (now O) level message details [] dl;
      addEntryTimes n' (fun i => now (S i)) level message details dl'
  end.

End Logger.

(** ** What the model takes from the Go run time as given

    The Unicode case tables, the layout-driven [Time.Format] and
    [Duration.String] are library code whose text plays no part below. *)
Class GoRuntime := {
  caseTable : Z -> Z;
  Time_Format : string -> Go.Time -> string;
  Duration_String : Z -> string
}.

(** ** [database/connection.go]: types *)

Definition ErrorType := string.
Definition ErrorTypeNetwork : ErrorType := "network".
Definition ErrorTypeAuth : ErrorType := "authentication".
Definition ErrorTypeConfig : ErrorType := "configuration".
Definition ErrorTypeTimeout : ErrorType := "timeout".
Definition ErrorTypeSQL : ErrorType := "sql".
Definition ErrorTypeUnknown : ErrorType := "unknown".

Module ErrorDetails.
Record t := mk {
  Typ : ErrorType;
  Code : string;
  Message : string;
  Cause : string;
  Suggestion : string;
  Timestamp : string;
  RetryCount : Z
}.
Definition withMessage (m : string) (d : t) : t :=
  mk (Typ d) (Code d) m (Cause d) (Suggestion d) (Timestamp d) (RetryCount d).
End ErrorDetails.

Module DBStatus.
Record t := mk {
  Status : string;
  Timestamp : string;
  Error : string;
  Details : option ErrorDetails.t
}.
End DBStatus.

Record DBConfig := mkDBConfig {
  cfgHost : string;
  cfgPort : string;
  cfgUser : string;
  cfgPass : string;
  cfgName : string
}.

(** ** The analyzer: [ErrorAnalyzer] in [database/error_analyzer.go] *)

Module ErrorPattern.
Record t := mk {
  Keywords : list string;
  Typ : ErrorType;
  Code : string;
  Cause : string;
  Suggestion : string;
  Severity : Z
}.
End ErrorPattern.

Module ErrorSummary.
Record t := mk {
  Typ : ErrorType;
  Code : string;
  Count : Z;
  FirstSeen : Go.Time;
  LastSeen : Go.Time;
  FrequencyData : gmap string Z;
  Examples : list string;
  Resolved : bool
}.
End ErrorSummary.

Record ErrorAnalyzer := mkErrorAnalyzer {
  patterns : list ErrorPattern.t;
  summaries : gmap string ErrorSummary.t;
  maxExamples : Z
}.

Definition initializeErrorPatterns : list ErrorPattern.t :=
  [ ErrorPattern.mk ["connection refused"; "连接被拒绝"]
      ErrorTypeNetwork "NET_001" "数据库服务器拒绝连接"
      "检查数据库服务是否运行，端口是否正确，防火墙设置" 4;
    ErrorPattern.mk ["no route to host"; "网络不可达"]
      ErrorTypeNetwork "NET_002" "网络路由问题"
      "检查网络连接，DNS解析，服务器IP地址" 4;
    ErrorPattern.mk ["timeout"; "超时"; "context deadline exceeded"]
      ErrorTypeTimeout "TIME_001" "连接或查询超时"
      "检查网络延迟，增加超时时间，优化查询性能" 3;
    ErrorPattern.mk ["access denied"; "认证失败"; "authentication failed"]
      ErrorTypeAuth "AUTH_001" "身份验证失败"
      "检查用户名密码，用户权限，主机访问权限" 5;
    ErrorPattern.mk ["unknown database"; "database doesn't exist"; "数据库不存在"]
      ErrorTypeConfig "CFG_001" "指定的数据库不存在"
      "确认数据库名称正确，检查数据库是否已创建" 4;
    ErrorPattern.mk ["too many connections"; "连接数过多"]
      ErrorTypeNetwork "NET_003" "数据库连接数超过限制"
      "优化连接池配置，增加最大连接数，检查连接泄露" 3;
    ErrorPattern.mk ["disk full"; "磁盘空间不足"; "no space left"]
      ErrorTypeConfig "CFG_003" "磁盘空间不足"
      "清理磁盘空间，增加存储容量，配置日志轮转" 5;
    ErrorPattern.mk ["lock wait timeout"; "锁等待超时"]
      ErrorTypeSQL "SQL_002" "事务锁等待超时"
      "优化事务逻辑，减少锁持有时间，检查死锁" 3 ].

Definition unknownPattern : ErrorPattern.t :=
  ErrorPattern.mk [] ErrorTypeUnknown "UNK_001" "未识别的错误类型"
    "请联系系统管理员并提供完整错误信息" 2.

(** The analyzer that [GetErrorAnalyzer] builds on first use. *)
Definition GetErrorAnalyzer : ErrorAnalyzer :=
  {| patterns := initializeErrorPatterns; summaries := ∅; maxExamples := 10 |}.

Module Analyzer.
Section WithRuntime.
Context `{GoRuntime}.

(** The inner loop of [matchErrorPattern], over one pattern's keywords. *)
Fixpoint anyKeyword (errorMsgLower : string) (keywords : list string) : bool :=
  match keywords with
  | [] => false
  | keyword :: rest =>
      if Go.Contains errorMsgLower (Go.ToLower caseTable keyword) then true
      else anyKeyword errorMsgLower rest
  end.

(** The outer loop: the first pattern one of whose keywords occurs. *)
Fixpoint scanPatterns (errorMsgLower : string) (ps : list ErrorPattern.t)
  : option ErrorPattern.t :=
  match ps with
  | [] => None
  | pattern :: rest =>
      if anyKeyword errorMsgLower (ErrorPattern.Keywords pattern) then Some pattern
      else scanPatterns errorMsgLower rest
  end.

Definition matchErrorPattern (ea : ErrorAnalyzer) (errorMsg : string) : ErrorPattern.t :=
  let errorMsgLower := Go.ToLower caseTable errorMsg in
  match scanPatterns errorMsgLower (patterns ea) with
  | Some pattern => pattern
  | None => unknownPattern
  end.

Definition enhanceSuggestion (pattern : ErrorPattern.t) (retryCount : Z) : string :=
  let suggestion := ErrorPattern.Suggestion pattern in
  if 0 <? retryCount then
    if String.eqb (ErrorPattern.Typ pattern) ErrorTypeNetwork then
      if 10 <? retryCount
      then suggestion ++ " | 已重试" ++ Go.itoa retryCount ++ "次，建议检查网络稳定性"
      else suggestion
    else if String.eqb (ErrorPattern.Typ pattern) ErrorTypeTimeout then
      if 5 <? retryCount
      then suggestion ++ " | 连续" ++ Go.itoa retryCount ++ "次超时，建议增加超时配置"
      else suggestion
    else if String.eqb (ErrorPattern.Typ pattern) ErrorTypeAuth then
      suggestion ++ " | 认证错误通常不会通过重试解决，请立即检查配置"
    else suggestion
  else suggestion.

Definition summaryKey (typ : ErrorType) (code : string) : string :=
  typ ++ "_" ++ code.

Definition appendExample (maxExamples : Z) (examples : list string) (errorMsg : string)
  : list string :=
  if Z.of_nat (length examples) <? maxExamples then
    if existsb (String.eqb errorMsg) examples then examples
    else examples ++ [errorMsg]
  else examples.

Definition updateErrorSummary (details : ErrorDetails.t) (errorMsg : string)
    (timestamp : Go.Time) (ea : ErrorAnalyzer) : ErrorAnalyzer :=
  let key := summaryKey (ErrorDetails.Typ details) (ErrorDetails.Code details) in
  let summary :=
    match summaries ea !! key with
    | Some summary => summary
    | None =>
        ErrorSummary.mk (ErrorDetails.Typ details) (ErrorDetails.Code details)
          0 timestamp 0 ∅ [] false
    end in
  let hourKey := Time_Format "2006-01-02-15" timestamp in
  let summary' :=
    ErrorSummary.mk (ErrorSummary.Typ summary) (ErrorSummary.Code summary)
      (Go.int_add (ErrorSummary.Count summary) 1)
      (ErrorSummary.FirstSeen summary)
      timestamp
      (<[hourKey := Go.int_add (default 0 (ErrorSummary.FrequencyData summary !! hourKey)) 1]>
         (ErrorSummary.FrequencyData summary))
      (appendExample (maxExamples ea) (ErrorSummary.Examples summary) errorMsg)
      (ErrorSummary.Resolved summary) in
  {| patterns := patterns ea;
     summaries := <[key := summary']> (summaries ea);
     maxExamples := maxExamples ea |}.

(** One pass of the loop of [ClearOldErrors] over the pairs that
    [range] yields, in the order it yields them. *)
Definition clearStep (cutoff : Go.Time) (acc : gmap string ErrorSummary.t * Z)
    (kv : string * ErrorSummary.t) : gmap string ErrorSummary.t * Z :=
  if Go.Time_Before (ErrorSummary.LastSeen kv.2) cutoff
  then (delete kv.1 acc.1, Go.int_add acc.2 1)
  else acc.

Definition clearLoop (cutoff : Go.Time) (range : list (string * ErrorSummary.t))
    (m : gmap string ErrorSummary.t) : gmap string ErrorSummary.t * Z :=
  foldl (clearStep cutoff) (m, 0) range.

End WithRuntime.
End Analyzer.

(** ** The process: shared handle, singletons, clock and goroutines *)

Record Reconnector := mkReconnector {
  isConnected : bool;
  reconnecting : bool;
  ctxDone : bool;          (* [r.ctx] has been cancelled *)
  config : DBConfig;
  retryCount : Z;
  lastError : option string;
  errorHistory : list string
}.

Record ReconnectionLogger := mkReconnectionLogger {
  startTime : Go.Time;
  lastProgressTime : Go.Time;
  progressInterval : Z
}.

(** Where a goroutine running [reconnectionLoop] stands. *)
Inductive PC :=
| AtEntry        (* spawned by [go], nothing run yet *)
| AtSelect       (* at the head of [for], before the outer [select] *)
| InTryConnect   (* took [default]; [tryConnect] is under way *)
| InWait         (* in the inner [select], timer armed *)
| Returned.

Record Loop := mkLoop {
  pc : PC;
  currentDelay : Z;
  reconnLogger : ReconnectionLogger;
  slept : list Z           (* the durations handed to [time.After] so far *)
}.

Record World := mkWorld {
  db : option nat;         (* the package variable [db]; handles are numbered *)
  opened : nat;            (* handles [sql.Open] has created *)
  closed : list nat;       (* handles [Close] was called on *)
  reconnector : Reconnector;
  dbLogger : DatabaseLogger;
  errorAnalyzer : ErrorAnalyzer;
  stdlog : list string;
  clock : nat -> Go.Time;  (* what successive [time.Now()] calls read *)
  ticks : nat;
  loops : list Loop
}.

Definition set_db (v : option nat) (w : World) : World :=
  mkWorld v (opened w) (closed w) (reconnector w) (dbLogger w) (errorAnalyzer w)
    (stdlog w) (clock w) (ticks w) (loops w).
Definition set_opened (v : nat) (w : World) : World :=
  mkWorld (db w) v (closed w) (reconnector w) (dbLogger w) (errorAnalyzer w)
    (stdlog w) (clock w) (ticks w) (loops w).
Definition set_closed (v : list nat) (w : World) : World :=
  mkWorld (db w) (opened w) v (reconnector w) (dbLogger w) (errorAnalyzer w)
    (stdlog w) (clock w) (ticks w) (loops w).
Definition set_reconnector (v : Reconnector) (w : World) : World :=
  mkWorld (db w) (opened w) (closed w) v (dbLogger w) (errorAnalyzer w)
    (stdlog w) (clock w) (ticks w) (loops w).
Definition set_dbLogger (v : DatabaseLogger) (w : World) : World :=
  mkWorld (db w) (opened w) (closed w) (reconnector w) v (errorAnalyzer w)
    (stdlog w) (clock w) (ticks w) (loops w).
Definition set_errorAnalyzer (v : ErrorAnalyzer) (w : World) : World :=
  mkWorld (db w) (opened w) (closed w) (reconnector w) (dbLogger w) v
    (stdlog w) (clock w) (ticks w) (loops w).
Definition set_stdlog (v : list string) (w : World) : World :=
  mkWorld (db w) (opened w) (closed w) (reconnector w) (dbLogger w) (errorAnalyzer w)
    v (clock w) (ticks w) (loops w).
Definition set_ticks (v : nat) (w : World) : World :=
  mkWorld (db w) (opened w) (closed w) (reconnector w) (dbLogger w) (errorAnalyzer w)
    (stdlog w) (clock w) v (loops w).
Definition set_loops (v : list Loop) (w : World) : World :=
  mkWorld (db w) (opened w) (closed w) (reconnector w) (dbLogger w) (errorAnalyzer w)
    (stdlog w) (clock w) (ticks w) v.

Definition set_isConnected (v : bool) (r : Reconnector) : Reconnector :=
  mkReconnector v (reconnecting r) (ctxDone r) (config r) (retryCount r)
    (lastError r) (errorHistory r).
Definition set_reconnecting (v : bool) (r : Reconnector) : Reconnector :=
  mkReconnector (isConnected r) v (ctxDone r) (config r) (retryCount r)
    (lastError r) (errorHistory r).
Definition set_ctxDone (v : bool) (r : Reconnector) : Reconnector :=
  mkReconnector (isConnected r) (reconnecting r) v (config r) (retryCount r)
    (lastError r) (errorHistory r).
Definition set_retryCount (v : Z) (r : Reconnector) : Reconnector :=
  mkReconnector (isConnected r) (reconnecting r) (ctxDone r) (config r) v
    (lastError r) (errorHistory r).
Definition set_lastError (v : option string) (r : Reconnector) : Reconnector :=
  mkReconnector (isConnected r) (reconnecting r) (ctxDone r) (config r) (retryCount r)
    v (errorHistory r).
Definition set_errorHistory (v : list string) (r : Reconnector) : Reconnector :=
  mkReconnector (isConnected r) (reconnecting r) (ctxDone r) (config r) (retryCount r)
    (lastError r) v.

(** The reconnector that [GetReconnector] builds on first use; [cfg] is
    what [config.GetDBConfig] reads from the environment. *)
Definition GetReconnector (cfg : DBConfig) : Reconnector :=
  mkReconnector false false false cfg 0 None [].

(** The process before [main] runs. *)
Definition initialWorld (cfg : DBConfig) (clk : nat -> Go.Time) : World :=
  mkWorld None 0 [] (GetReconnector cfg) Logger.GetDatabaseLogger GetErrorAnalyzer
    [] clk 0 [].

(** Code run against the process: a new process state, a panic or an exit. *)
Definition M (A : Type) : Type := World -> result (A * World).

#[global] Instance M_ret : MRet M := fun A a w => Ok (a, w).
#[global] Instance M_bind : MBind M := fun A B k m w =>
  match m w with
  | Ok (a, w') => k a w'
  | Panic msg => Panic msg
  | Exit code => Exit code
  end.

Definition gets {A : Type} (f : World -> A) : M A := fun w => Ok (f w, w).
Definition modify (f : World -> World) : M unit := fun w => Ok (tt, f w).
Definition modifyReconnector (f : Reconnector -> Reconnector) : M unit :=
  modify (fun w => set_reconnector (f (reconnector w)) w).

Definition lift {A : Type} (m : result A) : M A :=
  fun w =>
    match m with
    | Ok a => Ok (a, w)
    | Panic msg => Panic msg
    | Exit code => Exit code
    end.

#[global] Typeclasses Opaque M.

(** [time.Now()]. *)
Definition Now : M Go.Time :=
  fun w => Ok (clock w (ticks w), set_ticks (S (ticks w)) w).

(** A call of [addEntry] on the shared logger; the clock is read only
    past the level test, as in the source. *)
Definition log (level : LogLevel) (message details : string)
    (connInfo : list (option ConnectionInfo)) : M unit :=
  dl ← gets dbLogger;
  if level <? currentLevel dl then mret tt
  else
    now ← Now;
    '(dl', out) ← lift (Logger.addEntry now level message details connInfo dl);
    modify (fun w => set_stdlog (stdlog w ++ out) (set_dbLogger dl' w)).

Definition logInfo (message : string) (details : list string) : M unit :=
  log LogLevelInfo message (Logger.firstDetail details) [].
Definition logWarn (message : string) (details : list string) : M unit :=
  log LogLevelWarn message (Logger.firstDetail details) [].
Definition logError (message : string) (details : list string) : M unit :=
  log LogLevelError message (Logger.firstDetail details) [].
Definition logDebug (message : string) (details : list string) : M unit :=
  log LogLevelDebug message (Logger.firstDetail details) [].

(** An [error] value is its message; [None] is [nil]. *)
Definition error := option string.

Module AnalyzerOps.
Section WithRuntime.
Context `{GoRuntime}.

Definition logErrorAnalysis (details : ErrorDetails.t) (severity : Z) : M unit :=
  let message :=
    "错误分析: [" ++ ErrorDetails.Code details ++ "] " ++ ErrorDetails.Typ details in
  let logDetails :=
    "原因: " ++ ErrorDetails.Cause details ++ " | 建议: "
      ++ ErrorDetails.Suggestion details in
  if severity =? 5 then logError message [logDetails]
  else if severity =? 4 then logWarn message [logDetails]
  else if severity =? 3 then logInfo message [logDetails]
  else logDebug message [logDetails].

Definition AnalyzeError (err : error) (retryCount : Z) : M (option ErrorDetails.t) :=
  match err with
  | None => mret None
  | Some errorMsg =>
      now ← Now;
      ea ← gets errorAnalyzer;
      let pattern := Analyzer.matchErrorPattern ea errorMsg in
      let details :=
        ErrorDetails.mk (ErrorPattern.Typ pattern) (ErrorPattern.Code pattern)
          errorMsg (ErrorPattern.Cause pattern)
          (Analyzer.enhanceSuggestion pattern retryCount)
          (Time_Format "2006-01-02 15:04:05" now) retryCount in
      modify (fun w =>
        set_errorAnalyzer
          (Analyzer.updateErrorSummary details errorMsg now (errorAnalyzer w)) w);;
      logErrorAnalysis details (ErrorPattern.Severity pattern);;
      mret (Some details)
  end.

(** [ClearOldErrors]; [range] is the order in which the [for ... range]
    over the map yields its entries. *)
Definition ClearOldErrors (range : list (string * ErrorSummary.t)) (olderThan : Z)
  : M Z :=
  now ← Now;
  ea ← gets errorAnalyzer;
  let cutoff := Go.Time_Add now (Go.int_neg olderThan) in
  let '(kept, cleared) := Analyzer.clearLoop cutoff range (summaries ea) in
  modify (set_errorAnalyzer
            {| patterns := patterns ea; summaries := kept;
               maxExamples := maxExamples ea |});;
  (if 0 <? cleared
   then logInfo ("清理了 " ++ Go.itoa cleared ++ " 条旧错误记录") []
   else mret tt);;
  mret cleared.

End WithRuntime.
End AnalyzerOps.

Module ReconnLogger.
Section WithRuntime.
Context `{GoRuntime}.

Definition NewReconnectionLogger : ReconnectionLogger :=
  mkReconnectionLogger 0 0 (30 * Go.Second).

Definition StartReconnection (rl : ReconnectionLogger) : M ReconnectionLogger :=
  now ← Now;
  logInfo "🔄 开始数据库重连程序" [];;
  mret (mkReconnectionLogger now now (progressInterval rl)).

Definition LogRetry (retryCount nextDelay : Z) (lastErr : error)
    (rl : ReconnectionLogger) : M ReconnectionLogger :=
  now ← Now;
  let elapsed :=
    Duration_String (Go.Duration_Round (Go.Time_Sub now (startTime rl)) Go.Second) in
  let '(shouldLog, message, details, rl') :=
    if retryCount =? 1 then
      (true, "开始第一次重连尝试", "", rl)
    else if retryCount <=? 3 then
      (true, "第 " ++ Go.itoa retryCount ++ " 次重连尝试", "", rl)
    else if Z.rem retryCount 10 =? 0 then
      (true, "重连进行中 - 第 " ++ Go.itoa retryCount ++ " 次尝试",
       "已耗时: " ++ elapsed ++ ", 下次尝试间隔: " ++ Duration_String nextDelay
         ++ match lastErr with
            | Some e => ", 最后错误: " ++ e
            | None => ""
            end,
       rl)
    else if progressInterval rl <=? Go.Time_Sub now (lastProgressTime rl) then
      (true, "重连进度更新 - 第 " ++ Go.itoa retryCount ++ " 次尝试",
       "已耗时: " ++ elapsed,
       mkReconnectionLogger (startTime rl) now (progressInterval rl))
    else (false, "", "", rl) in
  (if shouldLog : bool then
     if negb (String.eqb details "") then logWarn message [details]
     else logInfo message []
   else mret tt);;
  mret rl'.

Definition LogSuccess (totalRetries : Z) (rl : ReconnectionLogger) : M unit :=
  now ← Now;
  logInfo "✅ 数据库重连成功"
    ["总计重试: " ++ Go.itoa totalRetries ++ " 次, 耗时: "
       ++ Duration_String (Go.Duration_Round (Go.Time_Sub now (startTime rl)) Go.Second)].

End WithRuntime.
End ReconnLogger.

(** ** The reconnector: [Reconnector] in [database/error_analyzer.go] *)

(** How one run of [tryConnect] ends, as the database decides it. *)
Inductive ConnectOutcome :=
| OpenFailed (err : string)
| PingFailed (err : string) (closeErr : error)
| Connected (closeOldErr : error).

(** What a goroutine in [reconnectionLoop] is given to move on. *)
Inductive LoopInput :=
| Run                              (* nothing from outside is needed *)
| Attempt (o : ConnectOutcome)     (* [tryConnect] comes back *)
| TimerFired                       (* [<-time.After(currentDelay)] *)
| Cancelled.                       (* [<-r.ctx.Done()] in the inner [select] *)

Module Reconn.
Section WithRuntime.
Context `{GoRuntime}.

Definition IsConnected : M bool := gets (fun w => isConnected (reconnector w)).
Definition IsReconnecting : M bool := gets (fun w => reconnecting (reconnector w)).
Definition GetRetryCount : M Z := gets (fun w => retryCount (reconnector w)).
Definition GetLastError : M error := gets (fun w => lastError (reconnector w)).
Definition GetErrorHistory : M (list string) :=
  gets (fun w => errorHistory (reconnector w)).

(** A goroutine as [go r.reconnectionLoop()] creates it. *)
Definition freshLoop : Loop := mkLoop AtEntry 0 (mkReconnectionLogger 0 0 0) [].

(** [go r.reconnectionLoop()]. *)
Definition spawnLoop : M unit :=
  modify (fun w => set_loops (loops w ++ [freshLoop]) w).

Definition StartReconnection : M unit :=
  r ← gets reconnector;
  if reconnecting r then mret tt
  else
    modifyReconnector (set_reconnecting true);;
    spawnLoop.

Definition StopReconnection : M unit :=
  modifyReconnector (set_reconnecting false);;
  modifyReconnector (set_ctxDone true).

Definition addErrorToHistory (errorMsg : string) : M unit :=
  now ← Now;
  let entry := "[" ++ Time_Format "2006-01-02 15:04:05" now ++ "] " ++ errorMsg in
  modifyReconnector (fun r =>
    let kept :=
      if 10 <=? Z.of_nat (length (errorHistory r))
      then drop 1 (errorHistory r)
      else errorHistory r in
    set_errorHistory (kept ++ [entry]) r).

Definition buildDSN (cfg : DBConfig) : string :=
  cfgUser cfg ++ ":" ++ cfgPass cfg ++ "@tcp(" ++ cfgHost cfg ++ ":" ++ cfgPort cfg
    ++ ")/" ++ cfgName cfg ++ "?parseTime=true&loc=Local".

(** [sql.Open] handing out a new handle. *)
Definition openHandle : M nat :=
  n ← gets opened;
  modify (set_opened (S n));;
  mret n.

Definition closeHandle (h : nat) : M unit :=
  modify (fun w => set_closed (closed w ++ [h]) w).

Definition tryConnect (o : ConnectOutcome) : M bool :=
  match o with
  | OpenFailed err =>
      modifyReconnector (set_lastError (Some err));;
      addErrorToHistory ("打开数据库连接失败: " ++ err);;
      mret false
  | PingFailed err closeErr =>
      newDB ← openHandle;
      modifyReconnector (set_lastError (Some err));;
      addErrorToHistory ("数据库连接测试失败: " ++ err);;
      closeHandle newDB;;
      match closeErr with
      | Some e => logError "关闭新数据库连接失败" [e]
      | None => mret tt
      end;;
      mret false
  | Connected closeOldErr =>
      newDB ← openHandle;
      old ← gets db;
      match old with
      | Some h =>
          closeHandle h;;
          match closeOldErr with
          | Some e => logError "关闭旧数据库连接失败" [e]
          | None => mret tt
          end
      | None => mret tt
      end;;
      modify (set_db (Some newDB));;
      mret true
  end.

Definition initialDelay : Z := 1 * Go.Second.
Definition maxDelay : Z := 30 * Go.Second.

(** The assignment in the timer branch: [currentDelay *= 2], capped. *)
Definition nextDelay (cur : Z) : Z :=
  let doubled := Go.int_mul cur 2 in
  if maxDelay <? doubled then maxDelay else doubled.

(** The two arms of the loop body after [tryConnect] has come back. *)
Definition afterConnected (l : Loop) : M Loop :=
  successRetryCount ← GetRetryCount;
  modifyReconnector (fun r =>
    set_lastError None
      (set_retryCount 0 (set_reconnecting false (set_isConnected true r))));;
  ReconnLogger.LogSuccess successRetryCount (reconnLogger l);;
  mret (mkLoop Returned (currentDelay l) (reconnLogger l) (slept l)).

Definition afterFailed (l : Loop) : M Loop :=
  modifyReconnector (fun r => set_retryCount (Go.int_add (retryCount r) 1) r);;
  retryCount ← GetRetryCount;
  lastErr ← GetLastError;
  rl ← ReconnLogger.LogRetry retryCount (currentDelay l) lastErr (reconnLogger l);
  mret (mkLoop InWait (currentDelay l) rl (slept l ++ [currentDelay l])).

(** One move of a goroutine running [reconnectionLoop]; [None] when
    the goroutine cannot take this input where it stands.  In the
    outer [select] the [default] arm runs only when [ctx.Done()] is not
    ready; in the inner one the timer may win even when it is. *)
Definition stepLoop (inp : LoopInput) (l : Loop) (w : World)
  : option (result (Loop * World)) :=
  match pc l, inp with
  | AtEntry, Run =>
      Some ((rl ← ReconnLogger.StartReconnection ReconnLogger.NewReconnectionLogger;
             mret (mkLoop AtSelect initialDelay rl (slept l))) w)
  | AtSelect, Run =>
      Some (Ok (mkLoop (if ctxDone (reconnector w) then Returned else InTryConnect)
                  (currentDelay l) (reconnLogger l) (slept l), w))
  | InTryConnect, Attempt o =>
      Some ((ok ← tryConnect o;
             if ok : bool then afterConnected l else afterFailed l) w)
  | InWait, TimerFired =>
      Some (Ok (mkLoop AtSelect (nextDelay (currentDelay l)) (reconnLogger l) (slept l), w))
  | InWait, Cancelled =>
      if ctxDone (reconnector w)
      then Some (Ok (mkLoop Returned (currentDelay l) (reconnLogger l) (slept l), w))
      else None
  | _, _ => None
  end.

Definition OnConnectionLost : M unit :=
  modifyReconnector (set_isConnected false);;
  logWarn "❌ 数据库连接丢失，启动重连程序..." [];;
  StartReconnection.

(** [ping] is what [db.Ping()] answers, should it be called. *)
Definition CheckConnection (ping : error) : M bool :=
  d ← gets db;
  match d with
  | None => mret false
  | Some _ =>
      match ping with
      | Some _ => OnConnectionLost;; mret false
      | None => modifyReconnector (set_isConnected true);; mret true
      end
  end.

End WithRuntime.
End Reconn.

(** ** [database/connection.go] *)

Module Connection.
Section WithRuntime.
Context `{GoRuntime}.

Definition analyzeError (err : error) (retryCount : Z) : M (option ErrorDetails.t) :=
  match err with
  | None => mret None
  | Some _ => AnalyzerOps.AnalyzeError err retryCount
  end.

Definition connInfoOf (cfg : DBConfig) : ConnectionInfo :=
  mkConnectionInfo (cfgHost cfg) (cfgPort cfg) (cfgUser cfg) (cfgPass cfg) (cfgName cfg).

(** [openErr] is the error of [sql.Open], [ping] the answer of the
    first [db.Ping()]. *)
Definition InitDB (openErr ping : error) : M error :=
  cfg ← gets (fun w => config (reconnector w));
  let connInfo := connInfoOf cfg in
  match openErr with
  | Some err =>
      modify (set_db None);;
      log LogLevelError "数据库连接打开失败" err [Some connInfo];;
      mret (Some ("open database: " ++ err))
  | None =>
      h ← Reconn.openHandle;
      modify (set_db (Some h));;
      match ping with
      | Some err =>
          details ← analyzeError (Some err) 0;
          match details with
          | Some d =>
              log LogLevelError "❌ 数据库连接测试失败"
                ("错误类型: " ++ ErrorDetails.Typ d ++ ", 错误代码: "
                   ++ ErrorDetails.Code d ++ ", 问题原因: " ++ ErrorDetails.Cause d
                   ++ ", 解决建议: " ++ ErrorDetails.Suggestion d)
                [Some connInfo]
          | None => lift (Panic "nil pointer dereference")
          end;;
          Reconn.StartReconnection;;
          mret None
      | None =>
          log LogLevelInfo
            ("✅ 数据库连接成功: " ++ cfgHost cfg ++ ":" ++ cfgPort cfg) ""
            [Some connInfo];;
          modifyReconnector (set_isConnected true);;
          mret None
      end
  end.

Definition CloseDB (closeErr : error) : M unit :=
  Reconn.StopReconnection;;
  cfg ← gets (fun w => config (reconnector w));
  let connInfo := connInfoOf cfg in
  d ← gets db;
  match d with
  | Some h =>
      Reconn.closeHandle h;;
      match closeErr with
      | Some e => log LogLevelError "关闭数据库连接失败" e [Some connInfo]
      | None => log LogLevelInfo "数据库连接已关闭" "" [Some connInfo]
      end;;
      modify (set_db None)
  | None => mret tt
  end.

(** [ping] is the answer of [db.Ping()] and [query] that of
    [SELECT NOW()], should they be asked. *)
Definition CheckStatus (ping : error) (query : string + string) : M DBStatus.t :=
  d ← gets db;
  match d with
  | None =>
      now ← Now;
      mret (DBStatus.mk "Not Connected" "" "Database not initialized"
              (Some (ErrorDetails.mk ErrorTypeConfig "CFG_002"
                       "Database not initialized" "数据库连接未初始化"
                       "请检查数据库配置和启动过程"
                       (Time_Format "2006-01-02 15:04:05" now) 0)))
  | Some _ =>
      match ping with
      | Some err =>
          retryCount ← Reconn.GetRetryCount;
          errorDetails ← analyzeError (Some err) retryCount;
          Reconn.OnConnectionLost;;
          busy ← Reconn.IsReconnecting;
          if busy : bool then
            let message :=
              if 0 <? retryCount
              then "正在尝试重新连接数据库... (第 " ++ Go.itoa retryCount ++ " 次重试)"
              else "正在尝试重新连接数据库..." in
            mret (DBStatus.mk "Reconnecting" "" message
                    (ErrorDetails.withMessage message <$> errorDetails))
          else
            mret (DBStatus.mk "Not Connected" ""
                    ("Database connection failed: " ++ err) errorDetails)
      | None =>
          match query with
          | inr err =>
              errorDetails ← analyzeError (Some err) 0;
              mret (DBStatus.mk "Failed" "" ("Query failed: " ++ err) errorDetails)
          | inl currentTime => mret (DBStatus.mk "OK" currentTime "" None)
          end
      end
  end.

End WithRuntime.
End Connection.

(** ** The process as a transition system

    Request handlers, [main] and the retry goroutines interleave; one
    event is one call (or, for a retry goroutine, one move). *)

Inductive Event :=
| EvInitDB (openErr ping : error)
| EvCloseDB (closeErr : error)
| EvCheckStatus (ping : error) (query : string + string)
| EvCheckConnection (ping : error)
| EvOnConnectionLost
| EvStartReconnection
| EvStopReconnection
| EvLoop (i : nat) (inp : LoopInput).

Module Process.
Section WithRuntime.
Context `{GoRuntime}.

Definition forget {A : Type} (m : M A) (w : World) : result World :=
  match m w with
  | Ok (_, w') => Ok w'
  | Panic msg => Panic msg
  | Exit code => Exit code
  end.

Definition step (ev : Event) (w : World) : option (result World) :=
  match ev with
  | EvInitDB openErr ping => Some (forget (Connection.InitDB openErr ping) w)
  | EvCloseDB closeErr => Some (forget (Connection.CloseDB closeErr) w)
  | EvCheckStatus ping query => Some (forget (Connection.CheckStatus ping query) w)
  | EvCheckConnection ping => Some (forget (Reconn.CheckConnection ping) w)
  | EvOnConnectionLost => Some (forget Reconn.OnConnectionLost w)
  | EvStartReconnection => Some (forget Reconn.StartReconnection w)
  | EvStopReconnection => Some (forget Reconn.StopReconnection w)
  | EvLoop i inp =>
      l ← loops w !! i;
      r ← Reconn.stepLoop inp l w;
      Some match r with
           | Ok (l', w') => Ok (set_loops (<[i := l']> (loops w')) w')
           | Panic msg => Panic msg
           | Exit code => Exit code
           end
  end.

(** A schedule is a list of events; it runs while each event is
    enabled and nothing panics. *)
Fixpoint run (evs : list Event) (w : World) : option World :=
  match evs with
  | [] => Some w
  | ev :: rest =>
      match step ev w with
      | Some (Ok w') => run rest w'
      | _ => None
      end
  end.






(** No goroutine is inside [tryConnect]. *)
Definition noAttemptInFlight (w : World) : Prop :=
  forall l, l ∈ loops w -> pc l <> InTryConnect.

(** The context is cancelled and no attempt is in flight. *)
Definition quiet (w : World) : Prop :=
  ctxDone (reconnector w) = true /\ Forall (fun l => pc l <> InTryConnect) (loops w).

(** A schedule in which nobody calls [StopReconnection], directly or
    through [CloseDB]. *)
Definition stops (ev : Event) : bool :=
  match ev with
  | EvStopReconnection | EvCloseDB _ => true
  | _ => false
  end.
Definition stopFree (evs : list Event) : Prop := forall ev, ev ∈ evs -> stops ev = false.

(** The delays of the specification, in nanoseconds: 1, 2, 4, 8, 16, 30,
    30, ... seconds. *)
Definition backoff (k : nat) : Z := Z.min (2 ^ Z.of_nat k) 30 * Go.Second.
Definition backoffPrefix (n : nat) : list Z := backoff <$> seq 0 n.

(** A goroutine has slept the first delays of the sequence, and holds
    the next one. *)
Definition loopOk (l : Loop) : Prop :=
  slept l = backoffPrefix (length (slept l)) /\
  match pc l with
  | AtEntry => slept l = []
  | AtSelect | InTryConnect => currentDelay l = backoff (length (slept l))
  | InWait => exists k : nat, length (slept l) = S k /\ currentDelay l = backoff k
  | Returned => True
  end.

(** A schedule that starts the reconnector and lets its goroutine fail
    [n] times, the timer firing after each failure. *)
Definition failRound : list Event :=
  [EvLoop 0 Run; EvLoop 0 (Attempt (PingFailed "connection refused" None));
   EvLoop 0 TimerFired].
Fixpoint failRounds (n : nat) : list Event :=
  match n with
  | O => []
  | S n' => failRound ++ failRounds n'
  end.
Definition failingSchedule (n : nat) : list Event :=
  EvStartReconnection :: EvLoop 0 Run :: failRounds n.


End WithRuntime.
End Process.

(** ** The analyzer's housekeeping: [MarkErrorResolved], [GetTopErrors] *)

Module AnalyzerMore.
Section WithRuntime.
Context `{GoRuntime}.

Definition setResolved (s : ErrorSummary.t) : ErrorSummary.t :=
  ErrorSummary.mk (ErrorSummary.Typ s) (ErrorSummary.Code s) (ErrorSummary.Count s)
    (ErrorSummary.FirstSeen s) (ErrorSummary.LastSeen s) (ErrorSummary.FrequencyData s)
    (ErrorSummary.Examples s) true.

Definition MarkErrorResolved (errorType : ErrorType) (code : string) : M unit :=
  ea ← gets errorAnalyzer;
  let key := Analyzer.summaryKey errorType code in
  match summaries ea !! key with
  | Some summary =>
      modify (set_errorAnalyzer
                {| patterns := patterns ea;
                   summaries := <[key := setResolved summary]> (summaries ea);
                   maxExamples := maxExamples ea |});;
      logInfo ("错误已标记为解决: [" ++ code ++ "] " ++ errorType) []
  | None => mret tt
  end.

(** The inner loop of the bubble sort in [GetTopErrors], [j] running
    over the first [k] positions: [x] is the element at [j], compared with
    the next one; the one with the smaller count moves on to [j+1]. *)
Fixpoint carry (k : nat) (x : ErrorSummary.t) (rest : list ErrorSummary.t)
  : list ErrorSummary.t :=
  match k, rest with
  | S k', y :: rest' =>
      if ErrorSummary.Count x <? ErrorSummary.Count y
      then y :: carry k' x rest'
      else x :: carry k' y rest'
  | _, _ => x :: rest
  end.

Definition bubblePass (k : nat) (s : list ErrorSummary.t) : list ErrorSummary.t :=
  match s with
  | [] => []
  | x :: rest => carry k x rest
  end.

(** The outer loop: pass [i] makes [len - i - 1] comparisons, for [i]
    from [0] to [len - 2]; [k] is the number of comparisons of the next
    pass. *)
Fixpoint bubblePasses (k : nat) (s : list ErrorSummary.t) : list ErrorSummary.t :=
  match k with
  | O => s
  | S k' => bubblePasses k' (bubblePass k s)
  end.

Definition bubbleSort (s : list ErrorSummary.t) : list ErrorSummary.t :=
  bubblePasses (length s - 1) s.

(** [GetTopErrors]; [range] is the order in which the [for ... range]
    over the map yields its entries. *)
Definition GetTopErrors (range : list (string * ErrorSummary.t)) (limit : Z)
  : list ErrorSummary.t :=
  let sorted := bubbleSort (range.*2) in
  if (0 <? limit) && (limit <? Z.of_nat (length sorted))
  then take (Z.to_nat limit) sorted
  else sorted.

(** [AnalyzeError] called on one error after the other. *)
Fixpoint analyzeAll (errs : list (string * Z)) : M unit :=
  match errs with
  | [] => mret tt
  | (errorMsg, retryCount) :: rest =>
      AnalyzerOps.AnalyzeError (Some errorMsg) retryCount;;
      analyzeAll rest
  end.

End WithRuntime.
End AnalyzerMore.

(** ** [GetErrorTrends] *)

Module Trends.
Record t := mk {
  total_errors : Z;
  error_types : gmap string Z;
  hourly_data : gmap string Z;
  resolved_count : Z
}.
End Trends.

(** [m[k] += v] on a Go map of ints: a missing key reads as zero. *)
Definition bump (k : string) (v : Z) (m : gmap string Z) : gmap string Z :=
  <[k := Go.int_add (default 0 (m !! k)) v]> m.

(** The body of the outer loop of [GetErrorTrends]; [inner] is the order
    in which [range] yields the entries of a frequency map. *)
Definition trendsStep (inner : gmap string Z -> list (string * Z))
    (t : Trends.t) (summary : ErrorSummary.t) : Trends.t :=
  Trends.mk
    (Go.int_add (Trends.total_errors t) (ErrorSummary.Count summary))
    (bump (ErrorSummary.Typ summary) (ErrorSummary.Count summary) (Trends.error_types t))
    (foldl (fun acc kv => bump kv.1 kv.2 acc) (Trends.hourly_data t)
       (inner (ErrorSummary.FrequencyData summary)))
    (if ErrorSummary.Resolved summary
     then Go.int_add (Trends.resolved_count t) 1
     else Trends.resolved_count t).

(** [GetErrorTrends]; [range] is the order in which the outer
    [for ... range] yields the summaries. *)
Definition GetErrorTrends (range : list (string * ErrorSummary.t))
    (inner : gmap string Z -> list (string * Z)) : Trends.t :=
  foldl (trendsStep inner) (Trends.mk 0 ∅ ∅ 0) (range.*2).

(** ** More notions for the properties *)

(** The sum of a list of numbers, and of the values of a map. *)
Definition total (l : list Z) : Z := foldr Z.add 0 l.
Definition freqTotal (m : gmap string Z) : Z := total ((map_to_list m).*2).

(** The hourly histogram of a summary accounts for its count: every
    bucket is positive and the buckets add up to the count. *)
Definition histogramOk (s : ErrorSummary.t) : Prop :=
  map_Forall (fun _ v => 0 < v) (ErrorSummary.FrequencyData s) /\
  ErrorSummary.Count s = freqTotal (ErrorSummary.FrequencyData s).

Definition histogramsOk (ea : ErrorAnalyzer) : Prop :=
  forall key s, summaries ea !! key = Some s -> histogramOk s.

(** There is room for [n] more errors: no count is within [n] of the
    largest int. *)
Definition countsBelow (n : Z) (ea : ErrorAnalyzer) : Prop :=
  n < 2 ^ 63 /\
  forall key s, summaries ea !! key = Some s -> ErrorSummary.Count s + n < 2 ^ 63.

(** How many of [errs] fall under the summary key [key]. *)
Definition matching `{GoRuntime} (ea : ErrorAnalyzer) (key : string)
    (errs : list (string * Z)) : nat :=
  length (filter (fun e =>
            let p := Analyzer.matchErrorPattern ea e.1 in
            Analyzer.summaryKey (ErrorPattern.Typ p) (ErrorPattern.Code p) = key) errs).

(** The count a key stands at; zero when it has no summary. *)
Definition countOf (ea : ErrorAnalyzer) (key : string) : Z :=
  match summaries ea !! key with
  | Some s => ErrorSummary.Count s
  | None => 0
  end.

(** A summary as [updateErrorSummary] keeps it: filed under its own type
    and code, its examples without repetition and within the limit. *)
Definition summaryOk (ea : ErrorAnalyzer) (key : string) (s : ErrorSummary.t) : Prop :=
  key = Analyzer.summaryKey (ErrorSummary.Typ s) (ErrorSummary.Code s) /\
  NoDup (ErrorSummary.Examples s) /\
  Z.of_nat (length (ErrorSummary.Examples s)) <= maxExamples ea.

Definition summariesOk (ea : ErrorAnalyzer) : Prop :=
  forall key s, summaries ea !! key = Some s -> summaryOk ea key s.

(** Descending by count. *)
Definition countGe (a b : ErrorSummary.t) : Prop :=
  ErrorSummary.Count b <= ErrorSummary.Count a.

(** The handles in use are in order: the shared one, if any, was opened
    and has not been closed; no handle was closed twice or before it was
    opened. *)
Definition handlesOk (w : World) : Prop :=
  (forall h, db w = Some h -> (h < opened w)%nat /\ h ∉ closed w) /\
  NoDup (closed w) /\
  Forall (fun h => (h < opened w)%nat) (closed w).

(** [w'] has the connection state of [w]: handles, retry count, last
    error and error history. *)
Definition connSame (w w' : World) : Prop :=
  db w' = db w /\ opened w' = opened w /\ closed w' = closed w /\
  retryCount (reconnector w') = retryCount (reconnector w) /\
  lastError (reconnector w') = lastError (reconnector w) /\
  errorHistory (reconnector w') = errorHistory (reconnector w).

(** What [addErrorToHistory] makes of a history. *)
Definition pushHistory (entry : string) (history : list string) : list string :=
  (if 10 <=? Z.of_nat (length history) then drop 1 history else history) ++ [entry].

(** The history does not outgrow its ten entries. *)
Definition historyOk (w : World) : Prop :=
  (length (errorHistory (reconnector w)) <= 10)%nat.

(** [w'] has the reconnector's bookkeeping of [w]. *)
Definition bookSame (w w' : World) : Prop :=
  retryCount (reconnector w') = retryCount (reconnector w) /\
  lastError (reconnector w') = lastError (reconnector w) /\
  errorHistory (reconnector w') = errorHistory (reconnector w).

(** [w'] differs from [w] in diagnostics only: the log buffer, the
    standard log, the error summaries and the clock reads. *)
Definition diagOnly (w w' : World) : Prop :=
  db w' = db w /\ opened w' = opened w /\ closed w' = closed w /\
  reconnector w' = reconnector w /\ loops w' = loops w /\
  clock w' = clock w /\
  maxEntries (dbLogger w') = maxEntries (dbLogger w).

(** [m] run in [w] returns, with a value and a process state that
    satisfy [Q]; it may panic only by the slice panic of the logger,
    which takes a capacity of zero or less. *)
Definition wp {A : Type} (m : M A) (w : World) (Q : A -> World -> Prop) : Prop :=
  match m w with
  | Ok (a, w') => Q a w'
  | Panic _ => maxEntries (dbLogger w) <= 0
  | Exit _ => False
  end.

(** What ends a connection attempt in failure: the error and the line
    that goes into the history. *)
Definition failureOf (o : ConnectOutcome) : option (string * string) :=
  match o with
  | OpenFailed err => Some (err, "打开数据库连接失败: " ++ err)
  | PingFailed err _ => Some (err, "数据库连接测试失败: " ++ err)
  | Connected _ => None
  end.

Definition succeeds (o : ConnectOutcome) : bool :=
  match o with
  | Connected _ => true
  | _ => false
  end.

(** What a connection attempt does to the handles. *)
Definition handlesEffect (o : ConnectOutcome) (w w' : World) : Prop :=
  match o with
  | OpenFailed _ =>
      db w' = db w /\ opened w' = opened w /\ closed w' = closed w
  | PingFailed _ _ =>
      db w' = db w /\ opened w' = S (opened w) /\
      closed w' = (closed w ++ [opened w])%list
  | Connected _ =>
      db w' = Some (opened w) /\ opened w' = S (opened w) /\
      closed w' = (closed w ++ match db w with Some h => [h] | None => [] end)%list
  end.

(** What it does to the error history. *)
Definition historyEffect `{GoRuntime} (o : ConnectOutcome) (w w' : World) : Prop :=
  errorHistory (reconnector w')
  = match failureOf o with
    | Some (_, line) =>
        pushHistory
          ("[" ++ Time_Format "2006-01-02 15:04:05" (clock w (ticks w)) ++ "] " ++ line)
          (errorHistory (reconnector w))
    | None => errorHistory (reconnector w)
    end.

(** ** Notions the properties are stated with *)

(** A run time to evaluate the model on concrete inputs: no case
    mapping above ASCII, empty renderings of times and durations. *)
Definition plainRuntime : GoRuntime :=
  {| caseTable := fun r => r;
     Time_Format := fun _ _ => "";
     Duration_String := fun _ => "" |}.

Definition sampleConfig : DBConfig := mkDBConfig "localhost" "3306" "root" "" "mysql".

(** Two summaries, one last seen at 5 and one at 100, in a process whose
    clock reads 100. *)
Definition sampleSummaries : gmap string ErrorSummary.t :=
  <["network_NET_001" :=
      ErrorSummary.mk ErrorTypeNetwork "NET_001" 3 1 5 ∅ ["connection refused"] false]>
    (<["timeout_TIME_001" :=
         ErrorSummary.mk ErrorTypeTimeout "TIME_001" 1 100 100 ∅ ["i/o timeout"] false]> ∅).

Definition sampleWorld : World :=
  set_errorAnalyzer (mkErrorAnalyzer initializeErrorPatterns sampleSummaries 10)
    (initialWorld sampleConfig (fun _ => 100)).

Module Spec.
Section WithRuntime.
Context `{GoRuntime}.

(** [keyword] occurs in [message] as a substring, letter case aside. *)
Definition occursIn (message keyword : string) : Prop :=
  Go.Contains (Go.ToLower caseTable message) (Go.ToLower caseTable keyword) = true.

Definition hasKeyword (message : string) (p : ErrorPattern.t) : Prop :=
  exists keyword, keyword ∈ ErrorPattern.Keywords p /\ occursIn message keyword.

Definition stabilityHint (retryCount : Z) : string :=
  " | 已重试" ++ Go.itoa retryCount ++ "次，建议检查网络稳定性".
Definition timeoutHint (retryCount : Z) : string :=
  " | 连续" ++ Go.itoa retryCount ++ "次超时，建议增加超时配置".
Definition immediateCheckHint : string :=
  " | 认证错误通常不会通过重试解决，请立即检查配置".

(** The retry-aware rules, category by category: which hint, if any,
    follows the base suggestion. *)
Definition retryHint (typ : ErrorType) (retryCount : Z) : string :=
  if decide (typ = ErrorTypeNetwork) then
    if decide (10 < retryCount) then stabilityHint retryCount else ""
  else if decide (typ = ErrorTypeTimeout) then
    if decide (5 < retryCount) then timeoutHint retryCount else ""
  else if decide (typ = ErrorTypeAuth) then
    if decide (0 < retryCount) then immediateCheckHint else ""
  else "".

(** The same with the authentication hint unconditional, as the
    specification words it. *)
Definition retryHintAsSpecified (typ : ErrorType) (retryCount : Z) : string :=
  if decide (typ = ErrorTypeNetwork) then
    if decide (10 < retryCount) then stabilityHint retryCount else ""
  else if decide (typ = ErrorTypeTimeout) then
    if decide (5 < retryCount) then timeoutHint retryCount else ""
  else if decide (typ = ErrorTypeAuth) then immediateCheckHint
  else "".
End WithRuntime.
End Spec.

(** [w'] differs from [w] at most in what logging writes: the log
    buffer, the standard log and the clock reads. *)
Definition onlyLogged (w w' : World) : Prop :=
  db w' = db w /\ opened w' = opened w /\ closed w' = closed w /\
  reconnector w' = reconnector w /\ errorAnalyzer w' = errorAnalyzer w /\
  loops w' = loops w /\ clock w' = clock w /\
  maxEntries (dbLogger w') = maxEntries (dbLogger w) /\
  currentLevel (dbLogger w') = currentLevel (dbLogger w).

(** [w'] has the control state of [w]: the reconnecting flag, the
    cancellation and the goroutines; and the same logger capacity. *)
Definition ctlSame (w w' : World) : Prop :=
  reconnecting (reconnector w') = reconnecting (reconnector w) /\
  ctxDone (reconnector w') = ctxDone (reconnector w) /\
  loops w' = loops w /\
  maxEntries (dbLogger w') = maxEntries (dbLogger w).

(** The moves of a goroutine in [reconnectionLoop], by what they do to
    the goroutine and to the control state of the process. *)
Inductive LoopMove (w : World) (l : Loop) (w' : World) (l' : Loop) : Prop :=
| MoveEntry :
    pc l = AtEntry -> pc l' = AtSelect ->
    currentDelay l' = Reconn.initialDelay -> slept l' = slept l ->
    ctlSame w w' -> LoopMove w l w' l'
| MoveSelect :
    pc l = AtSelect ->
    pc l' = (if ctxDone (reconnector w) then Returned else InTryConnect) ->
    currentDelay l' = currentDelay l -> slept l' = slept l ->
    w' = w -> LoopMove w l w' l'
| MoveConnected :
    pc l = InTryConnect -> pc l' = Returned ->
    currentDelay l' = currentDelay l -> slept l' = slept l ->
    reconnecting (reconnector w') = false ->
    isConnected (reconnector w') = true ->
    ctxDone (reconnector w') = ctxDone (reconnector w) ->
    loops w' = loops w ->
    maxEntries (dbLogger w') = maxEntries (dbLogger w) -> LoopMove w l w' l'
| MoveFailed :
    pc l = InTryConnect -> pc l' = InWait ->
    currentDelay l' = currentDelay l ->
    slept l' = (slept l ++ [currentDelay l])%list ->
    ctlSame w w' -> LoopMove w l w' l'
| MoveTimer :
    pc l = InWait -> pc l' = AtSelect ->
    currentDelay l' = Reconn.nextDelay (currentDelay l) -> slept l' = slept l ->
    w' = w -> LoopMove w l w' l'
| MoveCancelled :
    pc l = InWait -> ctxDone (reconnector w) = true -> pc l' = Returned ->
    currentDelay l' = currentDelay l -> slept l' = slept l ->
    w' = w -> LoopMove w l w' l'.

(** [m], when it returns, relates the process before and after by [R]. *)
Definition preserves {A : Type} (R : World -> World -> Prop) (m : M A) : Prop :=
  forall w a w', m w = Ok (a, w') -> R w w'.

(** * Properties *)

(** ** Arithmetic on Go's 64-bit integers *)

Lemma wrap64_small (z : Z) : - 2 ^ 63 <= z < 2 ^ 63 -> Go.wrap64 z = z.
Proof.
  intros Hz. unfold Go.wrap64.
  rewrite Z.mod_small by lia. lia.
Qed.

Lemma wrap64_add_l (a b : Z) : Go.wrap64 (Go.wrap64 a + b) = Go.wrap64 (a + b).
Proof.
  unfold Go.wrap64.
  replace ((a + 2 ^ 63) mod 2 ^ 64 - 2 ^ 63 + b + 2 ^ 63)
    with ((a + 2 ^ 63) mod 2 ^ 64 + b) by lia.
  replace (a + b + 2 ^ 63) with (a + 2 ^ 63 + b) by lia.
  rewrite Zplus_mod_idemp_l. reflexivity.
Qed.

(** ** The logger *)

Section LoggerFacts.
Implicit Types (dl : DatabaseLogger) (level : LogLevel) (message details : string).

Lemma addEntry_below_level now level message details ci dl :
  level < currentLevel dl ->
  Logger.addEntry now level message details ci dl = Ok (dl, []).
Proof.
  intros Hlt. unfold Logger.addEntry.
  destruct (Z.ltb_spec level (currentLevel dl)); [reflexivity | lia].
Qed.

Lemma addEntry_duplicate now level message details ci dl :
  currentLevel dl <= level ->
  Logger.isDuplicate dl level message = true ->
  Logger.addEntry now level message details ci dl = Ok (Logger.bumpLast now dl, []).
Proof.
  intros Hge Hdup. unfold Logger.addEntry.
  destruct (Z.ltb_spec level (currentLevel dl)); [lia |].
  rewrite Hdup. reflexivity.
Qed.

Lemma addEntry_fresh now level message details ci dl :
  currentLevel dl <= level ->
  Logger.isDuplicate dl level message = false ->
  0 < maxEntries dl ->
  let entry :=
    mkLogEntry level message now details 1
      (match ci with Some c :: _ => Some c | _ => None end) in
  Logger.addEntry now level message details ci dl
  = Ok (mkDatabaseLogger
          ((if maxEntries dl <=? Z.of_nat (length (entries dl))
            then drop 1 (entries dl) else entries dl) ++ [entry])
          (maxEntries dl) (currentLevel dl) (Some entry) (suppressDuplicates dl),
        Logger.outputToStdLog entry).
Proof.
  intros Hge Hdup Hmax entry. unfold Logger.addEntry.
  destruct (Z.ltb_spec level (currentLevel dl)); [lia |].
  rewrite Hdup.
  destruct (Z.leb_spec (maxEntries dl) (Z.of_nat (length (entries dl)))) as [Hfull | Hroom].
  - destruct (entries dl) as [| e es] eqn:Hes; [simpl in Hfull; lia |].
    reflexivity.
  - reflexivity.
Qed.

(** Repeating a message that the last-entry cell already holds touches
    that cell only. *)
Lemma addEntryTimes_duplicates (n : nat) :
  forall (now : nat -> Go.Time) level message details dl last,
    suppressDuplicates dl = true ->
    currentLevel dl <= level ->
    lastEntry dl = Some last ->
    Message last = message ->
    Level last = level ->
    Logger.addEntryTimes n now level message details dl
    = Ok (match n with
          | O => dl
          | S k =>
              mkDatabaseLogger (entries dl) (maxEntries dl) (currentLevel dl)
                (Some (mkLogEntry (Level last) (Message last) (now k) (Details last)
                         (Go.wrap64 (Count last + Z.of_nat n)) (ConnInfo last)))
                (suppressDuplicates dl)
          end).
Proof.
  induction n as [| n IH]; intros now level message details dl last Hs Hl Hlast Hm Hlv.
  - reflexivity.
  - cbn [Logger.addEntryTimes].
    rewrite addEntry_duplicate; [| lia |].
    2:{ unfold Logger.isDuplicate. rewrite Hs, Hlast. cbn.
        rewrite Hm, Hlv, String.eqb_refl, Z.eqb_refl. reflexivity. }
    cbn.
    unfold Logger.bumpLast. rewrite Hlast.
    erewrite IH; cbn; try reflexivity; try assumption.
    destruct n as [| k].
    + cbn. unfold Go.int_add. destruct dl; cbn in *. subst. reflexivity.
    + cbn [entries maxEntries currentLevel suppressDuplicates Level Message Details
             Count ConnInfo].
      unfold Go.int_add. rewrite wrap64_add_l.
      do 3 f_equal. f_equal. f_equal. lia.
Qed.

(** C1 (as the code has it).  [N >= 1] calls of [addEntry] in a row with
    one level and message, suppression on and the level past the
    threshold, leave exactly one new entry in the buffer; but the
    repeat counter and the refreshed time stamp go to the cell behind
    [lastEntry], which is not the stored entry: the stored entry keeps
    [Count = 1] and the time of the first call, whatever [N] is. *)
Theorem addEntry_repeats_stored_once_count_one :
  forall (N : nat) (now : nat -> Go.Time) level message details dl,
    (1 <= N)%nat ->
    Z.of_nat N < 2 ^ 63 ->
    suppressDuplicates dl = true ->
    currentLevel dl <= level ->
    Logger.isDuplicate dl level message = false ->
    0 < maxEntries dl ->
    exists dl',
      Logger.addEntryTimes N now level message details dl = Ok dl' /\
      entries dl'
      = ((if maxEntries dl <=? Z.of_nat (length (entries dl))
          then drop 1 (entries dl) else entries dl)
           ++ [mkLogEntry level message (now O) details 1 None])%list /\
      lastEntry dl'
      = Some (mkLogEntry level message (now (N - 1)%nat) details (Z.of_nat N) None) /\
      Logger.summaryLastCount dl' = Some 1.
Proof.
  intros N now level message details dl HN Hsmall Hs Hl Hfresh Hmax.
  destruct N as [| n]; [lia |].
  cbn [Logger.addEntryTimes].
  rewrite addEntry_fresh by assumption. cbn.
  set (entry := mkLogEntry level message (now O) details 1 None).
  set (dl1 := mkDatabaseLogger _ _ _ _ _).
  rewrite (addEntryTimes_duplicates n (fun i => now (S i)) level message details dl1 entry)
    by (try reflexivity; assumption).
  destruct n as [| k].
  - eexists; split; [reflexivity |]. cbn. split; [reflexivity |].
    split; [reflexivity |].
    unfold Logger.summaryLastCount. cbn. rewrite last_snoc. reflexivity.
  - eexists; split; [reflexivity |]. cbn. split; [reflexivity |].
    split.
    + rewrite wrap64_small by lia.
      replace (k - 0)%nat with k by lia.
      do 3 f_equal. lia.
    + unfold Logger.summaryLastCount. cbn. rewrite last_snoc. reflexivity.
Qed.

(** The same at the smallest failing input: two [Info "x"] calls on the
    logger as first built. *)
Lemma addEntry_repeats_stored_once_count_one_witness :
  exists dl',
    Logger.addEntryTimes 2 (fun i => Z.of_nat i) LogLevelInfo "x" ""
      Logger.GetDatabaseLogger = Ok dl' /\
    entries dl' = [mkLogEntry LogLevelInfo "x" 0 "" 1 None] /\
    lastEntry dl' = Some (mkLogEntry LogLevelInfo "x" 1 "" 2 None) /\
    Logger.summaryLastCount dl' = Some 1.
Proof.
  apply (addEntry_repeats_stored_once_count_one 2 (fun i => Z.of_nat i)
           LogLevelInfo "x" "" Logger.GetDatabaseLogger);
    cbn; try reflexivity; try lia.
Defined.

Lemma addEntry_keeps_bound now level message details ci dl dl' out :
  Logger.boundOk dl ->
  Logger.addEntry now level message details ci dl = Ok (dl', out) ->
  Logger.boundOk dl'.
Proof.
  unfold Logger.boundOk, Logger.addEntry. intros Hb Hrun.
  destruct (level <? currentLevel dl); [congruence |].
  destruct (Logger.isDuplicate dl level message).
  - injection Hrun as <- _. unfold Logger.bumpLast.
    destruct (lastEntry dl); assumption.
  - destruct (Z.leb_spec (maxEntries dl) (Z.of_nat (length (entries dl)))) as [Hfull | Hroom].
    + destruct (entries dl) as [| e es]; cbn in Hrun; [discriminate |].
      injection Hrun as <- _. cbn in *. rewrite length_app. cbn. lia.
    + cbn in Hrun. injection Hrun as <- _. cbn. rewrite length_app. cbn. lia.
Qed.

(** C8 (amended).  Every writing operation of the logger keeps the
    buffer within the configured maximum, [SetMaxEntries max] included
    when [max] is not below the number of entries already stored; it
    only assigns the field and trims nothing. *)
Theorem logger_bound_preserved :
  forall (op : Logger.Op) dl dl' (out : list string),
    Logger.boundOk dl ->
    (forall max, op = Logger.OpSetMaxEntries max ->
                 Z.of_nat (length (entries dl)) <= max) ->
    Logger.run op dl = Ok (dl', out) ->
    Logger.boundOk dl'.
Proof.
  intros op dl dl' out Hb Hmax Hrun.
  destruct op; cbn in Hrun.
  - injection Hrun as <- _. exact Hb.
  - injection Hrun as <- _. unfold Logger.boundOk. cbn. auto.
  - injection Hrun as <- _. exact Hb.
  - eapply addEntry_keeps_bound; eassumption.
  - injection Hrun as <- _. unfold Logger.boundOk in *. cbn. lia.
Qed.

Lemma logger_bound_preserved_witness :
  Logger.boundOk
    (mkDatabaseLogger [mkLogEntry LogLevelInfo "b" 7 "" 1 None] 1 LogLevelInfo
       (Some (mkLogEntry LogLevelInfo "b" 7 "" 1 None)) true).
Proof.
  apply (logger_bound_preserved
           (Logger.OpAddEntry 7 LogLevelInfo "b" "" [])
           (mkDatabaseLogger [mkLogEntry LogLevelInfo "a" 3 "" 1 None] 1 LogLevelInfo
              (Some (mkLogEntry LogLevelInfo "a" 3 "" 1 None)) true)
           _ (Logger.outputToStdLog (mkLogEntry LogLevelInfo "b" 7 "" 1 None))).
  - unfold Logger.boundOk. cbn. lia.
  - intros max Hop. discriminate Hop.
  - reflexivity.
Defined.

(** C8 as stated fails: lowering the maximum below the current length
    leaves the buffer longer than the maximum, and a later [addEntry]
    evicts one entry to append one, so it stays that long. *)
Lemma SetMaxEntries_breaks_bound :
  ~ (forall (op : Logger.Op) dl dl' (out : list string),
        Logger.boundOk dl -> Logger.run op dl = Ok (dl', out) -> Logger.boundOk dl').
Proof.
  intros Hall.
  pose (dl := mkDatabaseLogger
                [mkLogEntry LogLevelInfo "a" 3 "" 1 None;
                 mkLogEntry LogLevelInfo "b" 7 "" 1 None] 100 LogLevelInfo
                (Some (mkLogEntry LogLevelInfo "b" 7 "" 1 None)) true).
  specialize (Hall (Logger.OpSetMaxEntries 1) dl (Logger.SetMaxEntries 1 dl) []).
  unfold Logger.boundOk in Hall. cbn in Hall.
  specialize (Hall ltac:(lia) eq_refl). lia.
Qed.

Example shrunk_buffer_stays_long :
  let dl := mkDatabaseLogger
              [mkLogEntry LogLevelInfo "a" 3 "" 1 None;
               mkLogEntry LogLevelInfo "b" 7 "" 1 None] 100 LogLevelInfo
              (Some (mkLogEntry LogLevelInfo "b" 7 "" 1 None)) true in
  entries <$> (fst <$> (Logger.addEntry 9 LogLevelInfo "c" "" [] (Logger.SetMaxEntries 1 dl)))
  = Ok [mkLogEntry LogLevelInfo "b" 7 "" 1 None; mkLogEntry LogLevelInfo "c" 9 "" 1 None].
Proof. reflexivity. Qed.

End LoggerFacts.

(** ** Strings: lower-casing leaves ASCII text where it is *)

Section StringFacts.
Variable caseTable : Z -> Z.

Lemma byteOf_range (c : ascii) : 0 <= Go.byteOf c < 256.
Proof.
  unfold Go.byteOf. pose proof (N_ascii_bounded c). lia.
Qed.

Lemma ofByte_byteOf (c : ascii) : Go.ofByte (Go.byteOf c) = c.
Proof.
  unfold Go.ofByte. pose proof (byteOf_range c).
  rewrite Z.mod_small by lia. unfold Go.byteOf.
  rewrite N2Z.id. apply ascii_N_embedding.
Qed.

Lemma app_String (c : ascii) (s t : string) :
  (String c s ++ t = String c (s ++ t))%string.
Proof. reflexivity. Qed.

Lemma app_Empty (t : string) : ("" ++ t = t)%string.
Proof. reflexivity. Qed.

Lemma isASCII_cons (c : ascii) (s : string) :
  Go.isASCII (String c s) = (Go.byteOf c <? 128) && Go.isASCII s.
Proof. reflexivity. Qed.

Lemma isASCII_app (s t : string) :
  Go.isASCII (s ++ t) = Go.isASCII s && Go.isASCII t.
Proof.
  induction s as [| c s IH]; [reflexivity |].
  rewrite app_String, !isASCII_cons, IH. apply andb_assoc.
Qed.

Lemma lowerASCII_app (s t : string) :
  Go.lowerASCII (s ++ t) = (Go.lowerASCII s ++ Go.lowerASCII t)%string.
Proof.
  induction s as [| c s IH]; [reflexivity |].
  rewrite app_String. cbn [Go.lowerASCII]. rewrite IH, app_String. reflexivity.
Qed.

Lemma string_app_assoc (s t u : string) : ((s ++ t) ++ u = s ++ (t ++ u))%string.
Proof.
  induction s as [| c s IH]; [reflexivity |]. rewrite !app_String, IH. reflexivity.
Qed.

Lemma string_app_nil_r (s : string) : (s ++ "" = s)%string.
Proof.
  induction s as [| c s IH]; [reflexivity |]. rewrite app_String, IH. reflexivity.
Qed.

(** An ASCII byte is a rune of its own, one byte wide. *)
Lemma Decode_ascii (c : ascii) (rest : string) :
  Go.byteOf c < 128 -> Go.DecodeRuneInString c rest = (Go.byteOf c, 1%nat).
Proof.
  intros Hc. unfold Go.DecodeRuneInString, Go.first.
  destruct (Z.ltb_spec (Go.byteOf c) 194); [| lia].
  destruct (Z.ltb_spec (Go.byteOf c) 128); [reflexivity | lia].
Qed.

Lemma Map_ascii_byte (c : ascii) (rest : string) :
  Go.byteOf c < 128 ->
  Go.Map (Go.unicode_ToLower caseTable) 0 (String c rest)
  = String (Go.lowerByte c) (Go.Map (Go.unicode_ToLower caseTable) 0 rest).
Proof.
  intros Hc. pose proof (byteOf_range c) as Hr.
  cbn [Go.Map]. rewrite Decode_ascii by assumption. cbn [Nat.pred].
  unfold Go.unicode_ToLower at 1 2, Go.lowerByte.
  destruct (Z.leb_spec (Go.byteOf c) 127); [| lia].
  destruct ((65 <=? Go.byteOf c) && (Go.byteOf c <=? 90)) eqn:Hup.
  - apply andb_true_iff in Hup as [H1 H2].
    apply Z.leb_le in H1. apply Z.leb_le in H2.
    destruct (Z.ltb_spec (Go.byteOf c + 32) 0); [lia |].
    unfold Go.AppendRune.
    destruct (Z.leb_spec 0 (Go.byteOf c + 32)); [| lia].
    destruct (Z.leb_spec (Go.byteOf c + 32) 127); [| lia].
    reflexivity.
  - destruct (Z.ltb_spec (Go.byteOf c) 0); [lia |].
    unfold Go.AppendRune.
    destruct (Z.leb_spec 0 (Go.byteOf c)); [| lia].
    destruct (Z.leb_spec (Go.byteOf c) 127); [| lia].
    cbn. rewrite ofByte_byteOf. reflexivity.
Qed.

Lemma Map_ascii_prefix (k rest : string) :
  Go.isASCII k = true ->
  Go.Map (Go.unicode_ToLower caseTable) 0 (k ++ rest)
  = (Go.lowerASCII k ++ Go.Map (Go.unicode_ToLower caseTable) 0 rest)%string.
Proof.
  induction k as [| c k IH]; intros Hk; [reflexivity |].
  rewrite isASCII_cons in Hk. apply andb_true_iff in Hk as [Hc Hk].
  apply Z.ltb_lt in Hc.
  rewrite app_String, Map_ascii_byte by assumption.
  rewrite IH by assumption. reflexivity.
Qed.

Lemma first_second_byte (s0 sz lo hi : Z) :
  Go.first s0 = Some (sz, lo, hi) -> 128 <= lo.
Proof.
  unfold Go.first, Go.locb.
  repeat match goal with
         | |- context [if ?b then _ else _] => destruct b
         end; intros Heq; inversion Heq; subst; lia.
Qed.

(** A rune never reaches over an ASCII byte: all the bytes of a rune
    after its first are outside ASCII. *)
Lemma Decode_width (c : ascii) (rest : string) :
  (Nat.pred (Go.DecodeRuneInString c rest).2 <= Go.leadingNonASCII rest)%nat.
Proof.
  unfold Go.DecodeRuneInString.
  destruct (Go.first (Go.byteOf c)) as [[[sz lo] hi] |] eqn:Hfirst; [| cbn; lia].
  apply first_second_byte in Hfirst.
  destruct rest as [| c1 r1]; [cbn; lia |].
  destruct (Z.ltb_spec (Go.byteOf c1) lo); [cbn; lia |].
  destruct (Z.ltb_spec hi (Go.byteOf c1)); cbn [orb]; [cbn; lia |].
  assert (H1 : (Go.byteOf c1 <? 128) = false) by (apply Z.ltb_ge; lia).
  destruct (sz <=? 2); [cbn; rewrite H1; lia |].
  destruct r1 as [| c2 r2]; [cbn; lia |].
  destruct (Go.isCont (Go.byteOf c2)) eqn:H2c; cbn [negb]; [| cbn; lia].
  assert (H2 : (Go.byteOf c2 <? 128) = false).
  { unfold Go.isCont, Go.locb in H2c. apply andb_true_iff in H2c as [Hlo _].
    apply Z.leb_le in Hlo. apply Z.ltb_ge. lia. }
  destruct (sz <=? 3); [cbn; rewrite H1, H2; lia |].
  destruct r2 as [| c3 r3]; [cbn; lia |].
  destruct (Go.isCont (Go.byteOf c3)) eqn:H3c; cbn [negb]; [| cbn; lia].
  assert (H3 : (Go.byteOf c3 <? 128) = false).
  { unfold Go.isCont, Go.locb in H3c. apply andb_true_iff in H3c as [Hlo _].
    apply Z.leb_le in Hlo. apply Z.ltb_ge. lia. }
  cbn. rewrite H1, H2, H3. lia.
Qed.

Lemma leadingNonASCII_app (a t : string) :
  Go.startsASCII t = true -> Go.leadingNonASCII (a ++ t) = Go.leadingNonASCII a.
Proof.
  intros Ht. induction a as [| c a IH].
  - rewrite app_Empty. destruct t as [| c t]; [reflexivity |].
    cbn in *. rewrite Ht. reflexivity.
  - rewrite app_String. cbn. rewrite IH. reflexivity.
Qed.

(** Whatever precedes ASCII text, [strings.Map] is at a rune boundary
    when it reaches it. *)
Lemma Map_over_prefix (f : Z -> Z) (a : string) :
  forall (skip : nat) (t : string),
    Go.startsASCII t = true ->
    (skip <= Go.leadingNonASCII a)%nat ->
    exists a', Go.Map f skip (a ++ t) = (a' ++ Go.Map f 0 t)%string.
Proof.
  induction a as [| c a IH]; intros skip t Ht Hskip.
  - cbn in Hskip. assert (skip = O) by lia. subst.
    exists ""%string. reflexivity.
  - rewrite app_String. destruct skip as [| k].
    + cbn [Go.Map].
      pose proof (Decode_width c (a ++ t)) as Hw.
      rewrite leadingNonASCII_app in Hw by assumption.
      destruct (Go.DecodeRuneInString c (a ++ t)) as [r w]. cbn [snd] in Hw.
      destruct (IH (Nat.pred w) t Ht Hw) as [a' Ha'].
      rewrite Ha'.
      eexists. rewrite <- string_app_assoc. reflexivity.
    + cbn [Go.Map]. cbn in Hskip.
      destruct (Go.byteOf c <? 128); [lia |].
      destruct (IH k t Ht ltac:(lia)) as [a' Ha'].
      exists a'. exact Ha'.
Qed.

(** [strings.ToLower] keeps ASCII text in place, lower-cased. *)
Lemma ToLower_keeps_ascii (a k b : string) :
  Go.isASCII k = true ->
  exists a' b',
    Go.ToLower caseTable (a ++ k ++ b) = (a' ++ Go.lowerASCII k ++ b')%string.
Proof.
  intros Hk. unfold Go.ToLower.
  destruct (Go.isASCII (a ++ k ++ b)) eqn:Hall.
  - exists (Go.lowerASCII a), (Go.lowerASCII b).
    rewrite !lowerASCII_app. reflexivity.
  - destruct k as [| c k].
    + rewrite app_Empty.
      exists (Go.Map (Go.unicode_ToLower caseTable) 0 (a ++ b)), ""%string.
      cbn [Go.lowerASCII]. rewrite app_Empty, string_app_nil_r. reflexivity.
    + destruct (Map_over_prefix (Go.unicode_ToLower caseTable) a 0 (String c k ++ b))
        as [a' Ha'].
      * rewrite app_String. cbn. rewrite isASCII_cons in Hk.
        apply andb_true_iff in Hk as [Hc _]. exact Hc.
      * lia.
      * rewrite Ha', Map_ascii_prefix by assumption.
        exists a', (Go.Map (Go.unicode_ToLower caseTable) 0 b). reflexivity.
Qed.

Lemma HasPrefix_app (k y : string) : Go.HasPrefix (k ++ y) k = true.
Proof.
  induction k as [| c k IH]; [rewrite app_Empty; destruct y; reflexivity |].
  rewrite app_String. cbn. rewrite Ascii.eqb_refl. exact IH.
Qed.

Lemma Contains_app (x k y : string) : Go.Contains (x ++ k ++ y) k = true.
Proof.
  induction x as [| c x IH].
  - rewrite app_Empty. pose proof (HasPrefix_app k y) as Hp.
    destruct (k ++ y)%string; cbn [Go.Contains]; rewrite Hp; reflexivity.
  - rewrite app_String. cbn [Go.Contains]. rewrite IH. apply orb_true_r.
Qed.

(** A message that holds [k] in any mix of ASCII upper and lower case
    holds its lower-cased form once lower-cased. *)
Lemma Contains_ToLower (a k b : string) :
  Go.isASCII k = true ->
  Go.Contains (Go.ToLower caseTable (a ++ k ++ b)) (Go.lowerASCII k) = true.
Proof.
  intros Hk. destruct (ToLower_keeps_ascii a k b Hk) as (a' & b' & ->).
  apply Contains_app.
Qed.

End StringFacts.

(** ** Running code against the process *)

Lemma bind_run {A B : Type} (m : M A) (k : A -> M B) (w : World) :
  (m ≫= k) w = match m w with
               | Ok (a, w') => k a w'
               | Panic msg => Panic msg
               | Exit code => Exit code
               end.
Proof. reflexivity. Qed.

Lemma onlyLogged_refl (w : World) : onlyLogged w w.
Proof. unfold onlyLogged. tauto. Qed.

Lemma onlyLogged_trans (w1 w2 w3 : World) :
  onlyLogged w1 w2 -> onlyLogged w2 w3 -> onlyLogged w1 w3.
Proof. unfold onlyLogged. intuition congruence. Qed.

Lemma Now_run (w : World) : Now w = Ok (clock w (ticks w), set_ticks (S (ticks w)) w).
Proof. reflexivity. Qed.

Lemma onlyLogged_tick (w : World) : onlyLogged w (set_ticks (S (ticks w)) w).
Proof. unfold onlyLogged. cbn. tauto. Qed.

(** A log call writes to the logger and nowhere else; it goes wrong only
    by the slice panic of [addEntry], which needs [maxEntries <= 0]. *)
Lemma log_spec level message details ci (w : World) :
  match log level message details ci w with
  | Ok (_, w') => onlyLogged w w'
  | Panic _ => maxEntries (dbLogger w) <= 0
  | Exit _ => False
  end.
Proof.
  unfold log. rewrite bind_run. cbn [gets].
  destruct (level <? currentLevel (dbLogger w)) eqn:Hlv; [apply onlyLogged_refl |].
  rewrite bind_run, Now_run, bind_run.
  unfold lift, Logger.addEntry. rewrite Hlv.
  destruct (Logger.isDuplicate (dbLogger w) level message).
  - cbn. unfold onlyLogged, Logger.bumpLast. cbn.
    destruct (lastEntry (dbLogger w)); cbn; tauto.
  - destruct (Z.leb_spec (maxEntries (dbLogger w)) (Z.of_nat (length (entries (dbLogger w)))))
      as [Hfull | Hroom].
    + destruct (entries (dbLogger w)) as [| e es] eqn:Hes; cbn.
      * cbn in Hfull. lia.
      * unfold onlyLogged. cbn. tauto.
    + cbn. unfold onlyLogged. cbn. tauto.
Qed.

Lemma log_ok level message details ci (w : World) :
  0 < maxEntries (dbLogger w) ->
  exists w', log level message details ci w = Ok (tt, w') /\ onlyLogged w w'.
Proof.
  intros Hmax. pose proof (log_spec level message details ci w) as Hs.
  destruct (log level message details ci w) as [[[] w'] | msg | code].
  - eauto.
  - lia.
  - contradiction.
Qed.

(** ** The error analyzer *)

Section AnalyzerFacts.
Context `{GoRuntime}.

Lemma anyKeyword_true (lower : string) (keywords : list string) :
  Analyzer.anyKeyword lower keywords = true <->
  exists keyword,
    keyword ∈ keywords /\ Go.Contains lower (Go.ToLower caseTable keyword) = true.
Proof.
  induction keywords as [| k ks IH]; cbn.
  - split; [discriminate |]. intros (k & Hin & _). inversion Hin.
  - destruct (Go.Contains lower (Go.ToLower caseTable k)) eqn:Hk.
    + split; [| reflexivity]. intros _. exists k. split; [left | exact Hk].
    + rewrite IH. split.
      * intros (k' & Hin & Hc). exists k'. split; [right; exact Hin | exact Hc].
      * intros (k' & Hin & Hc). inversion Hin as [| ? ? ? Hin']; subst.
        -- congruence.
        -- exists k'. split; assumption.
Qed.

Lemma anyKeyword_hasKeyword (message : string) (p : ErrorPattern.t) :
  Analyzer.anyKeyword (Go.ToLower caseTable message) (ErrorPattern.Keywords p) = true
  <-> Spec.hasKeyword message p.
Proof. apply anyKeyword_true. Qed.

Lemma scanPatterns_Some (lower : string) (ps : list ErrorPattern.t) (p : ErrorPattern.t) :
  Analyzer.scanPatterns lower ps = Some p ->
  exists i : nat,
    ps !! i = Some p /\
    Analyzer.anyKeyword lower (ErrorPattern.Keywords p) = true /\
    forall (j : nat) (q : ErrorPattern.t),
      (j < i)%nat -> ps !! j = Some q ->
      Analyzer.anyKeyword lower (ErrorPattern.Keywords q) = false.
Proof.
  induction ps as [| q ps IH]; cbn; [discriminate |].
  destruct (Analyzer.anyKeyword lower (ErrorPattern.Keywords q)) eqn:Hq.
  - intros [= <-]. exists O. split; [reflexivity |]. split; [exact Hq |].
    intros j q' Hj. lia.
  - intros Hscan. destruct (IH Hscan) as (i & Hi & Hp & Hbefore).
    exists (S i). split; [exact Hi |]. split; [exact Hp |].
    intros [| j] q' Hj Hq'.
    + cbn in Hq'. injection Hq' as <-. exact Hq.
    + cbn in Hq'. apply (Hbefore j); [lia | exact Hq'].
Qed.

Lemma scanPatterns_None (lower : string) (ps : list ErrorPattern.t) :
  Analyzer.scanPatterns lower ps = None ->
  forall p, p ∈ ps -> Analyzer.anyKeyword lower (ErrorPattern.Keywords p) = false.
Proof.
  induction ps as [| q ps IH]; cbn; intros Hscan p Hin; [inversion Hin |].
  destruct (Analyzer.anyKeyword lower (ErrorPattern.Keywords q)) eqn:Hq; [discriminate |].
  inversion Hin; subst; auto.
Qed.

(** A message that holds "connection refused", in any mix of ASCII upper
    and lower case, is classified network / NET_001. *)
Lemma matchErrorPattern_connection_refused_any_case (a k b : string) :
  Go.isASCII k = true ->
  Go.lowerASCII k = "connection refused" ->
  let p := Analyzer.matchErrorPattern GetErrorAnalyzer (a ++ k ++ b) in
  ErrorPattern.Typ p = ErrorTypeNetwork /\ ErrorPattern.Code p = "NET_001".
Proof.
  intros Hk Hlow.
  pose proof (Contains_ToLower caseTable a k b Hk) as Hc. rewrite Hlow in Hc.
  unfold Analyzer.matchErrorPattern. cbn -[Go.ToLower Go.Contains].
  change (Go.ToLower caseTable "connection refused") with "connection refused".
  rewrite Hc. cbn. split; reflexivity.
Qed.

(** C5.  [matchErrorPattern] returns the first pattern of the table, in
    table order, one of whose keywords occurs in the message letter case
    aside, and the unknown / UNK_001 pattern when there is none; a
    message that holds "connection refused" yields network / NET_001. *)
Theorem matchErrorPattern_first_match :
  forall (ea : ErrorAnalyzer) (message : string),
    ((exists (i : nat) (p : ErrorPattern.t),
         patterns ea !! i = Some p /\
         Spec.hasKeyword message p /\
         (forall (j : nat) (q : ErrorPattern.t),
             (j < i)%nat -> patterns ea !! j = Some q -> ~ Spec.hasKeyword message q) /\
         Analyzer.matchErrorPattern ea message = p)
     \/
     ((forall p, p ∈ patterns ea -> ~ Spec.hasKeyword message p) /\
      Analyzer.matchErrorPattern ea message = unknownPattern /\
      ErrorPattern.Typ unknownPattern = ErrorTypeUnknown /\
      ErrorPattern.Code unknownPattern = "UNK_001"))
    /\
    (forall a b : string,
        let p := Analyzer.matchErrorPattern GetErrorAnalyzer
                   (a ++ "connection refused" ++ b) in
        ErrorPattern.Typ p = ErrorTypeNetwork /\ ErrorPattern.Code p = "NET_001").
Proof.
  intros ea message. split.
  - unfold Analyzer.matchErrorPattern.
    destruct (Analyzer.scanPatterns (Go.ToLower caseTable message) (patterns ea))
      as [p |] eqn:Hscan.
    + left. destruct (scanPatterns_Some _ _ _ Hscan) as (i & Hi & Hp & Hbefore).
      exists i, p. split; [exact Hi |]. split; [apply anyKeyword_hasKeyword, Hp |].
      split; [| reflexivity].
      intros j q Hj Hq Hhas. apply anyKeyword_hasKeyword in Hhas.
      rewrite (Hbefore j q Hj Hq) in Hhas. discriminate.
    + right. split; [| repeat split].
      intros p Hin Hhas. apply anyKeyword_hasKeyword in Hhas.
      rewrite (scanPatterns_None _ _ Hscan p Hin) in Hhas. discriminate.
  - intros a b.
    apply (matchErrorPattern_connection_refused_any_case a "connection refused" b);
      reflexivity.
Qed.

Lemma enhanceSuggestion_retryHint (p : ErrorPattern.t) (retryCount : Z) :
  Analyzer.enhanceSuggestion p retryCount
  = (ErrorPattern.Suggestion p ++ Spec.retryHint (ErrorPattern.Typ p) retryCount)%string.
Proof.
  unfold Analyzer.enhanceSuggestion, Spec.retryHint,
    Spec.stabilityHint, Spec.timeoutHint, Spec.immediateCheckHint.
  destruct (String.eqb_spec (ErrorPattern.Typ p) ErrorTypeNetwork) as [Hn | Hn];
    [rewrite decide_True by assumption | rewrite decide_False by assumption].
  - destruct (Z.ltb_spec 0 retryCount), (Z.ltb_spec 10 retryCount);
      try lia;
      [rewrite decide_True by lia | rewrite decide_False by lia
       | rewrite decide_False by lia];
      rewrite ?string_app_nil_r; reflexivity.
  - destruct (String.eqb_spec (ErrorPattern.Typ p) ErrorTypeTimeout) as [Ht | Ht];
      [rewrite decide_True by assumption | rewrite decide_False by assumption].
    + destruct (Z.ltb_spec 0 retryCount), (Z.ltb_spec 5 retryCount);
        try lia;
        [rewrite decide_True by lia | rewrite decide_False by lia
         | rewrite decide_False by lia];
        rewrite ?string_app_nil_r; reflexivity.
    + destruct (String.eqb_spec (ErrorPattern.Typ p) ErrorTypeAuth) as [Ha | Ha];
        [rewrite decide_True by assumption | rewrite decide_False by assumption].
      * destruct (Z.ltb_spec 0 retryCount);
          [rewrite decide_True by lia | rewrite decide_False by lia];
          rewrite ?string_app_nil_r; reflexivity.
      * destruct (0 <? retryCount); rewrite string_app_nil_r; reflexivity.
Qed.

Lemma logErrorAnalysis_ok (details : ErrorDetails.t) (severity : Z) (w : World) :
  0 < maxEntries (dbLogger w) ->
  exists w', AnalyzerOps.logErrorAnalysis details severity w = Ok (tt, w')
             /\ onlyLogged w w'.
Proof.
  intros Hmax. unfold AnalyzerOps.logErrorAnalysis, logError, logWarn, logInfo, logDebug.
  destruct (severity =? 5); [apply log_ok, Hmax |].
  destruct (severity =? 4); [apply log_ok, Hmax |].
  destruct (severity =? 3); apply log_ok, Hmax.
Qed.

(** What [AnalyzeError] returns for a non-nil error, from the pattern
    its message matches. *)
Lemma AnalyzeError_run (w : World) (errorMsg : string) (retryCount : Z) :
  0 < maxEntries (dbLogger w) ->
  let p := Analyzer.matchErrorPattern (errorAnalyzer w) errorMsg in
  let now := clock w (ticks w) in
  let d :=
    ErrorDetails.mk (ErrorPattern.Typ p) (ErrorPattern.Code p) errorMsg
      (ErrorPattern.Cause p) (Analyzer.enhanceSuggestion p retryCount)
      (Time_Format "2006-01-02 15:04:05" now) retryCount in
  exists w',
    AnalyzerOps.AnalyzeError (Some errorMsg) retryCount w = Ok (Some d, w') /\
    errorAnalyzer w' = Analyzer.updateErrorSummary d errorMsg now (errorAnalyzer w) /\
    db w' = db w /\ reconnector w' = reconnector w /\ loops w' = loops w /\
    opened w' = opened w /\ closed w' = closed w /\
    maxEntries (dbLogger w') = maxEntries (dbLogger w).
Proof.
  intros Hmax p now d. unfold AnalyzerOps.AnalyzeError.
  rewrite bind_run, Now_run, bind_run. cbn [gets errorAnalyzer set_ticks].
  fold p. fold now. fold d.
  rewrite bind_run. cbn [modify].
  set (w1 := set_errorAnalyzer _ _).
  destruct (logErrorAnalysis_ok d (ErrorPattern.Severity p) w1 Hmax) as (w' & Hlog & Hframe).
  rewrite bind_run, Hlog. exists w'. split; [reflexivity |].
  unfold onlyLogged in Hframe. cbn in Hframe.
  destruct Hframe as (? & ? & ? & ? & ? & ? & ? & ? & ?).
  repeat split; assumption.
Qed.

(** C3 (amended).  The suggestion of [AnalyzeError] is the matched
    pattern's base suggestion followed by the retry-aware hint: for a
    network error the stability hint exactly when [retryCount > 10], for
    a timeout error the timeout-configuration hint exactly when
    [retryCount > 5], for an authentication error the immediate-check
    hint exactly when [retryCount > 0], and nothing otherwise. *)
Theorem AnalyzeError_suggestion :
  forall (w : World) (errorMsg : string) (retryCount : Z),
    0 < maxEntries (dbLogger w) ->
    exists (d : ErrorDetails.t) (w' : World),
      AnalyzerOps.AnalyzeError (Some errorMsg) retryCount w = Ok (Some d, w') /\
      let p := Analyzer.matchErrorPattern (errorAnalyzer w) errorMsg in
      ErrorDetails.Typ d = ErrorPattern.Typ p /\
      ErrorDetails.Code d = ErrorPattern.Code p /\
      ErrorDetails.Suggestion d
      = (ErrorPattern.Suggestion p
           ++ Spec.retryHint (ErrorPattern.Typ p) retryCount)%string.
Proof.
  intros w errorMsg retryCount Hmax.
  destruct (AnalyzeError_run w errorMsg retryCount Hmax) as (w' & Hrun & _).
  eexists _, w'. split; [exact Hrun |].
  cbn. repeat split. apply enhanceSuggestion_retryHint.
Qed.

End AnalyzerFacts.

(** C3 at the 11th and the 10th failure in a row of a network error. *)
Lemma AnalyzeError_suggestion_witness :
  exists (d : ErrorDetails.t) (w' : World),
    AnalyzerOps.AnalyzeError (H := plainRuntime) (Some "dial tcp: connection refused") 11
      (initialWorld sampleConfig (fun _ => 0)) = Ok (Some d, w') /\
    let p := Analyzer.matchErrorPattern (H := plainRuntime) GetErrorAnalyzer
               "dial tcp: connection refused" in
    ErrorDetails.Typ d = ErrorPattern.Typ p /\
    ErrorDetails.Code d = ErrorPattern.Code p /\
    ErrorDetails.Suggestion d
    = (ErrorPattern.Suggestion p ++ Spec.retryHint (ErrorPattern.Typ p) 11)%string.
Proof.
  apply (AnalyzeError_suggestion (H := plainRuntime)
           (initialWorld sampleConfig (fun _ => 0)) "dial tcp: connection refused" 11).
  cbn. lia.
Defined.

Example network_hint_on_11th :
  Analyzer.enhanceSuggestion
    (Analyzer.matchErrorPattern (H := plainRuntime) GetErrorAnalyzer
       "dial tcp: connection refused") 11
  = "检查数据库服务是否运行，端口是否正确，防火墙设置 | 已重试11次，建议检查网络稳定性".
Proof. vm_compute. reflexivity. Qed.

Example network_hint_not_on_10th :
  Analyzer.enhanceSuggestion
    (Analyzer.matchErrorPattern (H := plainRuntime) GetErrorAnalyzer
       "dial tcp: connection refused") 10
  = "检查数据库服务是否运行，端口是否正确，防火墙设置".
Proof. vm_compute. reflexivity. Qed.

(** C3 as stated fails: an authentication error analysed with
    [retryCount = 0], as [InitDB] and the query branch of [CheckStatus]
    do, gets the base suggestion and no immediate-check hint. *)
Lemma auth_hint_absent_without_retries :
  match AnalyzerOps.AnalyzeError (H := plainRuntime)
          (Some "Error 1045: Access denied for user 'root'") 0
          (initialWorld sampleConfig (fun _ => 0)) with
  | Ok (Some d, _) =>
      ErrorDetails.Typ d = ErrorTypeAuth /\
      ErrorDetails.Suggestion d = "检查用户名密码，用户权限，主机访问权限" /\
      ErrorDetails.Suggestion d
      <> ("检查用户名密码，用户权限，主机访问权限"
            ++ Spec.retryHintAsSpecified ErrorTypeAuth 0)%string
  | _ => False
  end.
Proof. vm_compute. repeat split. discriminate. Qed.

(** ** Purging old summaries *)

Section ClearFacts.
Context `{GoRuntime}.
Implicit Types (m : gmap string ErrorSummary.t) (l : list (string * ErrorSummary.t)).



End ClearFacts.


Example ClearOldErrors_sample :
  match AnalyzerOps.ClearOldErrors (map_to_list sampleSummaries) 50
          sampleWorld with
  | Ok (cleared, w') =>
      cleared = 1 /\
      summaries (errorAnalyzer w') !! "network_NET_001" = None /\
      summaries (errorAnalyzer w') !! "timeout_TIME_001"
      = Some (ErrorSummary.mk ErrorTypeTimeout "TIME_001" 1 100 100 ∅ ["i/o timeout"] false)
  | _ => False
  end.
Proof. vm_compute. repeat split. Qed.

(** ** Status checks without a handle *)

Section NilHandleFacts.
Context `{GoRuntime}.

(** C6.  With no handle ([db == nil]) [CheckStatus] returns a status,
    not an error: "Not Connected", with details of code CFG_002 in
    category configuration. *)
Theorem CheckStatus_not_initialized :
  forall (ping : error) (query : string + string) (w : World),
    db w = None ->
    exists (st : DBStatus.t) (d : ErrorDetails.t) (w' : World),
      Connection.CheckStatus ping query w = Ok (st, w') /\
      DBStatus.Status st = "Not Connected" /\
      DBStatus.Details st = Some d /\
      ErrorDetails.Code d = "CFG_002" /\
      ErrorDetails.Typ d = ErrorTypeConfig /\
      ErrorTypeConfig = "configuration" /\
      onlyLogged w w' /\ dbLogger w' = dbLogger w /\ stdlog w' = stdlog w.
Proof.
  intros ping query w Hdb. unfold Connection.CheckStatus.
  rewrite bind_run. cbn [gets]. rewrite Hdb, bind_run, Now_run.
  eexists _, _, _. split; [reflexivity |]. cbn.
  repeat split; reflexivity.
Qed.

(** C10.  With no handle [CheckConnection] answers [false] and leaves
    the whole process as it was: the reconnector, the log and the set
    of retry goroutines. *)
Theorem CheckConnection_nil_handle :
  forall (ping : error) (w : World),
    db w = None ->
    Reconn.CheckConnection ping w = Ok (false, w).
Proof.
  intros ping w Hdb. unfold Reconn.CheckConnection.
  rewrite bind_run. cbn [gets]. rewrite Hdb. reflexivity.
Qed.

End NilHandleFacts.

Lemma CheckStatus_not_initialized_witness :
  exists (st : DBStatus.t) (d : ErrorDetails.t) (w' : World),
    Connection.CheckStatus (H := plainRuntime) (Some "connection refused") (inl "")
      (initialWorld sampleConfig (fun _ => 0)) = Ok (st, w') /\
    DBStatus.Status st = "Not Connected" /\
    DBStatus.Details st = Some d /\
    ErrorDetails.Code d = "CFG_002" /\
    ErrorDetails.Typ d = ErrorTypeConfig /\
    ErrorTypeConfig = "configuration" /\
    onlyLogged (initialWorld sampleConfig (fun _ => 0)) w' /\
    dbLogger w' = dbLogger (initialWorld sampleConfig (fun _ => 0)) /\
    stdlog w' = stdlog (initialWorld sampleConfig (fun _ => 0)).
Proof.
  apply (CheckStatus_not_initialized (H := plainRuntime)). reflexivity.
Defined.

Lemma CheckConnection_nil_handle_witness :
  Reconn.CheckConnection (Some "connection refused")
    (initialWorld sampleConfig (fun _ => 0))
  = Ok (false, initialWorld sampleConfig (fun _ => 0)).
Proof.
  apply (CheckConnection_nil_handle (Some "connection refused")). reflexivity.
Defined.

(** ** What each piece of code does to the control state *)

Section Preserves.
Variable R : World -> World -> Prop.
Hypothesis R_refl : forall w, R w w.
Hypothesis R_trans : forall w1 w2 w3, R w1 w2 -> R w2 w3 -> R w1 w3.

Lemma preserves_ret {A : Type} (a : A) : preserves R (mret a).
Proof. intros w a' w' [= _ <-]. apply R_refl. Qed.

Lemma preserves_gets {A : Type} (f : World -> A) : preserves R (gets f).
Proof. intros w a' w' [= _ <-]. apply R_refl. Qed.

Lemma preserves_lift {A : Type} (m : result A) : preserves R (lift m).
Proof. intros w a' w'. unfold lift. destruct m; intros [= _ <-]. apply R_refl. Qed.

Lemma preserves_modify (f : World -> World) :
  (forall w, R w (f w)) -> preserves R (modify f).
Proof. intros Hf w a' w' [= _ <-]. apply Hf. Qed.

Lemma preserves_bind {A B : Type} (m : M A) (k : A -> M B) :
  preserves R m -> (forall a, preserves R (k a)) -> preserves R (m ≫= k).
Proof.
  intros Hm Hk w b w'. rewrite bind_run.
  destruct (m w) as [[a w1] | msg | code] eqn:Hmw; try discriminate.
  intros Hkw. eapply R_trans; [eapply Hm, Hmw | eapply Hk, Hkw].
Qed.
End Preserves.

Lemma ctlSame_refl (w : World) : ctlSame w w.
Proof. unfold ctlSame. tauto. Qed.

Lemma ctlSame_trans (w1 w2 w3 : World) : ctlSame w1 w2 -> ctlSame w2 w3 -> ctlSame w1 w3.
Proof. unfold ctlSame. intuition congruence. Qed.

Lemma onlyLogged_ctlSame (w w' : World) : onlyLogged w w' -> ctlSame w w'.
Proof.
  unfold onlyLogged, ctlSame. intros (_ & _ & _ & Hr & _ & Hl & _ & Hm & _).
  rewrite Hr. tauto.
Qed.

(** Steps through a computation built from binds, reads, writes and log
    calls, leaving the facts about the single writes. *)
Ltac preserves_step R_refl R_trans :=
  first
    [ apply (preserves_ret _ R_refl)
    | apply (preserves_gets _ R_refl)
    | apply (preserves_lift _ R_refl)
    | apply (preserves_bind _ R_trans); [| intros ?]
    | apply preserves_modify; intros ?
    | match goal with
      | |- preserves _ (match ?x with _ => _ end) => destruct x
      | |- preserves _ (if ?b then _ else _) => destruct b
      | |- preserves _ (let '(_, _) := ?x in _) => destruct x
      end ].

Section ControlFacts.
Context `{GoRuntime}.

Lemma Now_ctlSame : preserves ctlSame Now.
Proof. intros w a w' [= _ <-]. unfold ctlSame. cbn. tauto. Qed.

Lemma log_ctlSame level message details ci :
  preserves ctlSame (log level message details ci).
Proof.
  intros w [] w' Hrun. pose proof (log_spec level message details ci w) as Hs.
  rewrite Hrun in Hs. apply onlyLogged_ctlSame, Hs.
Qed.

Ltac ctl :=
  repeat first
    [ apply Now_ctlSame
    | apply log_ctlSame
    | progress unfold logInfo, logWarn, logError, logDebug, modifyReconnector
    | preserves_step ctlSame_refl ctlSame_trans
    | solve [unfold ctlSame; cbn; tauto] ].

Lemma AnalyzeError_ctlSame err retryCount :
  preserves ctlSame (AnalyzerOps.AnalyzeError err retryCount).
Proof. unfold AnalyzerOps.AnalyzeError, AnalyzerOps.logErrorAnalysis. ctl. Qed.

Lemma analyzeError_ctlSame err retryCount :
  preserves ctlSame (Connection.analyzeError err retryCount).
Proof.
  unfold Connection.analyzeError. destruct err; [apply AnalyzeError_ctlSame | ctl].
Qed.

Lemma tryConnect_ctlSame o : preserves ctlSame (Reconn.tryConnect o).
Proof.
  unfold Reconn.tryConnect, Reconn.addErrorToHistory, Reconn.openHandle,
    Reconn.closeHandle.
  destruct o; ctl.
Qed.

Lemma ReconnLogger_Start_ctlSame rl :
  preserves ctlSame (ReconnLogger.StartReconnection rl).
Proof. unfold ReconnLogger.StartReconnection. ctl. Qed.

Lemma LogRetry_ctlSame retryCount nextDelay lastErr rl :
  preserves ctlSame (ReconnLogger.LogRetry retryCount nextDelay lastErr rl).
Proof. unfold ReconnLogger.LogRetry. ctl. Qed.

Lemma LogSuccess_ctlSame totalRetries rl :
  preserves ctlSame (ReconnLogger.LogSuccess totalRetries rl).
Proof. unfold ReconnLogger.LogSuccess. ctl. Qed.

End ControlFacts.

(** ** Events other than goroutine moves, against any relation that the
    control-preserving code and [StartReconnection] respect *)

Section EventFacts.
Context `{GoRuntime}.
Variable R : World -> World -> Prop.
Hypothesis R_refl : forall w, R w w.
Hypothesis R_trans : forall w1 w2 w3, R w1 w2 -> R w2 w3 -> R w1 w3.
Hypothesis R_ctl : forall w w', ctlSame w w' -> R w w'.
Hypothesis R_start : preserves R Reconn.StartReconnection.

Lemma preserves_ctl {A : Type} (m : M A) : preserves ctlSame m -> preserves R m.
Proof. intros Hm w a w' Hrun. apply R_ctl. eapply Hm, Hrun. Qed.

Ltac ev :=
  repeat first
    [ apply R_start
    | apply preserves_ctl;
      first [ apply Now_ctlSame | apply log_ctlSame | apply analyzeError_ctlSame
            | apply AnalyzeError_ctlSame | apply preserves_gets, ctlSame_refl
            | apply preserves_modify; intros ?; solve [unfold ctlSame; cbn; tauto] ]
    | progress unfold logInfo, logWarn, logError, logDebug, modifyReconnector,
        Reconn.GetRetryCount, Reconn.IsReconnecting, Reconn.openHandle,
        Reconn.closeHandle
    | preserves_step R_refl R_trans ].

Lemma OnConnectionLost_R : preserves R Reconn.OnConnectionLost.
Proof. unfold Reconn.OnConnectionLost. ev. Qed.

Lemma CheckConnection_R ping : preserves R (Reconn.CheckConnection ping).
Proof. unfold Reconn.CheckConnection. ev; apply OnConnectionLost_R. Qed.

Lemma CheckStatus_R ping query : preserves R (Connection.CheckStatus ping query).
Proof.
  unfold Connection.CheckStatus.
  destruct ping as [err |].
  - ev; apply OnConnectionLost_R.
  - ev.
Qed.

Lemma InitDB_R openErr ping : preserves R (Connection.InitDB openErr ping).
Proof. unfold Connection.InitDB. ev. Qed.

Lemma forget_Ok {A : Type} (m : M A) (w w' : World) :
  Process.forget m w = Ok w' -> exists a, m w = Ok (a, w').
Proof.
  unfold Process.forget. destruct (m w) as [[a w1] | |]; [| discriminate ..].
  intros [= <-]. eauto.
Qed.

(** Every event that is neither a goroutine move nor a stop. *)
Lemma step_event_R (ev : Event) (w w' : World) :
  (forall i inp, ev <> EvLoop i inp) ->
  Process.stops ev = false ->
  Process.step ev w = Some (Ok w') ->
  R w w'.
Proof.
  intros Hnl Hns Hstep. destruct ev; unfold Process.step in Hstep; cbn in Hns;
    try discriminate.
  - apply (inj Some) in Hstep. apply forget_Ok in Hstep as [a Hrun].
    eapply InitDB_R, Hrun.
  - apply (inj Some) in Hstep. apply forget_Ok in Hstep as [a Hrun].
    eapply CheckStatus_R, Hrun.
  - apply (inj Some) in Hstep. apply forget_Ok in Hstep as [a Hrun].
    eapply CheckConnection_R, Hrun.
  - apply (inj Some) in Hstep. apply forget_Ok in Hstep as [a Hrun].
    eapply OnConnectionLost_R, Hrun.
  - apply (inj Some) in Hstep. apply forget_Ok in Hstep as [a Hrun].
    eapply R_start, Hrun.
  - exfalso. eapply Hnl. reflexivity.
Qed.

Hypothesis R_stop : preserves R Reconn.StopReconnection.

Lemma CloseDB_R closeErr : preserves R (Connection.CloseDB closeErr).
Proof.
  unfold Connection.CloseDB.
  apply (preserves_bind _ R_trans); [apply R_stop | intros ?]. ev.
Qed.

Lemma step_stop_R (ev : Event) (w w' : World) :
  Process.stops ev = true ->
  Process.step ev w = Some (Ok w') ->
  R w w'.
Proof.
  intros Hs Hstep. destruct ev; unfold Process.step in Hstep; cbn in Hs;
    try discriminate.
  - apply (inj Some) in Hstep. apply forget_Ok in Hstep as [a Hrun].
    eapply CloseDB_R, Hrun.
  - apply (inj Some) in Hstep. apply forget_Ok in Hstep as [a Hrun].
    eapply R_stop, Hrun.
Qed.

End EventFacts.

(** ** The moves of a retry goroutine *)

Lemma bind_Ok {A B : Type} (m : M A) (k : A -> M B) (w : World) (b : B) (w' : World) :
  (m ≫= k) w = Ok (b, w') ->
  exists a w1, m w = Ok (a, w1) /\ k a w1 = Ok (b, w').
Proof.
  rewrite bind_run. destruct (m w) as [[a w1] | |]; [| discriminate ..]. eauto.
Qed.

Section LoopFacts.
Context `{GoRuntime}.

Lemma StartReconnection_run (w : World) :
  Reconn.StartReconnection w
  = Ok (tt,
        if reconnecting (reconnector w) then w
        else set_loops (loops w ++ [Reconn.freshLoop])
               (set_reconnector (set_reconnecting true (reconnector w)) w)).
Proof.
  unfold Reconn.StartReconnection. rewrite bind_run. cbn [gets].
  destruct (reconnecting (reconnector w)); reflexivity.
Qed.

Lemma StopReconnection_run (w : World) :
  Reconn.StopReconnection w
  = Ok (tt, set_reconnector
              (set_ctxDone true (set_reconnecting false (reconnector w))) w).
Proof. reflexivity. Qed.

Lemma afterFailed_run (l l' : Loop) (w w' : World) :
  Reconn.afterFailed l w = Ok (l', w') ->
  ctlSame w w' /\ pc l' = InWait /\ currentDelay l' = currentDelay l /\
  slept l' = (slept l ++ [currentDelay l])%list.
Proof.
  unfold Reconn.afterFailed. intros Hrun.
  apply bind_Ok in Hrun as ([] & w1 & H1 & Hrun). injection H1 as <-.
  apply bind_Ok in Hrun as (rc & w2 & H2 & Hrun). injection H2 as <- <-.
  apply bind_Ok in Hrun as (le & w3 & H3 & Hrun). injection H3 as <- <-.
  apply bind_Ok in Hrun as (rl & w4 & H4 & Hrun). injection Hrun as <- <-.
  apply LogRetry_ctlSame in H4. cbn.
  split; [| repeat split].
  eapply ctlSame_trans; [| exact H4]. unfold ctlSame. cbn. tauto.
Qed.

Lemma LogSuccess_onlyLogged totalRetries rl :
  preserves onlyLogged (ReconnLogger.LogSuccess totalRetries rl).
Proof.
  unfold ReconnLogger.LogSuccess, logInfo.
  apply (preserves_bind _ onlyLogged_trans).
  - intros w a w' [= _ <-]. apply onlyLogged_tick.
  - intros now w [] w' Hrun.
    pose proof (log_spec LogLevelInfo "✅ 数据库重连成功"
                  (Logger.firstDetail
                     ["总计重试: " ++ Go.itoa totalRetries ++ " 次, 耗时: "
                        ++ Duration_String
                             (Go.Duration_Round (Go.Time_Sub now (startTime rl)) Go.Second)])
                  [] w) as Hs.
    rewrite Hrun in Hs. exact Hs.
Qed.

Lemma afterConnected_run (l l' : Loop) (w w' : World) :
  Reconn.afterConnected l w = Ok (l', w') ->
  pc l' = Returned /\ currentDelay l' = currentDelay l /\ slept l' = slept l /\
  reconnecting (reconnector w') = false /\
  isConnected (reconnector w') = true /\
  ctxDone (reconnector w') = ctxDone (reconnector w) /\
  loops w' = loops w /\
  maxEntries (dbLogger w') = maxEntries (dbLogger w).
Proof.
  unfold Reconn.afterConnected. intros Hrun.
  apply bind_Ok in Hrun as (rc & w1 & H1 & Hrun). injection H1 as <- <-.
  apply bind_Ok in Hrun as ([] & w2 & H2 & Hrun). injection H2 as <-.
  apply bind_Ok in Hrun as ([] & w3 & H3 & Hrun). injection Hrun as <- <-.
  apply LogSuccess_onlyLogged in H3.
  destruct H3 as (_ & _ & _ & Hr & _ & Hl & _ & Hm & _).
  cbn in *. rewrite Hr, Hl, Hm. cbn. tauto.
Qed.

Lemma stepLoop_move (inp : LoopInput) (l l' : Loop) (w w' : World) :
  Reconn.stepLoop inp l w = Some (Ok (l', w')) -> LoopMove w l w' l'.
Proof.
  unfold Reconn.stepLoop. destruct (pc l) eqn:Hpc, inp; try discriminate.
  - intros Hrun. apply (inj Some) in Hrun.
    apply bind_Ok in Hrun as (rl & w1 & H1 & Hrun). injection Hrun as <- <-.
    apply ReconnLogger_Start_ctlSame in H1.
    apply MoveEntry; auto.
  - intros [= <- <-]. apply MoveSelect; auto.
  - intros Hrun. apply (inj Some) in Hrun.
    apply bind_Ok in Hrun as (ok & w1 & H1 & Hrun).
    apply tryConnect_ctlSame in H1. destruct H1 as (Hr & Hc & Hl & Hm).
    destruct ok.
    + apply afterConnected_run in Hrun.
      destruct Hrun as (? & ? & ? & ? & ? & Hc' & Hl' & Hm').
      apply MoveConnected; auto; congruence.
    + apply afterFailed_run in Hrun. destruct Hrun as (Hctl & ? & ? & ?).
      apply MoveFailed; auto.
      eapply ctlSame_trans; [| exact Hctl]. unfold ctlSame. tauto.
  - intros [= <- <-]. apply MoveTimer; auto.
  - destruct (ctxDone (reconnector w)) eqn:Hdone; [| discriminate].
    intros [= <- <-]. apply MoveCancelled; auto.
Qed.

(** A goroutine move, seen from [Process.step]. *)
Lemma step_loop_move (i : nat) (inp : LoopInput) (w w' : World) :
  Process.step (EvLoop i inp) w = Some (Ok w') ->
  exists l l' w1,
    loops w !! i = Some l /\ LoopMove w l w1 l' /\
    w' = set_loops (<[i := l']> (loops w1)) w1.
Proof.
  unfold Process.step.
  destruct (loops w !! i) as [l |] eqn:Hl; [| discriminate]. cbn.
  destruct (Reconn.stepLoop inp l w) as [[[l' w1] | |] |] eqn:Hs; try discriminate.
  cbn. intros [= <-]. exists l, l', w1. split; [reflexivity |].
  split; [eapply stepLoop_move, Hs | reflexivity].
Qed.

End LoopFacts.

(** ** Schedules *)

Section ScheduleFacts.
Context `{GoRuntime}.

Lemma run_invariant (Inv : World -> Prop) :
  (forall ev w w', Inv w -> Process.step ev w = Some (Ok w') -> Inv w') ->
  forall evs w w', Inv w -> Process.run evs w = Some w' -> Inv w'.
Proof.
  intros Hstep evs. induction evs as [| ev evs IH]; intros w w' Hinv Hrun; cbn in Hrun.
  - injection Hrun as <-. exact Hinv.
  - destruct (Process.step ev w) as [[w1 | |] |] eqn:Hs; try discriminate.
    eapply IH; [eapply Hstep; eassumption | exact Hrun].
Qed.

Lemma run_app (evs1 evs2 : list Event) (w : World) :
  Process.run (evs1 ++ evs2) w
  = match Process.run evs1 w with
    | Some w1 => Process.run evs2 w1
    | None => None
    end.
Proof.
  revert w. induction evs1 as [| ev evs1 IH]; intros w; [reflexivity |].
  cbn. destruct (Process.step ev w) as [[w1 | |] |]; try reflexivity. apply IH.
Qed.

(** An event is a goroutine move, a stop, or one of the others. *)
Lemma event_cases (ev : Event) :
  (exists i inp, ev = EvLoop i inp) \/
  Process.stops ev = true \/
  ((forall i inp, ev <> EvLoop i inp) /\ Process.stops ev = false).
Proof.
  destruct ev; cbn; try (right; right; split; [intros; discriminate | reflexivity]);
    try (right; left; reflexivity).
  left. eauto.
Qed.

End ScheduleFacts.

(** ** The back-off sequence *)

Section BackoffFacts.
Context `{GoRuntime}.

Lemma backoff_0 : Process.backoff 0 = Reconn.initialDelay.
Proof. reflexivity. Qed.

Lemma backoff_large (k : nat) : (5 <= k)%nat -> Process.backoff k = 30 * Go.Second.
Proof.
  intros Hk. unfold Process.backoff.
  assert (2 ^ 5 <= 2 ^ Z.of_nat k) by (apply Z.pow_le_mono_r; lia).
  rewrite Z.min_r by (change (2 ^ 5) with 32 in *; lia). reflexivity.
Qed.

(** Doubling and capping takes each delay of the sequence to the next. *)
Lemma nextDelay_backoff (k : nat) :
  Reconn.nextDelay (Process.backoff k) = Process.backoff (S k).
Proof.
  destruct (le_lt_dec 5 k) as [Hbig | Hsmall].
  - rewrite !backoff_large by lia. reflexivity.
  - do 5 (destruct k as [| k]; [reflexivity |]). lia.
Qed.

Lemma backoffPrefix_S (n : nat) :
  Process.backoffPrefix (S n) = (Process.backoffPrefix n ++ [Process.backoff n])%list.
Proof.
  unfold Process.backoffPrefix. rewrite seq_S, fmap_app. reflexivity.
Qed.

Lemma length_backoffPrefix (n : nat) : length (Process.backoffPrefix n) = n.
Proof. unfold Process.backoffPrefix. rewrite length_fmap, length_seq. reflexivity. Qed.

Lemma freshLoop_ok : Process.loopOk Reconn.freshLoop.
Proof. split; reflexivity. Qed.

Lemma LoopMove_loopOk (w w' : World) (l l' : Loop) :
  LoopMove w l w' l' -> Process.loopOk l -> Process.loopOk l'.
Proof.
  unfold Process.loopOk.
  intros [Hpc Hpc' Hd Hs Hc | Hpc Hpc' Hd Hs Hw | Hpc Hpc' Hd Hs _ _ _ _ _
         | Hpc Hpc' Hd Hs Hc | Hpc Hpc' Hd Hs Hw | Hpc Hdone Hpc' Hd Hs Hw] [Hpre Hcur];
    rewrite Hpc in Hcur; rewrite Hpc'.
  - rewrite Hs, Hcur. split; [reflexivity |]. rewrite Hd. symmetry. apply backoff_0.
  - rewrite Hs, Hd. split; [exact Hpre |].
    destruct (ctxDone (reconnector w)); [exact I | exact Hcur].
  - rewrite Hs. split; [exact Hpre | exact I].
  - rewrite Hs, Hd, length_app. cbn [length].
    replace (length (slept l) + 1)%nat with (S (length (slept l))) by lia.
    split.
    + rewrite backoffPrefix_S, <- Hpre, Hcur. reflexivity.
    + exists (length (slept l)). split; [reflexivity | exact Hcur].
  - destruct Hcur as (k & Hlen & Hcur).
    rewrite Hs, Hd. split; [exact Hpre |].
    rewrite Hcur, Hlen. apply nextDelay_backoff.
  - rewrite Hs. split; [exact Hpre | exact I].
Qed.

Lemma LoopMove_loops (w w' : World) (l l' : Loop) :
  LoopMove w l w' l' -> loops w' = loops w.
Proof.
  intros [? ? ? ? Hc | ? ? ? ? -> | ? ? ? ? _ _ _ Hl _
         | ? ? ? ? Hc | ? ? ? ? -> | ? ? ? ? ? ->]; try reflexivity; try exact Hl;
    apply Hc.
Qed.

Lemma step_loopOk (ev : Event) (w w' : World) :
  Forall Process.loopOk (loops w) ->
  Process.step ev w = Some (Ok w') ->
  Forall Process.loopOk (loops w').
Proof.
  intros Hinv Hstep.
  destruct (event_cases ev) as [(i & inp & ->) | [Hstop | [Hnl Hns]]].
  - apply step_loop_move in Hstep as (l & l' & w1 & Hl & Hmove & ->).
    cbn. rewrite (LoopMove_loops _ _ _ _ Hmove).
    apply Forall_insert; [exact Hinv |].
    eapply LoopMove_loopOk; [exact Hmove |].
    eapply Forall_lookup_1; eassumption.
  - revert Hinv.
    apply (step_stop_R (fun w w' => Forall Process.loopOk (loops w) ->
                                     Forall Process.loopOk (loops w')))
      with (ev := ev); auto.
    + intros a b Hc. destruct Hc as (_ & _ & -> & _). auto.
    + intros a [] b. rewrite StopReconnection_run. intros [= <-]. cbn. auto.
  - revert Hinv.
    apply (step_event_R (fun w w' => Forall Process.loopOk (loops w) ->
                                      Forall Process.loopOk (loops w')))
      with (ev := ev); auto.
    + intros a b Hc. destruct Hc as (_ & _ & -> & _). auto.
    + intros a [] b. rewrite StartReconnection_run. intros [= <-].
      destruct (reconnecting (reconnector a)); [auto |]. cbn. intros Ha.
      apply Forall_app. split; [exact Ha |]. constructor; [apply freshLoop_ok | constructor].
Qed.

End BackoffFacts.

(** ** A goroutine that keeps failing keeps running *)

Section ProgressFacts.
Context `{GoRuntime}.

Lemma step_loop_eq (i : nat) (inp : LoopInput) (w w1 : World) (l l' : Loop) :
  loops w !! i = Some l ->
  Reconn.stepLoop inp l w = Some (Ok (l', w1)) ->
  Process.step (EvLoop i inp) w = Some (Ok (set_loops (<[i := l']> (loops w1)) w1)).
Proof.
  intros Hl Hs. unfold Process.step. rewrite Hl. cbn. rewrite Hs. reflexivity.
Qed.

Lemma ReconnLogger_Start_ok (rl : ReconnectionLogger) (w : World) :
  0 < maxEntries (dbLogger w) ->
  exists rl' w', ReconnLogger.StartReconnection rl w = Ok (rl', w').
Proof.
  intros Hmax. unfold ReconnLogger.StartReconnection, logInfo.
  rewrite bind_run, Now_run, bind_run.
  destruct (log_ok LogLevelInfo "🔄 开始数据库重连程序" (Logger.firstDetail []) []
              (set_ticks (S (ticks w)) w) Hmax) as (w' & -> & _).
  eauto.
Qed.

Lemma LogRetry_ok (retryCount nextDelay : Z) (lastErr : error)
    (rl : ReconnectionLogger) (w : World) :
  0 < maxEntries (dbLogger w) ->
  exists rl' w', ReconnLogger.LogRetry retryCount nextDelay lastErr rl w = Ok (rl', w').
Proof.
  intros Hmax. unfold ReconnLogger.LogRetry, logInfo, logWarn.
  rewrite bind_run, Now_run.
  set (w1 := set_ticks (S (ticks w)) w).
  assert (Hmax1 : 0 < maxEntries (dbLogger w1)) by exact Hmax.
  destruct (retryCount =? 1);
    [| destruct (retryCount <=? 3);
       [| destruct (Z.rem retryCount 10 =? 0);
          [| destruct (progressInterval rl
                       <=? Go.Time_Sub (clock w (ticks w)) (lastProgressTime rl))]]];
    rewrite bind_run; cbn [negb String.eqb];
    repeat match goal with
           | |- context [if negb (String.eqb ?d "") then _ else _] =>
               destruct (negb (String.eqb d ""))
           end;
    try (match goal with
         | |- context [log ?lv ?m ?d ?c w1] =>
             destruct (log_ok lv m d c w1 Hmax1) as (w' & -> & _)
         end);
    eauto.
Qed.

Lemma afterFailed_ok (l : Loop) (w : World) :
  0 < maxEntries (dbLogger w) ->
  exists l' w', Reconn.afterFailed l w = Ok (l', w').
Proof.
  intros Hmax. unfold Reconn.afterFailed.
  rewrite bind_run. cbn [modifyReconnector modify].
  rewrite bind_run. cbn [Reconn.GetRetryCount gets].
  rewrite bind_run. cbn [Reconn.GetLastError gets].
  rewrite bind_run.
  match goal with
  | |- context [ReconnLogger.LogRetry ?a ?b ?c ?d ?w1] =>
      destruct (LogRetry_ok a b c d w1 Hmax) as (rl' & w' & ->)
  end.
  eauto.
Qed.

(** One round: the cancellation test passes, the attempt fails, the
    timer fires. *)
Lemma failRound_run (w : World) (l : Loop) :
  loops w = [l] ->
  pc l = AtSelect ->
  ctxDone (reconnector w) = false ->
  0 < maxEntries (dbLogger w) ->
  exists w' l',
    Process.run Process.failRound w = Some w' /\
    loops w' = [l'] /\ pc l' = AtSelect /\
    currentDelay l' = Reconn.nextDelay (currentDelay l) /\
    slept l' = (slept l ++ [currentDelay l])%list /\
    ctxDone (reconnector w') = false /\
    0 < maxEntries (dbLogger w').
Proof.
  intros Hloops Hpc Hdone Hmax. unfold Process.failRound.
  (* the outer select *)
  set (l1 := mkLoop InTryConnect (currentDelay l) (reconnLogger l) (slept l)).
  assert (Hs1 : Process.step (EvLoop 0 Run) w = Some (Ok (set_loops [l1] w))).
  { erewrite step_loop_eq; [| rewrite Hloops; reflexivity |].
    2:{ unfold Reconn.stepLoop. rewrite Hpc, Hdone. reflexivity. }
    rewrite Hloops. reflexivity. }
  cbn [Process.run]. rewrite Hs1. set (w1 := set_loops [l1] w).
  (* the attempt *)
  assert (Htry : exists w2,
             Reconn.tryConnect (PingFailed "connection refused" None) w1 = Ok (false, w2)
             /\ ctlSame w1 w2).
  { eexists. split; [reflexivity |]. unfold ctlSame. cbn. tauto. }
  destruct Htry as (w2 & Htry & Hc2).
  assert (Hmax2 : 0 < maxEntries (dbLogger w2)).
  { destruct Hc2 as (_ & _ & _ & ->). exact Hmax. }
  destruct (afterFailed_ok l1 w2 Hmax2) as (l2 & w3 & Hfail).
  destruct (afterFailed_run _ _ _ _ Hfail) as (Hc3 & Hpc2 & Hd2 & Hsl2).
  assert (Hc13 : ctlSame w1 w3) by (eapply ctlSame_trans; eassumption).
  destruct Hc13 as (_ & Hdone3 & Hloops3 & Hmax3).
  assert (Hs2 : Process.step (EvLoop 0 (Attempt (PingFailed "connection refused" None))) w1
                = Some (Ok (set_loops [l2] w3))).
  { erewrite step_loop_eq; [| reflexivity |].
    2:{ unfold Reconn.stepLoop. cbn [pc l1]. rewrite bind_run, Htry, Hfail. reflexivity. }
    rewrite Hloops3. reflexivity. }
  rewrite Hs2. set (w4 := set_loops [l2] w3).
  (* the timer *)
  set (l3 := mkLoop AtSelect (Reconn.nextDelay (currentDelay l2)) (reconnLogger l2)
               (slept l2)).
  assert (Hs3 : Process.step (EvLoop 0 TimerFired) w4 = Some (Ok (set_loops [l3] w4))).
  { erewrite step_loop_eq; [| reflexivity |].
    2:{ unfold Reconn.stepLoop. rewrite Hpc2. reflexivity. }
    reflexivity. }
  rewrite Hs3.
  exists (set_loops [l3] w4), l3. split; [reflexivity |].
  cbn. rewrite Hd2, Hsl2, Hdone3, Hmax3. cbn. repeat split; assumption.
Qed.

Lemma failRounds_run (n : nat) :
  forall (w : World) (l : Loop) (k : nat),
    loops w = [l] ->
    pc l = AtSelect ->
    currentDelay l = Process.backoff k ->
    slept l = Process.backoffPrefix k ->
    ctxDone (reconnector w) = false ->
    0 < maxEntries (dbLogger w) ->
    exists w' l',
      Process.run (Process.failRounds n) w = Some w' /\
      loops w' = [l'] /\ pc l' = AtSelect /\
      slept l' = Process.backoffPrefix (k + n).
Proof.
  induction n as [| n IH]; intros w l k Hloops Hpc Hd Hs Hdone Hmax.
  - exists w, l. rewrite Nat.add_0_r. cbn. auto.
  - cbn [Process.failRounds]. rewrite run_app.
    destruct (failRound_run w l Hloops Hpc Hdone Hmax)
      as (w1 & l1 & -> & Hloops1 & Hpc1 & Hd1 & Hs1 & Hdone1 & Hmax1).
    destruct (IH w1 l1 (S k)) as (w' & l' & Hrun & Hl' & Hpc' & Hs'); auto.
    + rewrite Hd1, Hd. apply nextDelay_backoff.
    + rewrite Hs1, Hs, Hd. symmetry. apply backoffPrefix_S.
    + exists w', l'. replace (k + S n)%nat with (S k + n)%nat by lia. auto.
Qed.

Lemma failingSchedule_run (cfg : DBConfig) (clk : nat -> Go.Time) (n : nat) :
  exists w l,
    Process.run (Process.failingSchedule n) (initialWorld cfg clk) = Some w /\
    loops w = [l] /\ slept l = Process.backoffPrefix n.
Proof.
  unfold Process.failingSchedule.
  set (w0 := initialWorld cfg clk).
  assert (Hs0 : Process.step EvStartReconnection w0
                = Some (Ok (set_loops [Reconn.freshLoop]
                              (set_reconnector
                                 (set_reconnecting true (reconnector w0)) w0)))).
  { reflexivity. }
  cbn [Process.run]. rewrite Hs0.
  set (w1 := set_loops _ _).
  destruct (ReconnLogger_Start_ok ReconnLogger.NewReconnectionLogger w1) as (rl & w2 & Hrl);
    [cbn; lia |].
  pose proof (ReconnLogger_Start_ctlSame _ _ _ _ Hrl) as (_ & Hdone2 & Hloops2 & Hmax2).
  set (l1 := mkLoop AtSelect Reconn.initialDelay rl []).
  assert (Hs1 : Process.step (EvLoop 0 Run) w1 = Some (Ok (set_loops [l1] w2))).
  { erewrite step_loop_eq; [| reflexivity |].
    2:{ unfold Reconn.stepLoop. cbn [pc Reconn.freshLoop].
        rewrite bind_run, Hrl. reflexivity. }
    rewrite Hloops2. reflexivity. }
  rewrite Hs1.
  destruct (failRounds_run n (set_loops [l1] w2) l1 O) as (w & l & Hrun & Hl & _ & Hs);
    try reflexivity.
  - cbn. rewrite Hdone2. reflexivity.
  - cbn. rewrite Hmax2. cbn. lia.
  - exists w, l. auto.
Qed.

End ProgressFacts.

(** ** C2: the delays between attempts *)

Section BackoffTheorem.
Context `{GoRuntime}.

(** C2.  In every schedule of the process, the delays a retry goroutine
    has waited between its attempts are the first of 1, 2, 4, 8, 16, 30,
    30, 30, ... seconds, however far it got: it starts at one second,
    doubles after each failed attempt, is capped at thirty and is never
    reset; each goroutine starts the sequence anew.  A goroutine that
    fails [n] times in a row does wait the first [n] of them. *)
Theorem reconnectionLoop_backoff :
  forall (cfg : DBConfig) (clk : nat -> Go.Time),
    (forall (evs : list Event) (w : World) (i : nat) (l : Loop),
        Process.run evs (initialWorld cfg clk) = Some w ->
        loops w !! i = Some l ->
        slept l = Process.backoffPrefix (length (slept l))) /\
    (forall n : nat,
        exists (w : World) (l : Loop),
          Process.run (Process.failingSchedule n) (initialWorld cfg clk) = Some w /\
          loops w = [l] /\ slept l = Process.backoffPrefix n) /\
    Process.backoffPrefix 8
    = [1 * Go.Second; 2 * Go.Second; 4 * Go.Second; 8 * Go.Second; 16 * Go.Second;
       30 * Go.Second; 30 * Go.Second; 30 * Go.Second].
Proof.
  intros cfg clk. split; [| split].
  - intros evs w i l Hrun Hl.
    assert (Hinv : Forall Process.loopOk (loops w)).
    { eapply (run_invariant (fun w => Forall Process.loopOk (loops w)));
        [| | exact Hrun].
      - intros ev a b Ha Hs. eapply step_loopOk; eassumption.
      - constructor. }
    pose proof (Forall_lookup_1 _ _ _ _ Hinv Hl) as [Hpre _]. exact Hpre.
  - intros n. apply failingSchedule_run.
  - reflexivity.
Qed.

End BackoffTheorem.

(** Six failures in a row on a fresh process: the goroutine waits 1, 2,
    4, 8, 16 and 30 seconds. *)
Lemma reconnectionLoop_backoff_witness :
  exists (w : World) (l : Loop),
    Process.run (H := plainRuntime) (Process.failingSchedule 6)
      (initialWorld sampleConfig (fun _ => 0)) = Some w /\
    loops w = [l] /\
    slept l = [1000000000; 2000000000; 4000000000; 8000000000; 16000000000; 30000000000].
Proof.
  destruct (reconnectionLoop_backoff (H := plainRuntime) sampleConfig (fun _ => 0))
    as (_ & Hex & _).
  exact (Hex 6%nat).
Defined.

(** ** C4: starting twice *)


Section CountFacts.
Context {A : Type}.
Implicit Types (f g : A -> bool) (xs : list A).




End CountFacts.

Section OneLoopFacts.
Context `{GoRuntime}.











End OneLoopFacts.

(** ** C9: after a stop *)

Section AfterStopFacts.
Context `{GoRuntime}.

Lemma noAttemptInFlight_Forall (w : World) :
  Process.noAttemptInFlight w <-> Forall (fun l => pc l <> InTryConnect) (loops w).
Proof. unfold Process.noAttemptInFlight. rewrite Forall_forall. reflexivity. Qed.

Lemma ReconnLogger_Start_onlyLogged rl :
  preserves onlyLogged (ReconnLogger.StartReconnection rl).
Proof.
  unfold ReconnLogger.StartReconnection, logInfo.
  apply (preserves_bind _ onlyLogged_trans).
  - intros w a w' [= _ <-]. apply onlyLogged_tick.
  - intros now. apply (preserves_bind _ onlyLogged_trans).
    + intros w [] w' Hrun.
      pose proof (log_spec LogLevelInfo "🔄 开始数据库重连程序" (Logger.firstDetail [])
                    [] w) as Hs.
      rewrite Hrun in Hs. exact Hs.
    + intros []. apply preserves_ret, onlyLogged_refl.
Qed.

(** Cancellation is for good. *)
Lemma step_ctxDone (ev : Event) (w w' : World) :
  ctxDone (reconnector w) = true ->
  Process.step ev w = Some (Ok w') ->
  ctxDone (reconnector w') = true.
Proof.
  intros Hinv Hstep.
  destruct (event_cases ev) as [(i & inp & ->) | [Hstop | [Hnl Hns]]].
  - apply step_loop_move in Hstep as (l & l' & w1 & Hl & Hmove & ->). cbn.
    destruct Hmove as [_ _ _ _ (_ & Hc & _) | _ _ _ _ -> | _ _ _ _ _ _ Hc _ _
                      | _ _ _ _ (_ & Hc & _) | _ _ _ _ -> | _ _ _ _ _ ->];
      congruence.
  - revert Hinv.
    apply (step_stop_R (fun w w' => ctxDone (reconnector w) = true ->
                                     ctxDone (reconnector w') = true))
      with (ev := ev); auto.
    + intros a b (_ & -> & _). auto.
    + intros a [] b. rewrite StopReconnection_run. intros [= <-]. reflexivity.
  - revert Hinv.
    apply (step_event_R (fun w w' => ctxDone (reconnector w) = true ->
                                      ctxDone (reconnector w') = true))
      with (ev := ev); auto.
    + intros a b (_ & -> & _). auto.
    + intros a [] b. rewrite StartReconnection_run. intros [= <-].
      destruct (reconnecting (reconnector a)); auto.
Qed.

Lemma step_quiet (ev : Event) (w w' : World) :
  Process.quiet w -> Process.step ev w = Some (Ok w') -> Process.quiet w'.
Proof.
  intros Hinv Hstep.
  destruct (event_cases ev) as [(i & inp & ->) | [Hstop | [Hnl Hns]]].
  - destruct Hinv as [Hdone Hall].
    apply step_loop_move in Hstep as (l & l' & w1 & Hl & Hmove & ->).
    pose proof (Forall_lookup_1 _ _ _ _ Hall Hl) as Hnot.
    pose proof (LoopMove_loops _ _ _ _ Hmove) as Hloops.
    unfold Process.quiet. cbn [loops set_loops reconnector]. rewrite Hloops.
    destruct Hmove as [_ Hpc' _ _ (_ & Hc & _) | _ Hpc' _ _ -> | Hpc _ _ _ _ _ _ _ _
                      | Hpc _ _ _ _ | _ Hpc' _ _ -> | _ _ Hpc' _ _ ->];
      try contradiction.
    + split; [congruence |]. apply Forall_insert; [exact Hall | congruence].
    + rewrite Hdone in Hpc'. split; [exact Hdone |].
      apply Forall_insert; [exact Hall | congruence].
    + split; [exact Hdone |]. apply Forall_insert; [exact Hall | congruence].
    + split; [exact Hdone |]. apply Forall_insert; [exact Hall | congruence].
  - revert Hinv.
    apply (step_stop_R (fun w w' => Process.quiet w -> Process.quiet w')) with (ev := ev); auto.
    + intros a b (_ & Hc & Hl & _). unfold Process.quiet. rewrite Hc, Hl. auto.
    + intros a [] b. rewrite StopReconnection_run. intros [= <-].
      unfold Process.quiet. cbn. tauto.
  - revert Hinv.
    apply (step_event_R (fun w w' => Process.quiet w -> Process.quiet w'))
      with (ev := ev); auto.
    + intros a b (_ & Hc & Hl & _). unfold Process.quiet. rewrite Hc, Hl. auto.
    + intros a [] b. rewrite StartReconnection_run. intros [= <-].
      destruct (reconnecting (reconnector a)); [auto |].
      unfold Process.quiet. cbn. intros [Hdone Hall]. split; [exact Hdone |].
      apply Forall_app. split; [exact Hall |].
      constructor; [discriminate | constructor].
Qed.

(** With nothing in flight and the context cancelled, only a stop can
    lower the flag. *)
Lemma step_flag_stays (ev : Event) (w w' : World) :
  Process.stops ev = false ->
  Process.quiet w ->
  reconnecting (reconnector w) = true ->
  Process.step ev w = Some (Ok w') ->
  reconnecting (reconnector w') = true.
Proof.
  intros Hns [Hdone Hall] Hflag Hstep.
  destruct (event_cases ev) as [(i & inp & ->) | [Hstop | [Hnl _]]].
  - apply step_loop_move in Hstep as (l & l' & w1 & Hl & Hmove & ->).
    pose proof (Forall_lookup_1 _ _ _ _ Hall Hl) as Hnot. cbn.
    destruct Hmove as [_ _ _ _ (Hr & _) | _ _ _ _ -> | Hpc _ _ _ _ _ _ _ _
                      | _ _ _ _ (Hr & _) | _ _ _ _ -> | _ _ _ _ _ ->];
      try contradiction; congruence.
  - congruence.
  - revert Hflag.
    apply (step_event_R (fun w w' => reconnecting (reconnector w) = true ->
                                      reconnecting (reconnector w') = true))
      with (ev := ev); auto.
    + intros a b (-> & _). auto.
    + intros a [] b. rewrite StartReconnection_run. intros [= <-].
      destruct (reconnecting (reconnector a)) eqn:Hflag; [auto | discriminate].
Qed.

Lemma run_flag_stays (evs : list Event) :
  forall w w',
    Process.stopFree evs ->
    Process.quiet w ->
    reconnecting (reconnector w) = true ->
    Process.run evs w = Some w' ->
    reconnecting (reconnector w') = true.
Proof.
  induction evs as [| ev evs IH]; intros w w' Hfree Hq Hflag Hrun; cbn in Hrun.
  - injection Hrun as <-. exact Hflag.
  - destruct (Process.step ev w) as [[w1 | |] |] eqn:Hs; try discriminate.
    assert (Hns : Process.stops ev = false) by (apply Hfree; left).
    apply (IH w1 w'); [| | | exact Hrun].
    + intros e He. apply Hfree. right. exact He.
    + eapply step_quiet; eassumption.
    + eapply step_flag_stays; eassumption.
Qed.

Lemma quiet_no_attempt (w : World) (i : nat) (o : ConnectOutcome) :
  Process.quiet w -> Process.step (EvLoop i (Attempt o)) w = None.
Proof.
  intros [_ Hall]. unfold Process.step.
  destruct (loops w !! i) as [l |] eqn:Hl; [| reflexivity]. cbn.
  pose proof (Forall_lookup_1 _ _ _ _ Hall Hl) as Hnot.
  unfold Reconn.stepLoop. destruct (pc l) eqn:Hpc; try reflexivity. contradiction.
Qed.

(** C9 (amended).  [StopReconnection] lowers the flag and cancels the
    context, and nothing un-cancels it.  From then on every
    [StartReconnection] leaves the flag up, adding a goroutine when the
    flag was down; such a goroutine logs its start, finds the context
    cancelled at the head of the loop and returns, with no connection
    attempt and the flag untouched.  If no attempt was in flight when the
    context was cancelled, no goroutine ever attempts a connection again,
    and the flag, once up, stays up in every schedule without another
    stop. *)
Theorem after_stop_no_new_attempt :
  (forall w : World,
      exists w',
        Reconn.StopReconnection w = Ok (tt, w') /\
        ctxDone (reconnector w') = true /\
        reconnecting (reconnector w') = false /\
        loops w' = loops w) /\
  (forall (w : World) (evs : list Event) (w' : World),
      ctxDone (reconnector w) = true ->
      Process.run evs w = Some w' ->
      ctxDone (reconnector w') = true) /\
  (forall w : World,
      ctxDone (reconnector w) = true ->
      exists w',
        Reconn.StartReconnection w = Ok (tt, w') /\
        reconnecting (reconnector w') = true /\
        ctxDone (reconnector w') = true /\
        (reconnecting (reconnector w) = false ->
         loops w' = (loops w ++ [Reconn.freshLoop])%list)) /\
  (forall (w w' : World) (l l' : Loop),
      pc l = AtEntry ->
      Reconn.stepLoop Run l w = Some (Ok (l', w')) ->
      pc l' = AtSelect /\ reconnector w' = reconnector w /\ db w' = db w) /\
  (forall (w : World) (l : Loop),
      ctxDone (reconnector w) = true ->
      pc l = AtSelect ->
      Reconn.stepLoop Run l w
      = Some (Ok (mkLoop Returned (currentDelay l) (reconnLogger l) (slept l), w))) /\
  (forall (w : World) (evs : list Event) (w' : World),
      ctxDone (reconnector w) = true ->
      Process.noAttemptInFlight w ->
      Process.run evs w = Some w' ->
      Process.noAttemptInFlight w' /\
      (forall (i : nat) (o : ConnectOutcome),
          Process.step (EvLoop i (Attempt o)) w' = None) /\
      (reconnecting (reconnector w) = true ->
       Process.stopFree evs ->
       reconnecting (reconnector w') = true)).
Proof.
  split; [| split; [| split; [| split; [| split]]]].
  - intros w. rewrite StopReconnection_run. eexists. split; [reflexivity |].
    cbn. auto.
  - intros w evs w' Hdone Hrun.
    eapply (run_invariant (fun w => ctxDone (reconnector w) = true));
      [| exact Hdone | exact Hrun].
    intros ev a b Ha Hs. eapply step_ctxDone; eassumption.
  - intros w Hdone. rewrite StartReconnection_run. eexists. split; [reflexivity |].
    destruct (reconnecting (reconnector w)) eqn:Hflag; cbn.
    + split; [exact Hflag |]. split; [exact Hdone |]. intros Hf. discriminate Hf.
    + split; [reflexivity |]. split; [exact Hdone |]. intros _. reflexivity.
  - intros w w' l l' Hpc Hs. unfold Reconn.stepLoop in Hs. rewrite Hpc in Hs.
    apply (inj Some) in Hs.
    apply bind_Ok in Hs as (rl & w1 & Hrl & Hret). injection Hret as <- <-.
    apply ReconnLogger_Start_onlyLogged in Hrl.
    destruct Hrl as (Hdb & _ & _ & Hr & _). auto.
  - intros w l Hdone Hpc. unfold Reconn.stepLoop. rewrite Hpc, Hdone. reflexivity.
  - intros w evs w' Hdone Hnone Hrun.
    assert (Hq : Process.quiet w).
    { split; [exact Hdone | apply noAttemptInFlight_Forall, Hnone]. }
    assert (Hq' : Process.quiet w').
    { eapply (run_invariant Process.quiet); [| exact Hq | exact Hrun].
      intros ev a b Ha Hs. eapply step_quiet; eassumption. }
    split; [apply noAttemptInFlight_Forall, Hq' |].
    split; [intros i o; apply quiet_no_attempt, Hq' |].
    intros Hflag Hfree. apply (run_flag_stays evs w w'); assumption.
Qed.

End AfterStopFacts.

(** [main] stops the reconnector, a request handler then reports a lost
    connection twice: the goroutine comes and goes, the flag stays up. *)
Lemma after_stop_no_new_attempt_witness :
  let w := set_reconnector
             (set_ctxDone true (GetReconnector sampleConfig))
             (initialWorld sampleConfig (fun _ => 0)) in
  let evs := [EvStartReconnection; EvLoop 0 Run; EvLoop 0 Run; EvOnConnectionLost] in
  match Process.run (H := plainRuntime) evs w with
  | Some w' =>
      ctxDone (reconnector w') = true /\
      reconnecting (reconnector w') = true /\
      (pc <$> loops w') = [Returned] /\
      forall (i : nat) (o : ConnectOutcome),
        Process.step (H := plainRuntime) (EvLoop i (Attempt o)) w' = None
  | None => False
  end.
Proof.
  intros w evs.
  destruct (after_stop_no_new_attempt (H := plainRuntime))
    as (_ & Hdone & Hstart & _ & _ & Hquiet).
  assert (Hw : ctxDone (reconnector w) = true) by reflexivity.
  assert (Hnone : Process.noAttemptInFlight w).
  { intros l Hl. inversion Hl. }
  destruct (Process.run (H := plainRuntime) evs w) as [w' |] eqn:Hrun;
    [| vm_compute in Hrun; discriminate Hrun].
  destruct (Hquiet w evs w' Hw Hnone Hrun) as (_ & Hno & _).
  split; [exact (Hdone w evs w' Hw Hrun) |].
  split; [| split; [| exact Hno]].
  - vm_compute in Hrun. injection Hrun as <-. reflexivity.
  - vm_compute in Hrun. injection Hrun as <-. reflexivity.
Defined.

(** C9 as stated fails.  A goroutine has passed the cancellation test and
    is inside [tryConnect] when [StopReconnection] is called; a later
    [StartReconnection] raises the flag; then the attempt succeeds: the
    handle is swapped in, the reconnector is marked connected and the flag
    is lowered again, all after the stop. *)
Lemma attempt_in_flight_succeeds_after_stop :
  let beforeSuccess :=
    [EvStartReconnection; EvLoop 0 Run; EvLoop 0 Run;
     EvStopReconnection; EvStartReconnection] in
  match Process.run (H := plainRuntime) beforeSuccess
          (initialWorld sampleConfig (fun _ => 0)),
        Process.run (H := plainRuntime)
          (beforeSuccess ++ [EvLoop 0 (Attempt (Connected None))])
          (initialWorld sampleConfig (fun _ => 0)) with
  | Some w, Some w' =>
      (ctxDone (reconnector w) = true /\ reconnecting (reconnector w) = true /\
       isConnected (reconnector w) = false /\ db w = None) /\
      (ctxDone (reconnector w') = true /\ reconnecting (reconnector w') = false /\
       isConnected (reconnector w') = true /\ db w' = Some O)
  | _, _ => False
  end.
Proof. vm_compute. repeat split. Qed.

(** * Further properties of the code *)

(** ** The logger *)

Section LoggerMore.
Implicit Types (dl : DatabaseLogger) (level : LogLevel) (message details : string).

(** X1.  [GetRecentEntries n] returns nothing for [n <= 0]; otherwise the
    last [n] entries of the buffer, all of them when there are fewer, in
    the order they were stored. *)
Theorem GetRecentEntries_suffix :
  forall (n : Z) dl,
    (n <= 0 -> Logger.GetRecentEntries n dl = []) /\
    (0 < n ->
     exists older : list LogEntry,
       entries dl = (older ++ Logger.GetRecentEntries n dl)%list /\
       length (Logger.GetRecentEntries n dl)
       = Nat.min (Z.to_nat n) (length (entries dl))).
Proof.
  intros n dl. unfold Logger.GetRecentEntries. split.
  - intros Hn. destruct (Z.leb_spec n 0); [reflexivity | lia].
  - intros Hn. destruct (Z.leb_spec n 0); [lia |]. cbn [orb].
    destruct (Z.eqb_spec (Z.of_nat (length (entries dl))) 0) as [Hz | Hnz].
    + destruct (entries dl); [| cbn in Hz; lia]. exists []. split; [reflexivity |].
      cbn. lia.
    + set (start := Z.of_nat (length (entries dl)) - n).
      exists (take (Z.to_nat (if start <? 0 then 0 else start)) (entries dl)).
      split; [symmetry; apply take_drop |].
      rewrite length_drop. subst start.
      destruct (Z.ltb_spec (Z.of_nat (length (entries dl)) - n) 0); lia.
Qed.

Lemma addEntry_lastEntry now level message details ci dl dl' out :
  currentLevel dl <= level ->
  Logger.addEntry now level message details ci dl = Ok (dl', out) ->
  exists e, lastEntry dl' = Some e /\ Message e = message /\ Level e = level /\
            Timestamp e = now /\ suppressDuplicates dl' = suppressDuplicates dl.
Proof.
  intros Hlv. unfold Logger.addEntry.
  destruct (Z.ltb_spec level (currentLevel dl)); [lia |].
  destruct (Logger.isDuplicate dl level message) eqn:Hdup.
  - intros [= <- _]. unfold Logger.isDuplicate in Hdup. unfold Logger.bumpLast.
    destruct (lastEntry dl) as [last |];
      [| rewrite andb_false_r in Hdup; discriminate].
    apply andb_true_iff in Hdup as [_ Hsame].
    apply andb_true_iff in Hsame as [Hm Hl].
    apply String.eqb_eq in Hm. apply Z.eqb_eq in Hl.
    eexists. split; [reflexivity |]. cbn. auto.
  - destruct (if maxEntries dl <=? Z.of_nat (length (entries dl))
              then Logger.slice_from_1 (entries dl) else Ok (entries dl))
      as [kept | |]; cbn; try discriminate.
    intros [= <- _]. eexists. split; [reflexivity |]. cbn. auto.
Qed.

(** X2.  After a call that passes the threshold, the suppression state
    names that call: the next call is merged exactly when suppression is
    on and it has the same message and the same level.  So only a direct
    repetition is merged; the same message after a different one is stored
    again. *)
Theorem addEntry_merges_only_direct_repeats :
  forall now level message details ci dl dl' out level' message',
    currentLevel dl <= level ->
    Logger.addEntry now level message details ci dl = Ok (dl', out) ->
    Logger.isDuplicate dl' level' message'
    = suppressDuplicates dl && String.eqb message message' && (level =? level').
Proof.
  intros now level message details ci dl dl' out level' message' Hlv Hrun.
  destruct (addEntry_lastEntry _ _ _ _ _ _ _ _ Hlv Hrun) as (e & He & Hm & Hl & _ & Hs).
  unfold Logger.isDuplicate. rewrite He, Hs, Hm, Hl.
  rewrite andb_assoc. reflexivity.
Qed.

Lemma addEntry_merges_only_direct_repeats_witness :
  Logger.isDuplicate
    (mkDatabaseLogger
       [mkLogEntry LogLevelInfo "a" 3 "" 1 None; mkLogEntry LogLevelWarn "b" 7 "" 1 None]
       100 LogLevelInfo (Some (mkLogEntry LogLevelWarn "b" 7 "" 1 None)) true)
    LogLevelInfo "a"
  = true && String.eqb "b" "a" && (LogLevelWarn =? LogLevelInfo).
Proof.
  apply (addEntry_merges_only_direct_repeats 7 LogLevelWarn "b" "" []
           (mkDatabaseLogger [mkLogEntry LogLevelInfo "a" 3 "" 1 None] 100 LogLevelInfo
              (Some (mkLogEntry LogLevelInfo "a" 3 "" 1 None)) true)
           _ (Logger.outputToStdLog (mkLogEntry LogLevelWarn "b" 7 "" 1 None))).
  - cbn. unfold LogLevelInfo, LogLevelWarn. lia.
  - reflexivity.
Defined.

(** X3.  [Clear] empties the buffer and forgets the last message while
    keeping the configuration, so the first passing call after it is
    stored as a new entry with count 1 even when it repeats the message
    logged last before the [Clear]. *)
Theorem Clear_resets_suppression :
  forall now level message details ci dl,
    currentLevel dl <= level ->
    0 < maxEntries dl ->
    let entry := mkLogEntry level message now details 1
                   (match ci with Some c :: _ => Some c | _ => None end) in
    Logger.addEntry now level message details ci (Logger.Clear dl)
    = Ok (mkDatabaseLogger [entry] (maxEntries dl) (currentLevel dl) (Some entry)
            (suppressDuplicates dl),
          Logger.outputToStdLog entry).
Proof.
  intros now level message details ci dl Hlv Hmax entry.
  rewrite addEntry_fresh; cbn; try assumption.
  - destruct (maxEntries dl <=? Z.of_nat 0); reflexivity.
  - unfold Logger.isDuplicate. cbn. apply andb_false_r.
Qed.

Lemma Clear_resets_suppression_witness :
  Logger.addEntry 9 LogLevelInfo "a" "" []
    (Logger.Clear
       (mkDatabaseLogger [mkLogEntry LogLevelInfo "a" 3 "" 1 None] 100 LogLevelInfo
          (Some (mkLogEntry LogLevelInfo "a" 5 "" 2 None)) true))
  = Ok (mkDatabaseLogger [mkLogEntry LogLevelInfo "a" 9 "" 1 None] 100 LogLevelInfo
          (Some (mkLogEntry LogLevelInfo "a" 9 "" 1 None)) true,
        Logger.outputToStdLog (mkLogEntry LogLevelInfo "a" 9 "" 1 None)).
Proof.
  apply (Clear_resets_suppression 9 LogLevelInfo "a" "" []
           (mkDatabaseLogger [mkLogEntry LogLevelInfo "a" 3 "" 1 None] 100 LogLevelInfo
              (Some (mkLogEntry LogLevelInfo "a" 5 "" 2 None)) true)).
  - cbn. lia.
  - cbn. lia.
Defined.



Lemma drop_all_but_app {A : Type} (m : nat) (a b : list A) :
  let kept := drop (length a - m) a in
  drop (length (kept ++ b) - m) (kept ++ b) = drop (length (a ++ b) - m) (a ++ b).
Proof.
  intros kept. subst kept.
  destruct (le_lt_dec (length a) m) as [Hle | Hgt].
  - replace (length a - m)%nat with O by lia. rewrite drop_0. reflexivity.
  - rewrite !length_app, length_drop.
    replace (length a - (length a - m) + length b - m)%nat with (length b) by lia.
    replace (length a + length b - m)%nat with ((length a - m) + length b)%nat by lia.
    rewrite <- drop_drop. f_equal.
    rewrite drop_app_le by lia. reflexivity.
Qed.

(** X5.  With suppression switched off every passing call is stored, a
    repetition too: after [N] identical calls the buffer holds the last
    [maxEntries] of the old entries followed by one new entry per call,
    each with count 1 and the time of its call. *)
Theorem addEntry_without_suppression_stores_all :
  forall (N : nat) (now : nat -> Go.Time) level message details dl,
    suppressDuplicates dl = false ->
    currentLevel dl <= level ->
    0 < maxEntries dl ->
    Logger.boundOk dl ->
    let news := (fun i => mkLogEntry level message (now i) details 1 None) <$> seq 0 N in
    exists dl',
      Logger.addEntryTimes N now level message details dl = Ok dl' /\
      entries dl'
      = drop (length (entries dl ++ news) - Z.to_nat (maxEntries dl)) (entries dl ++ news) /\
      Logger.boundOk dl'.
Proof.
  induction N as [| N IH]; intros now level message details dl Hs Hlv Hmax Hb news.
  - exists dl. split; [reflexivity |]. unfold Logger.boundOk in Hb. subst news. cbn.
    rewrite app_nil_r. replace (length (entries dl) - Z.to_nat (maxEntries dl))%nat
      with O by lia.
    split; [reflexivity | exact Hb].
  - remember (mkLogEntry level message (now O) details 1 None) as entry eqn:Hentry.
    remember ((fun i => mkLogEntry level message (now (S i)) details 1 None) <$> seq 0 N)
      as rest eqn:Hrest.
    assert (Hnews : news = entry :: rest).
    { subst news rest entry. cbn [seq fmap list_fmap]. f_equal.
      rewrite <- fmap_S_seq, <- list_fmap_compose. reflexivity. }
    clearbody news. subst news.
    cbn [Logger.addEntryTimes].
    rewrite addEntry_fresh; try assumption.
    2:{ unfold Logger.isDuplicate. rewrite Hs. reflexivity. }
    rewrite <- Hentry.
    remember (if maxEntries dl <=? Z.of_nat (length (entries dl))
              then drop 1 (entries dl) else entries dl) as kept eqn:Hk.
    unfold Logger.boundOk in Hb.
    assert (Hkept : (kept ++ [entry])%list
                    = drop (length (entries dl ++ [entry]) - Z.to_nat (maxEntries dl))
                        (entries dl ++ [entry])).
    { subst kept. rewrite length_app. cbn [length].
      destruct (Z.leb_spec (maxEntries dl) (Z.of_nat (length (entries dl)))).
      - replace (length (entries dl) + 1 - Z.to_nat (maxEntries dl))%nat with 1%nat by lia.
        rewrite drop_app_le; [reflexivity |].
        destruct (entries dl); cbn in *; lia.
      - replace (length (entries dl) + 1 - Z.to_nat (maxEntries dl))%nat with O by lia.
        reflexivity. }
    remember (mkDatabaseLogger (kept ++ [entry]) (maxEntries dl) (currentLevel dl)
                (Some entry) (suppressDuplicates dl)) as dl1 eqn:Hdl1.
    assert (Hb1 : Logger.boundOk dl1).
    { unfold Logger.boundOk. subst dl1. cbn [entries maxEntries]. rewrite Hkept.
      rewrite length_drop, length_app. cbn [length]. lia. }
    destruct (IH (fun i => now (S i)) level message details dl1)
      as (dl' & Hrun & Hent & Hb'); try (subst dl1; assumption).
    change (Ok (dl1, Logger.outputToStdLog entry) ≫=
              (fun '(dl0, _) =>
                 Logger.addEntryTimes N (fun i => now (S i)) level message details dl0))
      with (Logger.addEntryTimes N (fun i => now (S i)) level message details dl1).
    exists dl'. split; [exact Hrun |]. split; [| exact Hb'].
    rewrite Hent, <- Hrest. subst dl1. cbn [entries maxEntries]. rewrite Hkept.
    pose proof (drop_all_but_app (Z.to_nat (maxEntries dl)) (entries dl ++ [entry]) rest)
      as Hd.
    cbn zeta in Hd. rewrite Hd. rewrite <- app_assoc. reflexivity.
Qed.

Lemma addEntry_without_suppression_stores_all_witness :
  exists dl',
    Logger.addEntryTimes 3 (fun i => Z.of_nat i) LogLevelInfo "x" ""
      (Logger.SetMaxEntries 2 (Logger.SetSuppressDuplicates false Logger.GetDatabaseLogger))
    = Ok dl' /\
    entries dl'
    = [mkLogEntry LogLevelInfo "x" 1 "" 1 None; mkLogEntry LogLevelInfo "x" 2 "" 1 None] /\
    Logger.boundOk dl'.
Proof.
  apply (addEntry_without_suppression_stores_all 3 (fun i => Z.of_nat i) LogLevelInfo "x" ""
           (Logger.SetMaxEntries 2
              (Logger.SetSuppressDuplicates false Logger.GetDatabaseLogger))).
  - reflexivity.
  - cbn. lia.
  - cbn. lia.
  - unfold Logger.boundOk. cbn. lia.
Defined.

End LoggerMore.

(** ** The pattern table *)

Section TableFacts.
Context `{GoRuntime}.









Example lock_wait_timeout_is_classified_timeout :
  ErrorPattern.Code
    (Analyzer.matchErrorPattern (H := plainRuntime) GetErrorAnalyzer
       "Error 1205: Lock wait timeout exceeded; try restarting transaction")
  = "TIME_001".
Proof. vm_compute. reflexivity. Qed.

End TableFacts.

(** ** Error statistics *)

Section SummaryFacts.
Context `{GoRuntime}.

Lemma matchErrorPattern_patterns (ea ea' : ErrorAnalyzer) (message : string) :
  patterns ea' = patterns ea ->
  Analyzer.matchErrorPattern ea' message = Analyzer.matchErrorPattern ea message.
Proof. intros Hp. unfold Analyzer.matchErrorPattern. rewrite Hp. reflexivity. Qed.

Lemma updateErrorSummary_countOf (d : ErrorDetails.t) (errorMsg : string)
    (now : Go.Time) (ea : ErrorAnalyzer) (key : string) :
  countOf (Analyzer.updateErrorSummary d errorMsg now ea) key
  = if decide (key = Analyzer.summaryKey (ErrorDetails.Typ d) (ErrorDetails.Code d))
    then Go.int_add (countOf ea key) 1
    else countOf ea key.
Proof.
  unfold countOf, Analyzer.updateErrorSummary. cbn [summaries].
  destruct (decide (key = Analyzer.summaryKey (ErrorDetails.Typ d) (ErrorDetails.Code d)))
    as [-> | Hne].
  - rewrite lookup_insert_eq. cbn.
    destruct (summaries ea !! _); reflexivity.
  - rewrite lookup_insert_ne by congruence. reflexivity.
Qed.

(** X7.  The count of a summary is the number of [AnalyzeError] calls
    that fell under its key: after a run of calls, each key stands at its
    earlier count plus the number of errors of the run that its pattern
    matched; a key with no summary counts as zero. *)
Theorem AnalyzeError_counts_calls :
  forall (errs : list (string * Z)) (w : World) (key : string),
    0 < maxEntries (dbLogger w) ->
    0 <= countOf (errorAnalyzer w) key ->
    countOf (errorAnalyzer w) key + Z.of_nat (length errs) < 2 ^ 63 ->
    exists w',
      AnalyzerMore.analyzeAll errs w = Ok (tt, w') /\
      countOf (errorAnalyzer w') key
      = countOf (errorAnalyzer w) key + Z.of_nat (matching (errorAnalyzer w) key errs) /\
      patterns (errorAnalyzer w') = patterns (errorAnalyzer w).
Proof.
  induction errs as [| [errorMsg retryCount] errs IH]; intros w key Hmax Hpos Hsmall.
  - exists w. split; [reflexivity |]. unfold matching. cbn. split; [lia | reflexivity].
  - cbn [AnalyzerMore.analyzeAll]. rewrite bind_run.
    destruct (AnalyzeError_run w errorMsg retryCount Hmax)
      as (w1 & -> & Hea & _ & _ & _ & _ & _ & Hmax1).
    set (p := Analyzer.matchErrorPattern (errorAnalyzer w) errorMsg) in *.
    assert (Hpat : patterns (errorAnalyzer w1) = patterns (errorAnalyzer w)).
    { rewrite Hea. reflexivity. }
    assert (Hc1 : countOf (errorAnalyzer w1) key
                  = countOf (errorAnalyzer w) key
                    + (if decide (Analyzer.summaryKey (ErrorPattern.Typ p)
                                    (ErrorPattern.Code p) = key) then 1 else 0)).
    { rewrite Hea, updateErrorSummary_countOf. cbn [ErrorDetails.Typ ErrorDetails.Code].
      cbn [length] in Hsmall.
      destruct (decide (key = _)) as [-> | Hne].
      - rewrite decide_True by reflexivity. unfold Go.int_add.
        rewrite wrap64_small by lia. reflexivity.
      - rewrite decide_False by congruence. lia. }
    cbn [length] in Hsmall.
    destruct (IH w1 key) as (w' & Hrun & Hcount & Hpat').
    + lia.
    + rewrite Hc1. destruct (decide _); lia.
    + rewrite Hc1. destruct (decide _); lia.
    + exists w'. split; [exact Hrun |]. split; [| congruence].
      rewrite Hcount, Hc1.
      assert (Hm : matching (errorAnalyzer w1) key errs
                   = matching (errorAnalyzer w) key errs).
      { unfold matching. f_equal. apply list_filter_iff. intros e. cbn.
        rewrite (matchErrorPattern_patterns _ _ _ Hpat). reflexivity. }
      rewrite Hm. unfold matching at 2. rewrite filter_cons. cbn [fst].
      fold p. destruct (decide _); cbn [length]; unfold matching; lia.
Qed.

End SummaryFacts.

Lemma AnalyzeError_counts_calls_witness :
  exists w',
    AnalyzerMore.analyzeAll (H := plainRuntime)
      [("dial tcp: connection refused", 0); ("i/o timeout", 0);
       ("Connection Refused by peer", 1)]
      (initialWorld sampleConfig (fun _ => 0)) = Ok (tt, w') /\
    countOf (errorAnalyzer w') "network_NET_001"
    = 0 + Z.of_nat (@matching plainRuntime GetErrorAnalyzer "network_NET_001"
                      [("dial tcp: connection refused", 0); ("i/o timeout", 0);
                       ("Connection Refused by peer", 1)]) /\
    patterns (errorAnalyzer w') = initializeErrorPatterns.
Proof.
  apply (AnalyzeError_counts_calls (H := plainRuntime)
           [("dial tcp: connection refused", 0); ("i/o timeout", 0);
            ("Connection Refused by peer", 1)]
           (initialWorld sampleConfig (fun _ => 0)) "network_NET_001").
  - cbn. lia.
  - vm_compute. discriminate.
  - vm_compute. reflexivity.
Defined.

Example counts_two_refusals :
  @matching plainRuntime GetErrorAnalyzer "network_NET_001"
    [("dial tcp: connection refused", 0); ("i/o timeout", 0);
     ("Connection Refused by peer", 1)] = 2%nat.
Proof. vm_compute. reflexivity. Qed.


Section SummaryShape.
Context `{GoRuntime}.

Lemma appendExample_NoDup (maxEx : Z) (examples : list string) (errorMsg : string) :
  NoDup examples -> NoDup (Analyzer.appendExample maxEx examples errorMsg).
Proof.
  intros Hnd. unfold Analyzer.appendExample.
  destruct (Z.of_nat (length examples) <? maxEx); [| exact Hnd].
  destruct (existsb (String.eqb errorMsg) examples) eqn:Hex; [exact Hnd |].
  apply NoDup_app. split; [exact Hnd |]. split; [| apply NoDup_singleton].
  intros x Hx Hx'. apply list_elem_of_singleton in Hx'. subst x.
  assert (Htrue : existsb (String.eqb errorMsg) examples = true).
  { apply existsb_exists. exists errorMsg. split; [| apply String.eqb_refl].
    apply list_elem_of_In. exact Hx. }
  congruence.
Qed.

Lemma appendExample_length (maxEx : Z) (examples : list string) (errorMsg : string) :
  Z.of_nat (length examples) <= maxEx ->
  Z.of_nat (length (Analyzer.appendExample maxEx examples errorMsg)) <= maxEx.
Proof.
  intros Hlen. unfold Analyzer.appendExample.
  destruct (Z.ltb_spec (Z.of_nat (length examples)) maxEx); [| exact Hlen].
  destruct (existsb (String.eqb errorMsg) examples); [exact Hlen |].
  rewrite length_app. cbn. lia.
Qed.

Lemma updateErrorSummary_summariesOk (d : ErrorDetails.t) (errorMsg : string)
    (now : Go.Time) (ea : ErrorAnalyzer) :
  0 <= maxExamples ea ->
  summariesOk ea ->
  summariesOk (Analyzer.updateErrorSummary d errorMsg now ea).
Proof.
  intros Hmax Hok key s. unfold Analyzer.updateErrorSummary. cbn [summaries].
  set (k := Analyzer.summaryKey (ErrorDetails.Typ d) (ErrorDetails.Code d)).
  destruct (decide (key = k)) as [-> | Hne].
  - rewrite lookup_insert_eq. intros [= <-]. unfold summaryOk. cbn.
    destruct (summaries ea !! k) as [old |] eqn:Hold; cbn.
    + destruct (Hok k old Hold) as (Hkey & Hnd & Hlen).
      split; [exact Hkey |].
      split; [apply appendExample_NoDup, Hnd | apply appendExample_length, Hlen].
    + split; [reflexivity |].
      split; [apply appendExample_NoDup, NoDup_nil_2 | apply appendExample_length; cbn; lia].
  - rewrite lookup_insert_ne by congruence. intros Hs.
    destruct (Hok key s Hs) as (Hkey & Hnd & Hlen). unfold summaryOk. cbn. auto.
Qed.

(** X8.  Whatever errors are analysed, every summary stays filed under
    the key of its own type and code, and its list of examples stays free
    of repetitions and within [maxExamples]. *)
Theorem AnalyzeError_keeps_summaries_well_formed :
  forall (errs : list (string * Z)) (w : World),
    0 < maxEntries (dbLogger w) ->
    0 <= maxExamples (errorAnalyzer w) ->
    summariesOk (errorAnalyzer w) ->
    exists w',
      AnalyzerMore.analyzeAll errs w = Ok (tt, w') /\
      summariesOk (errorAnalyzer w') /\
      maxExamples (errorAnalyzer w') = maxExamples (errorAnalyzer w).
Proof.
  induction errs as [| [errorMsg retryCount] errs IH]; intros w Hmax Hex Hok.
  - exists w. auto.
  - cbn [AnalyzerMore.analyzeAll]. rewrite bind_run.
    destruct (AnalyzeError_run w errorMsg retryCount Hmax)
      as (w1 & -> & Hea & _ & _ & _ & _ & _ & Hmax1).
    destruct (IH w1) as (w' & Hrun & Hok' & Hex').
    + lia.
    + rewrite Hea. exact Hex.
    + rewrite Hea. apply updateErrorSummary_summariesOk; assumption.
    + exists w'. split; [exact Hrun |]. split; [exact Hok' |].
      rewrite Hex', Hea. reflexivity.
Qed.

(** X9.  [MarkErrorResolved] on a type and code that has no summary does
    nothing at all: no summary is created and nothing is logged.  On one
    that has a summary it raises the resolved flag of that summary and
    touches no other field and no other summary. *)
Theorem MarkErrorResolved_contract :
  forall (errorType : ErrorType) (code : string) (w : World),
    0 < maxEntries (dbLogger w) ->
    let key := Analyzer.summaryKey errorType code in
    exists w',
      AnalyzerMore.MarkErrorResolved errorType code w = Ok (tt, w') /\
      match summaries (errorAnalyzer w) !! key with
      | None => w' = w
      | Some s =>
          summaries (errorAnalyzer w')
          = <[key := AnalyzerMore.setResolved s]> (summaries (errorAnalyzer w)) /\
          patterns (errorAnalyzer w') = patterns (errorAnalyzer w) /\
          maxExamples (errorAnalyzer w') = maxExamples (errorAnalyzer w) /\
          db w' = db w /\ reconnector w' = reconnector w /\ loops w' = loops w
      end.
Proof.
  intros errorType code w Hmax key. unfold AnalyzerMore.MarkErrorResolved.
  rewrite bind_run. cbn [gets]. fold key.
  destruct (summaries (errorAnalyzer w) !! key) as [s |] eqn:Hs.
  - rewrite bind_run. cbn [modify].
    set (w1 := set_errorAnalyzer _ w).
    destruct (log_ok LogLevelInfo
                ("错误已标记为解决: [" ++ code ++ "] " ++ errorType)
                (Logger.firstDetail []) [] w1 Hmax) as (w' & Hlog & Hframe).
    unfold logInfo. rewrite Hlog. exists w'. split; [reflexivity |].
    destruct Hframe as (Hdb & _ & _ & Hr & Hea & Hl & _).
    rewrite Hdb, Hr, Hl, Hea. subst w1. cbn. repeat split; reflexivity.
  - exists w. split; reflexivity.
Qed.

(** X10.  A recurrence does not reopen a resolved error: analysing an
    error whose summary is flagged resolved raises its count and its
    last-seen time and keeps its first-seen time, but the flag stays up. *)
Theorem resolved_survives_recurrence :
  forall (w : World) (errorMsg : string) (retryCount : Z) (s : ErrorSummary.t),
    0 < maxEntries (dbLogger w) ->
    let p := Analyzer.matchErrorPattern (errorAnalyzer w) errorMsg in
    let key := Analyzer.summaryKey (ErrorPattern.Typ p) (ErrorPattern.Code p) in
    summaries (errorAnalyzer w) !! key = Some s ->
    exists (d : ErrorDetails.t) (w' : World) (s' : ErrorSummary.t),
      AnalyzerOps.AnalyzeError (Some errorMsg) retryCount w = Ok (Some d, w') /\
      summaries (errorAnalyzer w') !! key = Some s' /\
      ErrorSummary.Resolved s' = ErrorSummary.Resolved s /\
      ErrorSummary.Count s' = Go.int_add (ErrorSummary.Count s) 1 /\
      ErrorSummary.FirstSeen s' = ErrorSummary.FirstSeen s /\
      ErrorSummary.LastSeen s' = clock w (ticks w).
Proof.
  intros w errorMsg retryCount s Hmax p key Hs.
  destruct (AnalyzeError_run w errorMsg retryCount Hmax) as (w' & Hrun & Hea & _).
  eexists _, w', _. split; [exact Hrun |].
  rewrite Hea. unfold Analyzer.updateErrorSummary.
  cbn [summaries ErrorDetails.Typ ErrorDetails.Code]. fold p. fold key.
  rewrite lookup_insert_eq, Hs. split; [reflexivity |]. cbn. auto.
Qed.

Lemma log_below_level level message details ci (w : World) :
  level < currentLevel (dbLogger w) ->
  log level message details ci w = Ok (tt, w).
Proof.
  intros Hlevel. unfold log. rewrite bind_run. cbn [gets].
  destruct (Z.ltb_spec level (currentLevel (dbLogger w))); [reflexivity | lia].
Qed.

(** X11.  An error that matches no pattern is counted but not reported:
    its analysis is logged at debug level, so with the threshold above
    debug, as the logger is built, the log buffer and the standard log
    stay as they were while the [unknown_UNK_001] summary is raised. *)
Theorem unknown_errors_are_counted_not_logged :
  forall (w : World) (errorMsg : string) (retryCount : Z),
    Analyzer.scanPatterns (Go.ToLower caseTable errorMsg) (patterns (errorAnalyzer w))
    = None ->
    LogLevelDebug < currentLevel (dbLogger w) ->
    exists (d : ErrorDetails.t) (w' : World),
      AnalyzerOps.AnalyzeError (Some errorMsg) retryCount w = Ok (Some d, w') /\
      ErrorDetails.Typ d = ErrorTypeUnknown /\
      ErrorDetails.Code d = "UNK_001" /\
      dbLogger w' = dbLogger w /\
      stdlog w' = stdlog w /\
      countOf (errorAnalyzer w') "unknown_UNK_001"
      = Go.int_add (countOf (errorAnalyzer w) "unknown_UNK_001") 1.
Proof.
  intros w errorMsg retryCount Hscan Hlevel.
  unfold AnalyzerOps.AnalyzeError.
  rewrite bind_run, Now_run, bind_run. cbn [gets errorAnalyzer set_ticks].
  unfold Analyzer.matchErrorPattern. rewrite Hscan.
  rewrite bind_run. cbn [modify]. rewrite bind_run.
  unfold AnalyzerOps.logErrorAnalysis. cbn [ErrorPattern.Severity unknownPattern].
  change (2 =? 5) with false. change (2 =? 4) with false. change (2 =? 3) with false.
  cbv iota. unfold logDebug. rewrite log_below_level by exact Hlevel.
  eexists _, _. split; [reflexivity |].
  cbn. repeat split.
  rewrite updateErrorSummary_countOf. cbn.
  rewrite decide_True by reflexivity. reflexivity.
Qed.

End SummaryShape.

Lemma AnalyzeError_keeps_summaries_well_formed_witness :
  exists w',
    AnalyzerMore.analyzeAll (H := plainRuntime)
      [("dial tcp: connection refused", 0); ("dial tcp: connection refused", 1)]
      (initialWorld sampleConfig (fun _ => 0)) = Ok (tt, w') /\
    summariesOk (errorAnalyzer w') /\
    maxExamples (errorAnalyzer w') = 10.
Proof.
  apply (AnalyzeError_keeps_summaries_well_formed (H := plainRuntime)
           [("dial tcp: connection refused", 0); ("dial tcp: connection refused", 1)]
           (initialWorld sampleConfig (fun _ => 0))).
  - cbn. lia.
  - cbn. lia.
  - intros key s Hs. cbn in Hs. rewrite lookup_empty in Hs. discriminate.
Defined.

Lemma MarkErrorResolved_contract_witness :
  exists w',
    AnalyzerMore.MarkErrorResolved ErrorTypeNetwork "NET_001" sampleWorld = Ok (tt, w') /\
    match summaries (errorAnalyzer sampleWorld) !! "network_NET_001" with
    | None => w' = sampleWorld
    | Some s =>
        summaries (errorAnalyzer w')
        = <["network_NET_001" := AnalyzerMore.setResolved s]>
            (summaries (errorAnalyzer sampleWorld)) /\
        patterns (errorAnalyzer w') = patterns (errorAnalyzer sampleWorld) /\
        maxExamples (errorAnalyzer w') = maxExamples (errorAnalyzer sampleWorld) /\
        db w' = db sampleWorld /\ reconnector w' = reconnector sampleWorld /\
        loops w' = loops sampleWorld
    end.
Proof.
  apply (MarkErrorResolved_contract ErrorTypeNetwork "NET_001" sampleWorld).
  vm_compute. reflexivity.
Defined.

Lemma resolved_survives_recurrence_witness :
  exists (d : ErrorDetails.t) (w' : World) (s' : ErrorSummary.t),
    AnalyzerOps.AnalyzeError (H := plainRuntime) (Some "connection refused") 0
      (set_errorAnalyzer
         (mkErrorAnalyzer initializeErrorPatterns
            (<["network_NET_001" :=
                 ErrorSummary.mk ErrorTypeNetwork "NET_001" 3 1 5 ∅ [] true]> ∅) 10)
         (initialWorld sampleConfig (fun _ => 100)))
    = Ok (Some d, w') /\
    summaries (errorAnalyzer w') !! "network_NET_001" = Some s' /\
    ErrorSummary.Resolved s' = true /\
    ErrorSummary.Count s' = 4.
Proof.
  destruct (resolved_survives_recurrence (H := plainRuntime)
              (set_errorAnalyzer
                 (mkErrorAnalyzer initializeErrorPatterns
                    (<["network_NET_001" :=
                         ErrorSummary.mk ErrorTypeNetwork "NET_001" 3 1 5 ∅ [] true]> ∅) 10)
                 (initialWorld sampleConfig (fun _ => 100)))
              "connection refused" 0
              (ErrorSummary.mk ErrorTypeNetwork "NET_001" 3 1 5 ∅ [] true))
    as (d & w' & s' & Hrun & Hs' & Hres & Hcount & _).
  - vm_compute. reflexivity.
  - vm_compute. reflexivity.
  - exists d, w', s'. split; [exact Hrun |]. split; [exact Hs' |].
    split; [exact Hres | exact Hcount].
Defined.

Lemma unknown_errors_are_counted_not_logged_witness :
  exists (d : ErrorDetails.t) (w' : World),
    AnalyzerOps.AnalyzeError (H := plainRuntime) (Some "something odd") 0
      (initialWorld sampleConfig (fun _ => 0)) = Ok (Some d, w') /\
    ErrorDetails.Typ d = ErrorTypeUnknown /\
    ErrorDetails.Code d = "UNK_001" /\
    dbLogger w' = dbLogger (initialWorld sampleConfig (fun _ => 0)) /\
    stdlog w' = stdlog (initialWorld sampleConfig (fun _ => 0)) /\
    countOf (errorAnalyzer w') "unknown_UNK_001"
    = Go.int_add (countOf (errorAnalyzer (initialWorld sampleConfig (fun _ => 0)))
                    "unknown_UNK_001") 1.
Proof.
  apply (unknown_errors_are_counted_not_logged (H := plainRuntime)
           (initialWorld sampleConfig (fun _ => 0)) "something odd" 0).
  - vm_compute. reflexivity.
  - vm_compute. reflexivity.
Defined.

(** ** [GetTopErrors]: the bubble sort *)

Section TopErrors.

Lemma carry_split (k : nat) :
  forall (x : ErrorSummary.t) (l : list ErrorSummary.t),
    (k <= length l)%nat ->
    exists p m,
      AnalyzerMore.carry k x l = (p ++ m :: drop k l)%list /\
      length p = k /\
      (p ++ [m])%list ≡ₚ x :: take k l /\
      Forall (fun a => countGe a m) p /\
      countGe x m.
Proof.
  induction k as [| k IH]; intros x l Hk.
  - exists [], x. cbn. rewrite drop_0, take_0.
    destruct l; (split; [reflexivity |]); (split; [reflexivity |]);
      (split; [reflexivity |]); (split; [constructor | unfold countGe; lia]).
  - destruct l as [| y l]; [cbn in Hk; lia |].
    cbn in Hk. cbn [AnalyzerMore.carry].
    destruct (Z.ltb_spec (ErrorSummary.Count x) (ErrorSummary.Count y)) as [Hlt | Hge].
    + assert (Hk' : (k <= length l)%nat) by lia.
      destruct (IH x l Hk') as (p & m & -> & Hlen & Hperm & Hall & Hx).
      exists (y :: p), m. cbn. split; [reflexivity |]. split; [lia |].
      split; [| split].
      * rewrite Hperm. apply perm_swap.
      * constructor; [unfold countGe in *; lia | exact Hall].
      * exact Hx.
    + assert (Hk' : (k <= length l)%nat) by lia.
      destruct (IH y l Hk') as (p & m & -> & Hlen & Hperm & Hall & Hy).
      exists (x :: p), m. cbn. split; [reflexivity |]. split; [lia |].
      split; [| split].
      * rewrite Hperm. reflexivity.
      * constructor; [unfold countGe in *; lia | exact Hall].
      * unfold countGe in *; lia.
Qed.

Lemma bubblePasses_sorted (k : nat) :
  forall (front back : list ErrorSummary.t),
    length front = S k ->
    StronglySorted countGe back ->
    Forall (fun a => Forall (countGe a) back) front ->
    AnalyzerMore.bubblePasses k (front ++ back) ≡ₚ (front ++ back)%list /\
    StronglySorted countGe (AnalyzerMore.bubblePasses k (front ++ back)).
Proof.
  induction k as [| k IH]; intros front back Hlen Hsorted Hfb.
  - destruct front as [| a [| ? ?]]; try discriminate. cbn.
    split; [reflexivity |]. constructor; [exact Hsorted |].
    apply Forall_cons in Hfb. tauto.
  - destruct front as [| x rest]; [discriminate |].
    cbn in Hlen. injection Hlen as Hlen.
    cbn [AnalyzerMore.bubblePasses AnalyzerMore.bubblePass app].
    destruct (carry_split (S k) x (rest ++ back)) as (p & m & -> & Hp & Hperm & Hall & _).
    { rewrite length_app. lia. }
    replace (drop (S k) (rest ++ back)) with back in *
      by (rewrite <- Hlen, drop_app_length; reflexivity).
    replace (take (S k) (rest ++ back)) with rest in Hperm
      by (rewrite <- Hlen, take_app_length; reflexivity).
    assert (Hin : forall a, a ∈ (p ++ [m])%list -> Forall (countGe a) back).
    { intros a Ha. rewrite Hperm in Ha.
      rewrite Forall_forall in Hfb. apply Hfb. exact Ha. }
    destruct (IH p (m :: back)) as (Hperm' & Hsorted').
    + exact Hp.
    + constructor; [exact Hsorted |]. apply Hin.
      apply elem_of_app. right. apply list_elem_of_singleton. reflexivity.
    + rewrite Forall_forall. intros a Ha. constructor.
      * rewrite Forall_forall in Hall. apply Hall, Ha.
      * apply Hin. apply elem_of_app. left. exact Ha.
    + split; [| exact Hsorted'].
      rewrite Hperm'. change (x :: rest ++ back)%list with ((x :: rest) ++ back)%list.
      rewrite <- Hperm. rewrite <- app_assoc. reflexivity.
Qed.

Lemma bubbleSort_sorted (s : list ErrorSummary.t) :
  AnalyzerMore.bubbleSort s ≡ₚ s /\ StronglySorted countGe (AnalyzerMore.bubbleSort s).
Proof.
  unfold AnalyzerMore.bubbleSort. destruct s as [| x s].
  - cbn. split; [reflexivity | constructor].
  - pose proof (bubblePasses_sorted (length s) (x :: s) []) as Hb.
    rewrite app_nil_r in Hb.
    replace (length (x :: s) - 1)%nat with (length s) by (cbn; lia). apply Hb.
    + reflexivity.
    + constructor.
    + rewrite Forall_forall. intros; constructor.
Qed.

(** X12.  [GetTopErrors] returns the most frequent summaries, most
    frequent first: together with the summaries it leaves out the result
    is a rearrangement of all the summaries, in descending order of count,
    so that nothing left out has a higher count than anything returned.
    It returns [limit] summaries when [0 < limit < len], and all of them
    otherwise, in particular for a zero or negative limit. *)
Theorem GetTopErrors_most_frequent_first :
  forall (range : list (string * ErrorSummary.t)) (limit : Z),
    let top := AnalyzerMore.GetTopErrors range limit in
    exists rest,
      (top ++ rest)%list ≡ₚ range.*2 /\
      StronglySorted countGe (top ++ rest) /\
      length top
      = (if (0 <? limit) && (limit <? Z.of_nat (length range))
         then Z.to_nat limit else length range).
Proof.
  intros range limit top. subst top. unfold AnalyzerMore.GetTopErrors.
  destruct (bubbleSort_sorted (range.*2)) as (Hperm & Hsorted).
  assert (Hlen : length (AnalyzerMore.bubbleSort (range.*2)) = length range).
  { rewrite Hperm, length_fmap. reflexivity. }
  rewrite Hlen.
  destruct ((0 <? limit) && (limit <? Z.of_nat (length range))) eqn:Hlim.
  - exists (drop (Z.to_nat limit) (AnalyzerMore.bubbleSort (range.*2))).
    rewrite take_drop. split; [exact Hperm |]. split; [exact Hsorted |].
    rewrite length_take, Hlen. apply andb_prop in Hlim. lia.
  - exists []. rewrite app_nil_r. auto.
Qed.

End TopErrors.

(** * The reconnector: handles and bookkeeping *)

(** ** Running code to its end *)

Section WpFacts.

Lemma wp_ret {A : Type} (a : A) (w : World) (Q : A -> World -> Prop) :
  Q a w -> wp (mret a) w Q.
Proof. intros HQ. exact HQ. Qed.

Lemma wp_gets {A : Type} (f : World -> A) (w : World) (Q : A -> World -> Prop) :
  Q (f w) w -> wp (gets f) w Q.
Proof. intros HQ. exact HQ. Qed.

Lemma wp_modify (f : World -> World) (w : World) (Q : unit -> World -> Prop) :
  Q tt (f w) -> wp (modify f) w Q.
Proof. intros HQ. exact HQ. Qed.

Lemma wp_Now (w : World) (Q : Go.Time -> World -> Prop) :
  Q (clock w (ticks w)) (set_ticks (S (ticks w)) w) -> wp Now w Q.
Proof. intros HQ. exact HQ. Qed.

Lemma wp_bind {A B : Type} (m : M A) (k : A -> M B) (w : World)
    (Q : B -> World -> Prop) :
  wp m w (fun a w1 =>
            maxEntries (dbLogger w1) = maxEntries (dbLogger w) /\ wp (k a) w1 Q) ->
  wp (m ≫= k) w Q.
Proof.
  unfold wp. rewrite bind_run. destruct (m w) as [[a w1] | msg | code]; auto.
  intros [Hmax Hk]. destruct (k a w1) as [[b w2] | msg | code]; auto. lia.
Qed.

Lemma wp_mono {A : Type} (m : M A) (w : World) (P Q : A -> World -> Prop) :
  wp m w P -> (forall a w', P a w' -> Q a w') -> wp m w Q.
Proof. unfold wp. destruct (m w) as [[a w1] | msg | code]; auto. Qed.

Lemma wp_Ok {A : Type} (m : M A) (w : World) (Q : A -> World -> Prop) a w' :
  wp m w Q -> m w = Ok (a, w') -> Q a w'.
Proof. unfold wp. intros Hwp Hrun. rewrite Hrun in Hwp. exact Hwp. Qed.

Lemma wp_total {A : Type} (m : M A) (w : World) (Q : A -> World -> Prop) :
  0 < maxEntries (dbLogger w) -> wp m w Q ->
  exists a w', m w = Ok (a, w') /\ Q a w'.
Proof.
  unfold wp. intros Hmax Hwp. destruct (m w) as [[a w1] | msg | code].
  - eauto.
  - lia.
  - contradiction.
Qed.

(** A step that touches diagnostics only, then the rest. *)
Lemma wp_bind_diag {A B : Type} (m : M A) (k : A -> M B) (w : World)
    (P : A -> Prop) (Q : B -> World -> Prop) :
  wp m w (fun a w1 => P a /\ diagOnly w w1) ->
  (forall a w1, P a -> diagOnly w w1 -> wp (k a) w1 Q) ->
  wp (m ≫= k) w Q.
Proof.
  intros Hm Hk. apply wp_bind. eapply wp_mono; [exact Hm |].
  intros a w1 [HP Hd]. split; [apply Hd | apply Hk; assumption].
Qed.

Lemma diagOnly_refl (w : World) : diagOnly w w.
Proof. unfold diagOnly. tauto. Qed.

Lemma diagOnly_trans (w1 w2 w3 : World) :
  diagOnly w1 w2 -> diagOnly w2 w3 -> diagOnly w1 w3.
Proof. unfold diagOnly. intuition congruence. Qed.

Lemma onlyLogged_diagOnly (w w' : World) : onlyLogged w w' -> diagOnly w w'.
Proof. unfold onlyLogged, diagOnly. tauto. Qed.

Lemma diagOnly_tick (w : World) : diagOnly w (set_ticks (S (ticks w)) w).
Proof. unfold diagOnly. cbn. tauto. Qed.

End WpFacts.

Section DiagFacts.
Context `{GoRuntime}.

Lemma log_wp level message details ci (w : World) :
  wp (log level message details ci) w (fun _ w' => diagOnly w w').
Proof.
  pose proof (log_spec level message details ci w) as Hs. unfold wp.
  destruct (log level message details ci w) as [[[] w'] | msg | code]; auto.
  apply onlyLogged_diagOnly, Hs.
Qed.

Lemma logErrorAnalysis_wp (details : ErrorDetails.t) (severity : Z) (w : World) :
  wp (AnalyzerOps.logErrorAnalysis details severity) w (fun _ w' => diagOnly w w').
Proof.
  unfold AnalyzerOps.logErrorAnalysis, logError, logWarn, logInfo, logDebug.
  destruct (severity =? 5); [apply log_wp |].
  destruct (severity =? 4); [apply log_wp |].
  destruct (severity =? 3); apply log_wp.
Qed.

(** [AnalyzeError] on a non-nil error: what it returns, and that it
    touches diagnostics only. *)
Lemma AnalyzeError_wp (errorMsg : string) (retryCount : Z) (w : World) :
  let p := Analyzer.matchErrorPattern (errorAnalyzer w) errorMsg in
  let d :=
    ErrorDetails.mk (ErrorPattern.Typ p) (ErrorPattern.Code p) errorMsg
      (ErrorPattern.Cause p) (Analyzer.enhanceSuggestion p retryCount)
      (Time_Format "2006-01-02 15:04:05" (clock w (ticks w))) retryCount in
  wp (AnalyzerOps.AnalyzeError (Some errorMsg) retryCount) w
    (fun a w' => a = Some d /\ diagOnly w w').
Proof.
  intros p d. unfold AnalyzerOps.AnalyzeError.
  apply wp_bind, wp_Now. split; [reflexivity |].
  apply wp_bind, wp_gets. split; [reflexivity |].
  cbn [errorAnalyzer set_ticks]. fold p. fold d.
  apply wp_bind, wp_modify. split; [reflexivity |].
  apply wp_bind.
  eapply wp_mono; [apply logErrorAnalysis_wp |].
  intros [] w' Hd. split; [apply Hd |].
  apply wp_ret. split; [reflexivity |].
  eapply diagOnly_trans; [| exact Hd]. unfold diagOnly. cbn. tauto.
Qed.

End DiagFacts.

(** ** [tryConnect] *)

Section TryConnect.
Context `{GoRuntime}.

Lemma wp_modifyReconnector (f : Reconnector -> Reconnector) (w : World)
    (Q : unit -> World -> Prop) :
  Q tt (set_reconnector (f (reconnector w)) w) -> wp (modifyReconnector f) w Q.
Proof. intros HQ. exact HQ. Qed.

Lemma wp_openHandle (w : World) (Q : nat -> World -> Prop) :
  Q (opened w) (set_opened (S (opened w)) w) -> wp Reconn.openHandle w Q.
Proof. intros HQ. exact HQ. Qed.

Lemma wp_closeHandle (h : nat) (w : World) (Q : unit -> World -> Prop) :
  Q tt (set_closed (closed w ++ [h]) w) -> wp (Reconn.closeHandle h) w Q.
Proof. intros HQ. exact HQ. Qed.

Lemma wp_addErrorToHistory (errorMsg : string) (w : World) (Q : unit -> World -> Prop) :
  Q tt (set_reconnector
          (set_errorHistory
             (pushHistory
                ("[" ++ Time_Format "2006-01-02 15:04:05" (clock w (ticks w)) ++ "] "
                   ++ errorMsg)
                (errorHistory (reconnector w)))
             (reconnector w))
          (set_ticks (S (ticks w)) w)) ->
  wp (Reconn.addErrorToHistory errorMsg) w Q.
Proof. intros HQ. exact HQ. Qed.

Lemma wp_StartReconnection (w : World) (Q : unit -> World -> Prop) :
  Q tt (if reconnecting (reconnector w) then w
        else set_loops (loops w ++ [Reconn.freshLoop])
               (set_reconnector (set_reconnecting true (reconnector w)) w)) ->
  wp Reconn.StartReconnection w Q.
Proof. intros HQ. unfold wp. rewrite StartReconnection_run. exact HQ. Qed.

Lemma wp_bind_Start {B : Type} (k : unit -> M B) (w : World) (Q : B -> World -> Prop) :
  wp (k tt)
    (if reconnecting (reconnector w) then w
     else set_loops (loops w ++ [Reconn.freshLoop])
            (set_reconnector (set_reconnecting true (reconnector w)) w)) Q ->
  wp (Reconn.StartReconnection ≫= k) w Q.
Proof.
  intros HQ. apply wp_bind, wp_StartReconnection. split; [| exact HQ].
  destruct (reconnecting (reconnector w)); reflexivity.
Qed.

Lemma wp_StopReconnection (w : World) (Q : unit -> World -> Prop) :
  Q tt (set_reconnector (set_ctxDone true (set_reconnecting false (reconnector w))) w) ->
  wp Reconn.StopReconnection w Q.
Proof. intros HQ. exact HQ. Qed.

Lemma wp_log level message details ci (w : World) (Q : unit -> World -> Prop) :
  (forall w', diagOnly w w' -> Q tt w') ->
  wp (log level message details ci) w Q.
Proof.
  intros HQ. eapply wp_mono; [apply log_wp |]. intros [] w' Hd. apply HQ, Hd.
Qed.

Lemma wp_bind_log {B : Type} level message details ci (k : unit -> M B) (w : World)
    (Q : B -> World -> Prop) :
  (forall w', diagOnly w w' -> wp (k tt) w' Q) ->
  wp (log level message details ci ≫= k) w Q.
Proof.
  intros HQ. apply wp_bind, wp_log. intros w' Hd. split; [apply Hd | apply HQ, Hd].
Qed.

End TryConnect.

(** Steps through code made of reads, writes and handle operations. *)
Ltac wp_prim :=
  first
    [ apply wp_modifyReconnector
    | apply wp_openHandle
    | apply wp_closeHandle
    | apply wp_addErrorToHistory
    | apply wp_StartReconnection
    | apply wp_StopReconnection
    | apply wp_Now
    | apply wp_modify
    | apply wp_gets
    | apply wp_ret ].

Ltac wp_pure :=
  repeat first
    [ apply wp_bind_Start
    | apply wp_bind; wp_prim; split; [reflexivity |]
    | wp_prim ].

Section TryConnectFacts.
Context `{GoRuntime}.

Lemma tryConnect_wp (o : ConnectOutcome) (w : World) :
  wp (Reconn.tryConnect o) w
    (fun ok w' =>
       ok = succeeds o /\
       handlesEffect o w w' /\
       historyEffect o w w' /\
       lastError (reconnector w')
       = match failureOf o with
         | Some (err, _) => Some err
         | None => lastError (reconnector w)
         end /\
       retryCount (reconnector w') = retryCount (reconnector w) /\
       isConnected (reconnector w') = isConnected (reconnector w) /\
       reconnecting (reconnector w') = reconnecting (reconnector w) /\
       ctxDone (reconnector w') = ctxDone (reconnector w) /\
       loops w' = loops w /\
       maxEntries (dbLogger w') = maxEntries (dbLogger w)).
Proof.
  unfold Reconn.tryConnect. destruct o as [err | err closeErr | closeOldErr].
  - wp_pure. unfold handlesEffect, historyEffect. cbn. tauto.
  - destruct closeErr as [e |].
    + wp_pure. unfold logError. apply wp_bind_log. intros w' Hd. wp_pure.
      destruct Hd as (Hdb & Hop & Hcl & Hr & Hl & _ & Hm).
      unfold handlesEffect, historyEffect.
      rewrite Hdb, Hop, Hcl, Hr, Hl, Hm. cbn. tauto.
    + wp_pure. unfold handlesEffect, historyEffect. cbn. tauto.
  - wp_pure. change (db (set_opened (S (opened w)) w)) with (db w).
    destruct (db w) as [h |] eqn:Hdbw.
    + destruct closeOldErr as [e |].
      * apply wp_bind. wp_pure. unfold logError. apply wp_log. intros w' Hd.
        split; [apply Hd |]. wp_pure.
        destruct Hd as (Hdb & Hop & Hcl & Hr & Hl & _ & Hm).
        unfold handlesEffect, historyEffect.
        cbn. rewrite Hop, Hcl, Hr, Hl, Hm, Hdbw. cbn. tauto.
      * wp_pure. unfold handlesEffect, historyEffect. cbn. rewrite Hdbw. tauto.
    + wp_pure. unfold handlesEffect, historyEffect. cbn.
      rewrite Hdbw, app_nil_r. tauto.
Qed.

End TryConnectFacts.

(** ** [InitDB], [CloseDB], [CheckStatus], [CheckConnection] *)

Section LifecycleFacts.
Context `{GoRuntime}.

Lemma analyzeError_wp (errorMsg : string) (retryCount : Z) (w : World) :
  wp (Connection.analyzeError (Some errorMsg) retryCount) w
    (fun a w' =>
       (exists d, a = Some d /\ ErrorDetails.RetryCount d = retryCount) /\
       diagOnly w w').
Proof.
  unfold Connection.analyzeError.
  eapply wp_mono; [apply AnalyzeError_wp |].
  intros a w' [-> Hd]. split; [| exact Hd]. eexists. split; reflexivity.
Qed.

Lemma InitDB_wp (openErr ping : error) (w : World) :
  wp (Connection.InitDB openErr ping) w
    (fun r w' =>
       closed w' = closed w /\ bookSame w w' /\
       ctxDone (reconnector w') = ctxDone (reconnector w) /\
       match openErr with
       | Some err =>
           r = Some ("open database: " ++ err) /\
           db w' = None /\ opened w' = opened w /\
           reconnector w' = reconnector w /\ loops w' = loops w
       | None =>
           r = None /\ db w' = Some (opened w) /\ opened w' = S (opened w) /\
           match ping with
           | Some _ =>
               isConnected (reconnector w') = isConnected (reconnector w) /\
               reconnecting (reconnector w') = true /\
               loops w' = (if reconnecting (reconnector w) then loops w
                           else loops w ++ [Reconn.freshLoop])%list
           | None =>
               isConnected (reconnector w') = true /\
               reconnecting (reconnector w') = reconnecting (reconnector w) /\
               loops w' = loops w
           end
       end).
Proof.
  unfold Connection.InitDB. wp_pure. destruct openErr as [err |].
  - wp_pure. apply wp_bind_log. intros w' Hd. wp_pure.
    destruct Hd as (Hdb & Hop & Hcl & Hr & Hl & _ & Hm).
    unfold bookSame. rewrite Hdb, Hop, Hcl, Hr, Hl. cbn. tauto.
  - wp_pure. destruct ping as [perr |].
    + eapply wp_bind_diag; [apply analyzeError_wp |].
      intros a w1 (d & -> & _) Hd1.
      apply wp_bind_log. intros w2 Hd2. wp_pure.
      pose proof (diagOnly_trans _ _ _ Hd1 Hd2) as (Hdb & Hop & Hcl & Hr & Hl & _ & Hm).
      unfold bookSame.
      destruct (reconnecting (reconnector w2)) eqn:Hrec;
        rewrite Hr in Hrec; cbn in Hrec; cbn; rewrite ?Hdb, ?Hop, ?Hcl, ?Hr, ?Hl; cbn;
        rewrite ?Hrec; tauto.
    + apply wp_bind_log. intros w' Hd. wp_pure.
      destruct Hd as (Hdb & Hop & Hcl & Hr & Hl & _ & Hm).
      unfold bookSame. cbn. rewrite Hdb, Hop, Hcl, Hr, Hl. cbn. tauto.
Qed.

Lemma CloseDB_wp (closeErr : error) (w : World) :
  wp (Connection.CloseDB closeErr) w
    (fun _ w' =>
       db w' = None /\ opened w' = opened w /\
       closed w' = (closed w ++ match db w with Some h => [h] | None => [] end)%list /\
       reconnector w'
       = set_ctxDone true (set_reconnecting false (reconnector w)) /\
       loops w' = loops w /\
       (db w = None ->
        w' = set_reconnector
               (set_ctxDone true (set_reconnecting false (reconnector w))) w)).
Proof.
  unfold Connection.CloseDB. wp_pure.
  change (db (set_reconnector
                (set_ctxDone true (set_reconnecting false (reconnector w))) w))
    with (db w).
  destruct (db w) as [h |] eqn:Hdbw.
  - wp_pure.
    assert (Hlog : forall level message details ci,
               wp (log level message details ci ≫= λ _, modify (set_db None))
                 (set_closed (closed w ++ [h])
                    (set_reconnector
                       (set_ctxDone true (set_reconnecting false (reconnector w))) w))
                 (fun _ w' =>
                    db w' = None /\ opened w' = opened w /\
                    closed w' = (closed w ++ [h])%list /\
                    reconnector w'
                    = set_ctxDone true (set_reconnecting false (reconnector w)) /\
                    loops w' = loops w /\
                    (Some h = None ->
                     w' = set_reconnector
                            (set_ctxDone true (set_reconnecting false (reconnector w)))
                            w))).
    { intros level message details ci. apply wp_bind_log. intros w' Hd. wp_pure.
      destruct Hd as (Hdb & Hop & Hcl & Hr & Hl & _ & Hm).
      cbn. rewrite Hop, Hcl, Hr, Hl. cbn. repeat split; try reflexivity.
      discriminate. }
    destruct closeErr; apply Hlog.
  - wp_pure. cbn. rewrite Hdbw, app_nil_r. tauto.
Qed.

Lemma OnConnectionLost_wp (w : World) :
  wp Reconn.OnConnectionLost w
    (fun _ w' =>
       connSame w w' /\ ctxDone (reconnector w') = ctxDone (reconnector w) /\
       isConnected (reconnector w') = false /\
       reconnecting (reconnector w') = true /\
       loops w' = (if reconnecting (reconnector w) then loops w
                   else loops w ++ [Reconn.freshLoop])%list /\
       maxEntries (dbLogger w') = maxEntries (dbLogger w)).
Proof.
  unfold Reconn.OnConnectionLost, logWarn. wp_pure.
  apply wp_bind_log. intros w' Hd. wp_pure.
  destruct Hd as (Hdb & Hop & Hcl & Hr & Hl & _ & Hm).
  unfold connSame.
  destruct (reconnecting (reconnector w')) eqn:Hrec;
    rewrite Hr in Hrec; cbn in Hrec; cbn; rewrite ?Hdb, ?Hop, ?Hcl, ?Hr, ?Hl, ?Hm; cbn;
    rewrite ?Hrec; tauto.
Qed.

Lemma CheckConnection_wp (ping : error) (w : World) :
  wp (Reconn.CheckConnection ping) w
    (fun ok w' =>
       connSame w w' /\ ctxDone (reconnector w') = ctxDone (reconnector w) /\
       match db w, ping with
       | None, _ => ok = false /\ w' = w
       | Some _, Some _ =>
           ok = false /\
           isConnected (reconnector w') = false /\
           reconnecting (reconnector w') = true /\
           loops w' = (if reconnecting (reconnector w) then loops w
                       else loops w ++ [Reconn.freshLoop])%list
       | Some _, None =>
           ok = true /\
           isConnected (reconnector w') = true /\
           reconnecting (reconnector w') = reconnecting (reconnector w) /\
           loops w' = loops w
       end).
Proof.
  unfold Reconn.CheckConnection. wp_pure. destruct (db w) as [h |] eqn:Hdbw.
  - destruct ping as [perr |].
    + apply wp_bind. eapply wp_mono; [apply OnConnectionLost_wp |].
      intros [] w' (Hc & Hctx & Hic & Hrec & Hl & Hm). split; [exact Hm |].
      wp_pure. tauto.
    + wp_pure. unfold connSame. cbn. tauto.
  - wp_pure. unfold connSame. tauto.
Qed.

Lemma CheckStatus_wp (ping : error) (query : string + string) (w : World) (h : nat) :
  db w = Some h ->
  wp (Connection.CheckStatus ping query) w
    (fun st w' =>
       connSame w w' /\ ctxDone (reconnector w') = ctxDone (reconnector w) /\
       match ping with
       | Some err =>
           DBStatus.Status st = "Reconnecting" /\
           DBStatus.Error st
           = (if 0 <? retryCount (reconnector w)
              then "正在尝试重新连接数据库... (第 "
                     ++ Go.itoa (retryCount (reconnector w)) ++ " 次重试)"
              else "正在尝试重新连接数据库...") /\
           (exists d, DBStatus.Details st = Some d /\
                      ErrorDetails.Message d = DBStatus.Error st /\
                      ErrorDetails.RetryCount d = retryCount (reconnector w)) /\
           isConnected (reconnector w') = false /\
           reconnecting (reconnector w') = true /\
           loops w' = (if reconnecting (reconnector w) then loops w
                       else loops w ++ [Reconn.freshLoop])%list
       | None =>
           reconnector w' = reconnector w /\ loops w' = loops w /\
           match query with
           | inr err =>
               DBStatus.Status st = "Failed" /\
               DBStatus.Error st = "Query failed: " ++ err /\
               exists d, DBStatus.Details st = Some d /\ ErrorDetails.RetryCount d = 0
           | inl currentTime =>
               st = DBStatus.mk "OK" currentTime "" None /\ w' = w
           end
       end).
Proof.
  intros Hdbw. unfold Connection.CheckStatus. wp_pure. rewrite Hdbw.
  destruct ping as [err |].
  - unfold Reconn.GetRetryCount, Reconn.IsReconnecting. wp_pure.
    eapply wp_bind_diag; [apply analyzeError_wp |].
    intros a w1 (d & -> & Hrc) Hd1.
    apply wp_bind. eapply wp_mono; [apply OnConnectionLost_wp |].
    intros [] w2 (Hc & Hctx & Hic & Hrec & Hl & Hm).
    destruct Hd1 as (Hdb1 & Hop1 & Hcl1 & Hr1 & Hl1 & _ & Hm1).
    split; [congruence |]. wp_pure. rewrite Hrec. wp_pure.
    unfold connSame in *. rewrite Hr1, Hl1 in *. cbn.
    destruct Hc as (Hdb2 & Hop2 & Hcl2 & Hrc2 & Hle2 & Hh2).
    repeat split; try assumption; try congruence.
    eexists. split; [reflexivity |]. cbn. split; [reflexivity | exact Hrc].
  - destruct query as [currentTime | err].
    + wp_pure. unfold connSame. tauto.
    + eapply wp_bind_diag; [apply analyzeError_wp |].
      intros a w1 (d & -> & Hrc) (Hdb1 & Hop1 & Hcl1 & Hr1 & Hl1 & _ & Hm1).
      wp_pure. unfold connSame. rewrite Hr1. cbn.
      repeat split; try tauto; try congruence. eauto.
Qed.

End LifecycleFacts.

Section Contracts.
Context `{GoRuntime}.

(** X13.  [tryConnect] comes back with [true] exactly when both the open
    and the ping succeed.  A failed attempt leaves the shared handle as it
    was, records the error as the last error and appends a line to the
    history; a handle that was opened but did not answer the ping is
    closed again.  A successful attempt installs the new handle, closes
    the one it replaces, and leaves last error and history alone.  The
    retry count and the flags are not touched either way. *)
Theorem tryConnect_contract :
  forall (o : ConnectOutcome) (w : World),
    0 < maxEntries (dbLogger w) ->
    exists w',
      Reconn.tryConnect o w = Ok (succeeds o, w') /\
      handlesEffect o w w' /\
      historyEffect o w w' /\
      lastError (reconnector w')
      = match failureOf o with
        | Some (err, _) => Some err
        | None => lastError (reconnector w)
        end /\
      retryCount (reconnector w') = retryCount (reconnector w) /\
      isConnected (reconnector w') = isConnected (reconnector w) /\
      reconnecting (reconnector w') = reconnecting (reconnector w).
Proof.
  intros o w Hmax.
  destruct (wp_total _ _ _ Hmax (tryConnect_wp o w))
    as (ok & w' & Hrun & -> & Hh & Hhist & Hle & Hrc & Hic & Hrec & _).
  exists w'. tauto.
Qed.

(** X14.  With a handle in place, [CheckStatus] answers by what the
    database says: "Reconnecting" when the ping fails, "Failed" when the
    ping succeeds and the query fails, "OK" when both succeed.  It never
    touches the handles or the retry bookkeeping; a failed ping marks the
    reconnector disconnected and reconnecting, and the answer carries the
    retry count in its message only when that count is positive. *)
Theorem CheckStatus_with_handle :
  forall (ping : error) (query : string + string) (w : World) (h : nat),
    0 < maxEntries (dbLogger w) ->
    db w = Some h ->
    exists st w',
      Connection.CheckStatus ping query w = Ok (st, w') /\
      DBStatus.Status st
      = match ping, query with
        | Some _, _ => "Reconnecting"
        | None, inr _ => "Failed"
        | None, inl _ => "OK"
        end /\
      connSame w w' /\
      match ping with
      | Some _ =>
          isConnected (reconnector w') = false /\
          reconnecting (reconnector w') = true /\
          DBStatus.Error st
          = (if 0 <? retryCount (reconnector w)
             then "正在尝试重新连接数据库... (第 "
                    ++ Go.itoa (retryCount (reconnector w)) ++ " 次重试)"
             else "正在尝试重新连接数据库...")
      | None => reconnector w' = reconnector w
      end.
Proof.
  intros ping query w h Hmax Hdb.
  destruct (wp_total _ _ _ Hmax (CheckStatus_wp ping query w h Hdb))
    as (st & w' & Hrun & Hc & _ & Hcase).
  exists st, w'. split; [exact Hrun |].
  destruct ping as [err |].
  - destruct Hcase as (Hst & Herr & _ & Hic & Hrec & _). tauto.
  - destruct Hcase as (Hr & _ & Hq). destruct query as [currentTime | err].
    + destruct Hq as [-> _]. cbn. tauto.
    + destruct Hq as (Hst & _). tauto.
Qed.

Lemma CloseDB_nil (closeErr : error) (w : World) :
  db w = None ->
  Connection.CloseDB closeErr w
  = Ok (tt, set_reconnector
              (set_ctxDone true (set_reconnecting false (reconnector w))) w).
Proof.
  intros Hdb. unfold Connection.CloseDB.
  rewrite bind_run, StopReconnection_run. cbv beta iota.
  rewrite bind_run. cbn [gets]. rewrite bind_run. cbn [gets db set_reconnector].
  rewrite Hdb. reflexivity.
Qed.

Lemma stopped_fixed (w : World) :
  reconnecting (reconnector w) = false ->
  ctxDone (reconnector w) = true ->
  set_reconnector (set_ctxDone true (set_reconnecting false (reconnector w))) w = w.
Proof.
  destruct w as [d o c r dl ea sl ck tk ls]. destruct r as [ic rec done cfg rc le hist].
  cbn. intros -> ->. reflexivity.
Qed.

(** X15.  [CloseDB] stops the reconnector and closes the shared handle,
    if there is one, exactly once: afterwards the handle is nil, the
    reconnecting flag is down and the context cancelled.  The connected
    flag and the retry bookkeeping stay as they were.  A second [CloseDB]
    changes nothing at all. *)
Theorem CloseDB_contract :
  forall (closeErr : error) (w : World),
    0 < maxEntries (dbLogger w) ->
    exists w',
      Connection.CloseDB closeErr w = Ok (tt, w') /\
      db w' = None /\
      opened w' = opened w /\
      closed w' = (closed w ++ match db w with Some h => [h] | None => [] end)%list /\
      reconnecting (reconnector w') = false /\
      ctxDone (reconnector w') = true /\
      isConnected (reconnector w') = isConnected (reconnector w) /\
      bookSame w w' /\
      forall closeErr', Connection.CloseDB closeErr' w' = Ok (tt, w').
Proof.
  intros closeErr w Hmax.
  destruct (wp_total _ _ _ Hmax (CloseDB_wp closeErr w))
    as ([] & w' & Hrun & Hdb & Hop & Hcl & Hr & _).
  exists w'. unfold bookSame. rewrite Hr. cbn.
  repeat split; try assumption.
  intros closeErr'. rewrite (CloseDB_nil closeErr' w' Hdb).
  rewrite stopped_fixed; [reflexivity | rewrite Hr; reflexivity ..].
Qed.

(** X16.  [InitDB] returns an error exactly when the open fails, and
    then leaves no handle behind.  Otherwise it installs the fresh handle
    whatever the ping says: a failed ping starts the reconnector and is
    not reported to the caller, a successful one marks the reconnector
    connected.  It never closes a handle, also not the one it replaces,
    and it leaves the retry bookkeeping alone. *)
Theorem InitDB_outcomes :
  forall (openErr ping : error) (w : World),
    0 < maxEntries (dbLogger w) ->
    exists r w',
      Connection.InitDB openErr ping w = Ok (r, w') /\
      r = match openErr with
          | Some err => Some ("open database: " ++ err)
          | None => None
          end /\
      db w' = match openErr with
              | Some _ => None
              | None => Some (opened w)
              end /\
      closed w' = closed w /\
      bookSame w w' /\
      match openErr, ping with
      | Some _, _ => reconnector w' = reconnector w /\ loops w' = loops w
      | None, Some _ =>
          reconnecting (reconnector w') = true /\
          isConnected (reconnector w') = isConnected (reconnector w)
      | None, None =>
          isConnected (reconnector w') = true /\
          reconnecting (reconnector w') = reconnecting (reconnector w)
      end.
Proof.
  intros openErr ping w Hmax.
  destruct (wp_total _ _ _ Hmax (InitDB_wp openErr ping w))
    as (r & w' & Hrun & Hcl & Hbook & _ & Hcase).
  exists r, w'. split; [exact Hrun |].
  destruct openErr as [err |].
  - tauto.
  - destruct Hcase as (-> & Hdb & Hop & Hping). destruct ping; tauto.
Qed.

(** X17.  With a handle in place, [CheckConnection] reports what the
    ping says and sets the connected flag to its answer; a failed ping
    also raises the reconnecting flag.  Handles and retry bookkeeping are
    not touched. *)
Theorem CheckConnection_with_handle :
  forall (ping : error) (w : World) (h : nat),
    0 < maxEntries (dbLogger w) ->
    db w = Some h ->
    let ok := match ping with None => true | Some _ => false end in
    exists w',
      Reconn.CheckConnection ping w = Ok (ok, w') /\
      isConnected (reconnector w') = ok /\
      reconnecting (reconnector w')
      = (if ok then reconnecting (reconnector w) else true) /\
      connSame w w'.
Proof.
  intros ping w h Hmax Hdb ok.
  destruct (wp_total _ _ _ Hmax (CheckConnection_wp ping w))
    as (ok' & w' & Hrun & Hc & _ & Hcase).
  rewrite Hdb in Hcase. exists w'. subst ok.
  destruct ping as [err |].
  - destruct Hcase as (-> & Hic & Hrec & _). tauto.
  - destruct Hcase as (-> & Hic & Hrec & _). tauto.
Qed.

End Contracts.

Lemma tryConnect_contract_witness :
  exists w',
    Reconn.tryConnect (H := plainRuntime) (PingFailed "connection refused" None)
      (initialWorld sampleConfig (fun _ => 0)) = Ok (false, w') /\
    db w' = None /\
    closed w' = [0%nat] /\
    lastError (reconnector w') = Some "connection refused" /\
    length (errorHistory (reconnector w')) = 1%nat.
Proof.
  destruct (tryConnect_contract (H := plainRuntime)
              (PingFailed "connection refused" None)
              (initialWorld sampleConfig (fun _ => 0)))
    as (w' & Hrun & (Hdb & _ & Hcl) & Hhist & Hle & _).
  - cbn. lia.
  - exists w'. split; [exact Hrun |]. split; [exact Hdb |]. split; [exact Hcl |].
    split; [exact Hle |]. unfold historyEffect in Hhist. rewrite Hhist. reflexivity.
Defined.

Lemma CheckStatus_with_handle_witness :
  exists st w',
    Connection.CheckStatus (H := plainRuntime) (Some "connection refused") (inl "")
      (set_db (Some 0%nat) (set_opened 1 (initialWorld sampleConfig (fun _ => 0))))
    = Ok (st, w') /\
    DBStatus.Status st = "Reconnecting" /\
    reconnecting (reconnector w') = true.
Proof.
  destruct (CheckStatus_with_handle (H := plainRuntime)
              (Some "connection refused") (inl "")
              (set_db (Some 0%nat) (set_opened 1 (initialWorld sampleConfig (fun _ => 0))))
              0%nat)
    as (st & w' & Hrun & Hst & _ & _ & Hrec & _).
  - cbn. lia.
  - reflexivity.
  - exists st, w'. split; [exact Hrun |]. split; [exact Hst | exact Hrec].
Defined.

Lemma CloseDB_contract_witness :
  exists w',
    Connection.CloseDB None
      (set_db (Some 0%nat) (set_opened 1 (initialWorld sampleConfig (fun _ => 0))))
    = Ok (tt, w') /\
    db w' = None /\
    closed w' = [0%nat] /\
    Connection.CloseDB None w' = Ok (tt, w').
Proof.
  destruct (CloseDB_contract None
              (set_db (Some 0%nat) (set_opened 1 (initialWorld sampleConfig (fun _ => 0)))))
    as (w' & Hrun & Hdb & _ & Hcl & _ & _ & _ & _ & Hagain).
  - cbn. lia.
  - exists w'. split; [exact Hrun |]. split; [exact Hdb |]. split; [exact Hcl |].
    apply Hagain.
Defined.

Lemma InitDB_outcomes_witness :
  exists r w',
    Connection.InitDB (H := plainRuntime) None (Some "connection refused")
      (initialWorld sampleConfig (fun _ => 0)) = Ok (r, w') /\
    r = None /\
    db w' = Some 0%nat /\
    reconnecting (reconnector w') = true.
Proof.
  destruct (InitDB_outcomes (H := plainRuntime) None (Some "connection refused")
              (initialWorld sampleConfig (fun _ => 0)))
    as (r & w' & Hrun & Hr & Hdb & _ & _ & Hrec & _).
  - cbn. lia.
  - exists r, w'. split; [exact Hrun |]. split; [exact Hr |].
    split; [exact Hdb | exact Hrec].
Defined.

Lemma CheckConnection_with_handle_witness :
  exists w',
    Reconn.CheckConnection None
      (set_db (Some 0%nat) (set_opened 1 (initialWorld sampleConfig (fun _ => 0))))
    = Ok (true, w') /\
    isConnected (reconnector w') = true.
Proof.
  destruct (CheckConnection_with_handle None
              (set_db (Some 0%nat) (set_opened 1 (initialWorld sampleConfig (fun _ => 0))))
              0%nat)
    as (w' & Hrun & Hic & _).
  - cbn. lia.
  - reflexivity.
  - exists w'. split; [exact Hrun | exact Hic].
Defined.

(** ** What each event does to handles and bookkeeping *)

Section StepEffects.
Context `{GoRuntime}.

Lemma diagOnly_connSame (w w' : World) : diagOnly w w' -> connSame w w'.
Proof.
  unfold diagOnly, connSame. intros (Hdb & Hop & Hcl & Hr & _). rewrite Hr. tauto.
Qed.

Lemma connSame_bookSame (w w' : World) : connSame w w' -> bookSame w w'.
Proof. unfold connSame, bookSame. tauto. Qed.

Lemma ReconnLogger_Start_wp (rl : ReconnectionLogger) (w : World) :
  wp (ReconnLogger.StartReconnection rl) w (fun _ w' => diagOnly w w').
Proof.
  unfold ReconnLogger.StartReconnection, logInfo. wp_pure.
  apply wp_bind_log. intros w' Hd. wp_pure.
  eapply diagOnly_trans; [apply diagOnly_tick | exact Hd].
Qed.

Lemma LogSuccess_wp (totalRetries : Z) (rl : ReconnectionLogger) (w : World) :
  wp (ReconnLogger.LogSuccess totalRetries rl) w (fun _ w' => diagOnly w w').
Proof.
  unfold ReconnLogger.LogSuccess, logInfo. wp_pure.
  apply wp_log. intros w' Hd.
  eapply diagOnly_trans; [apply diagOnly_tick | exact Hd].
Qed.

Lemma LogRetry_wp (retryCount nextDelay : Z) (lastErr : error)
    (rl : ReconnectionLogger) (w : World) :
  wp (ReconnLogger.LogRetry retryCount nextDelay lastErr rl) w
    (fun _ w' => diagOnly w w').
Proof.
  unfold ReconnLogger.LogRetry, logInfo, logWarn. wp_pure.
  destruct (retryCount =? 1);
    [| destruct (retryCount <=? 3);
       [| destruct (Z.rem retryCount 10 =? 0);
          [| destruct (progressInterval rl
                       <=? Go.Time_Sub (clock w (ticks w)) (lastProgressTime rl))]]];
    cbv beta iota; cbn [negb String.eqb];
    repeat match goal with
           | |- context [if negb (String.eqb ?d "") then _ else _] =>
               destruct (negb (String.eqb d ""))
           end;
    first [ apply wp_bind_log; intros w' Hd; wp_pure;
            eapply diagOnly_trans; [apply diagOnly_tick | exact Hd]
          | wp_pure; apply diagOnly_tick ].
Qed.

(** One connection attempt of a retry goroutine: [tryConnect] and the
    arm of the loop body that follows it. *)
Lemma attempt_wp (o : ConnectOutcome) (l : Loop) (w : World) :
  wp (ok ← Reconn.tryConnect o;
      if ok : bool then Reconn.afterConnected l else Reconn.afterFailed l) w
    (fun _ w' =>
       handlesEffect o w w' /\
       historyEffect o w w' /\
       lastError (reconnector w')
       = match failureOf o with
         | Some (err, _) => Some err
         | None => None
         end /\
       retryCount (reconnector w')
       = (if succeeds o then 0 else Go.int_add (retryCount (reconnector w)) 1)).
Proof.
  apply wp_bind. eapply wp_mono; [apply tryConnect_wp |].
  intros ok w1 (-> & Hh & Hhist & Hle & Hrc & _ & _ & _ & _ & Hm).
  split; [exact Hm |].
  assert (Hframe : forall w', diagOnly w1 w' ->
            (handlesEffect o w w1 -> handlesEffect o w w')).
  { intros w' (Hdb & Hop & Hcl & _). unfold handlesEffect.
    destruct o; rewrite Hdb, Hop, Hcl; tauto. }
  destruct (succeeds o) eqn:Hok.
  - unfold Reconn.afterConnected, Reconn.GetRetryCount. wp_pure.
    eapply wp_bind_diag with (P := fun _ => True);
      [eapply wp_mono; [apply LogSuccess_wp | intros; tauto] |].
    intros [] w' _ Hd. wp_pure.
    assert (Hfail : failureOf o = None) by (destruct o; [discriminate .. | reflexivity]).
    split.
    { destruct Hd as (Hdb & Hop & Hcl & _). unfold handlesEffect in *.
      destruct o; cbn in Hdb, Hop, Hcl |- *; rewrite Hdb, Hop, Hcl; tauto. }
    destruct Hd as (_ & _ & _ & Hr & _).
    unfold historyEffect in *. rewrite Hr, Hfail in *. cbn. tauto.
  - unfold Reconn.afterFailed, Reconn.GetRetryCount, Reconn.GetLastError. wp_pure.
    eapply wp_bind_diag with (P := fun _ => True);
      [eapply wp_mono; [apply LogRetry_wp | intros; tauto] |].
    intros rl' w' _ Hd. wp_pure.
    split.
    { destruct Hd as (Hdb & Hop & Hcl & _). unfold handlesEffect in *.
      destruct o; cbn in Hdb, Hop, Hcl |- *; rewrite Hdb, Hop, Hcl; tauto. }
    destruct Hd as (_ & _ & _ & Hr & _).
    unfold historyEffect in *. rewrite Hr. cbn.
    rewrite Hrc. destruct o as [err | err ce | ce]; [| | discriminate Hok]; tauto.
Qed.

Lemma stepLoop_effect (inp : LoopInput) (l l' : Loop) (w w1 : World) :
  Reconn.stepLoop inp l w = Some (Ok (l', w1)) ->
  match inp with
  | Attempt o =>
      handlesEffect o w w1 /\
      historyEffect o w w1 /\
      lastError (reconnector w1)
      = match failureOf o with
        | Some (err, _) => Some err
        | None => None
        end /\
      retryCount (reconnector w1)
      = (if succeeds o then 0 else Go.int_add (retryCount (reconnector w)) 1)
  | _ => connSame w w1
  end.
Proof.
  unfold Reconn.stepLoop. destruct (pc l), inp; try discriminate.
  - intros Hrun. apply (inj Some) in Hrun.
    eapply (wp_Ok _ _ (fun _ w' => connSame w w')); [| exact Hrun].
    eapply wp_bind_diag with (P := fun _ => True);
      [eapply wp_mono; [apply ReconnLogger_Start_wp | intros; tauto] |].
    intros rl w' _ Hd. wp_pure. apply diagOnly_connSame, Hd.
  - intros [= _ <-]. unfold connSame. tauto.
  - intros Hrun. apply (inj Some) in Hrun.
    exact (wp_Ok _ _ _ _ _ (attempt_wp o l w) Hrun).
  - intros [= _ <-]. unfold connSame. tauto.
  - destruct (ctxDone (reconnector w)); [| discriminate].
    intros [= _ <-]. unfold connSame. tauto.
Qed.

Lemma CheckStatus_connSame_wp (ping : error) (query : string + string) (w : World) :
  wp (Connection.CheckStatus ping query) w (fun _ w' => connSame w w').
Proof.
  destruct (db w) as [h |] eqn:Hdbw.
  - eapply wp_mono; [apply (CheckStatus_wp ping query w h Hdbw) |].
    intros st w' Hpost. apply Hpost.
  - unfold Connection.CheckStatus. wp_pure. rewrite Hdbw. wp_pure.
    unfold connSame. cbn. tauto.
Qed.

(** Every event, by what it does to the handles and the bookkeeping. *)
Lemma step_effect (ev : Event) (w w' : World) :
  Process.step ev w = Some (Ok w') ->
  match ev with
  | EvLoop _ (Attempt o) =>
      handlesEffect o w w' /\
      historyEffect o w w' /\
      lastError (reconnector w')
      = match failureOf o with
        | Some (err, _) => Some err
        | None => None
        end /\
      retryCount (reconnector w')
      = (if succeeds o then 0 else Go.int_add (retryCount (reconnector w)) 1)
  | EvInitDB openErr _ =>
      bookSame w w' /\ closed w' = closed w /\
      db w' = match openErr with Some _ => None | None => Some (opened w) end /\
      opened w' = match openErr with Some _ => opened w | None => S (opened w) end
  | EvCloseDB _ =>
      bookSame w w' /\ db w' = None /\ opened w' = opened w /\
      closed w' = (closed w ++ match db w with Some h => [h] | None => [] end)%list
  | _ => connSame w w'
  end.
Proof.
  intros Hstep. destruct ev; unfold Process.step in Hstep.
  - apply (inj Some) in Hstep. apply forget_Ok in Hstep as [r Hrun].
    pose proof (wp_Ok _ _ _ _ _ (InitDB_wp openErr ping w) Hrun)
      as (Hcl & Hbook & _ & Hcase).
    destruct openErr; tauto.
  - apply (inj Some) in Hstep. apply forget_Ok in Hstep as [r Hrun].
    pose proof (wp_Ok _ _ _ _ _ (CloseDB_wp closeErr w) Hrun)
      as (Hdb & Hop & Hcl & Hr & _).
    unfold bookSame. rewrite Hr. cbn. tauto.
  - apply (inj Some) in Hstep. apply forget_Ok in Hstep as [r Hrun].
    exact (wp_Ok _ _ _ _ _ (CheckStatus_connSame_wp ping query w) Hrun).
  - apply (inj Some) in Hstep. apply forget_Ok in Hstep as [r Hrun].
    apply (wp_Ok _ _ _ _ _ (CheckConnection_wp ping w) Hrun).
  - apply (inj Some) in Hstep. apply forget_Ok in Hstep as [r Hrun].
    apply (wp_Ok _ _ _ _ _ (OnConnectionLost_wp w) Hrun).
  - apply (inj Some) in Hstep. apply forget_Ok in Hstep as [r Hrun].
    rewrite StartReconnection_run in Hrun. injection Hrun as _ <-.
    unfold connSame. destruct (reconnecting (reconnector w)); cbn; tauto.
  - apply (inj Some) in Hstep. apply forget_Ok in Hstep as [r Hrun].
    rewrite StopReconnection_run in Hrun. injection Hrun as _ <-.
    unfold connSame. cbn. tauto.
  - destruct (loops w !! i) as [l |] eqn:Hl; [| discriminate]. cbn in Hstep.
    destruct (Reconn.stepLoop inp l w) as [[[l' w1] | |] |] eqn:Hs; try discriminate.
    cbn in Hstep. injection Hstep as <-.
    apply stepLoop_effect in Hs.
    destruct inp as [| o | |]; exact Hs.
Qed.

End StepEffects.

(** ** Invariants of the reconnector in every schedule *)

Section ReconnectorInvariants.
Context `{GoRuntime}.

(** X18.  The retry count, the last error and the error history change
    in one place only, when a connection attempt of a retry goroutine comes
    back: a failure adds one to the count, records the error and appends a
    line to the history; a success sets the count to zero, clears the last
    error and leaves the history.  No other event touches them, neither
    [InitDB] nor [CloseDB] nor a stop, so the count goes back to zero
    only on a successful reconnection. *)
Theorem retry_bookkeeping_changes_only_in_attempts :
  forall (ev : Event) (w w' : World),
    Process.step ev w = Some (Ok w') ->
    match ev with
    | EvLoop _ (Attempt o) =>
        retryCount (reconnector w')
        = (if succeeds o then 0 else Go.int_add (retryCount (reconnector w)) 1) /\
        lastError (reconnector w')
        = match failureOf o with
          | Some (err, _) => Some err
          | None => None
          end /\
        historyEffect o w w'
    | _ => bookSame w w'
    end.
Proof.
  intros ev w w' Hstep. apply step_effect in Hstep.
  destruct ev as [oe p | ce | p q | p | | | | i inp];
    try (apply connSame_bookSame; exact Hstep); try tauto.
  destruct inp as [| o | |]; try (apply connSame_bookSame; exact Hstep). tauto.
Qed.

Lemma pushHistory_length (entry : string) (history : list string) :
  (length history <= 10)%nat -> (length (pushHistory entry history) <= 10)%nat.
Proof.
  intros Hlen. unfold pushHistory. rewrite length_app. cbn.
  destruct (Z.leb_spec 10 (Z.of_nat (length history))).
  - rewrite length_drop. lia.
  - lia.
Qed.

Lemma step_historyOk (ev : Event) (w w' : World) :
  historyOk w -> Process.step ev w = Some (Ok w') -> historyOk w'.
Proof.
  unfold historyOk. intros Hok Hstep. apply step_effect in Hstep.
  assert (Hsame : bookSame w w' -> (length (errorHistory (reconnector w')) <= 10)%nat).
  { intros (_ & _ & ->). exact Hok. }
  destruct ev as [oe p | ce | p q | p | | | | i inp];
    try (apply Hsame, connSame_bookSame; exact Hstep); try (apply Hsame; tauto).
  destruct inp as [| o | |]; try (apply Hsame, connSame_bookSame; exact Hstep).
  destruct Hstep as (_ & Hhist & _). unfold historyEffect in Hhist. rewrite Hhist.
  destruct (failureOf o) as [[err line] |]; [apply pushHistory_length, Hok | exact Hok].
Qed.

(** X19.  The error history never holds more than ten lines, whatever
    the handlers and the retry goroutines do and in whatever order. *)
Theorem errorHistory_bounded :
  forall (evs : list Event) (w w' : World),
    historyOk w ->
    Process.run evs w = Some w' ->
    historyOk w'.
Proof.
  intros evs w w' Hok Hrun.
  eapply (run_invariant historyOk); [| exact Hok | exact Hrun].
  intros ev w1 w2. apply step_historyOk.
Qed.

(** X20.  [addErrorToHistory] keeps the ten most recent lines, oldest
    first: the new history is the old one with the stamped line appended,
    cut down from the front to ten lines.  Nothing else of the reconnector
    changes. *)
Theorem addErrorToHistory_keeps_latest_ten :
  forall (errorMsg : string) (w : World),
    historyOk w ->
    exists w',
      Reconn.addErrorToHistory errorMsg w = Ok (tt, w') /\
      (let entry :=
         "[" ++ Time_Format "2006-01-02 15:04:05" (clock w (ticks w)) ++ "] "
           ++ errorMsg in
       let all := (errorHistory (reconnector w) ++ [entry])%list in
       errorHistory (reconnector w') = drop (length all - 10) all) /\
      retryCount (reconnector w') = retryCount (reconnector w) /\
      lastError (reconnector w') = lastError (reconnector w) /\
      isConnected (reconnector w') = isConnected (reconnector w) /\
      reconnecting (reconnector w') = reconnecting (reconnector w) /\
      db w' = db w.
Proof.
  unfold historyOk. intros errorMsg w Hok.
  exists (set_reconnector
            (set_errorHistory
               (pushHistory
                  ("[" ++ Time_Format "2006-01-02 15:04:05" (clock w (ticks w)) ++ "] "
                     ++ errorMsg)
                  (errorHistory (reconnector w)))
               (reconnector w))
            (set_ticks (S (ticks w)) w)).
  split; [reflexivity |].
  unfold pushHistory. cbn. repeat split.
  rewrite length_app. cbn.
  destruct (Z.leb_spec 10 (Z.of_nat (length (errorHistory (reconnector w))))).
  - replace (length (errorHistory (reconnector w)) + 1 - 10)%nat with 1%nat by lia.
    rewrite drop_app_le by lia. reflexivity.
  - replace (length (errorHistory (reconnector w)) + 1 - 10)%nat with 0%nat by lia.
    reflexivity.
Qed.

Lemma handlesOk_same (w w' : World) :
  db w' = db w -> opened w' = opened w -> closed w' = closed w ->
  handlesOk w -> handlesOk w'.
Proof. unfold handlesOk. intros -> -> ->. tauto. Qed.

Lemma handlesOk_closed_fresh (w : World) (n : nat) :
  handlesOk w -> (opened w <= n)%nat -> n ∉ closed w.
Proof.
  intros (_ & _ & Hall) Hn Hin. rewrite Forall_forall in Hall.
  apply Hall in Hin. lia.
Qed.

Lemma handlesOk_step (w w' : World) (newDb : option nat) (closing : list nat) :
  handlesOk w ->
  db w' = newDb ->
  (opened w <= opened w')%nat ->
  closed w' = (closed w ++ closing)%list ->
  (forall h, newDb = Some h ->
     (h < opened w')%nat /\ (h ∉ closing) /\ (db w = Some h \/ (opened w <= h)%nat)) ->
  (forall h, h ∈ closing ->
     (h < opened w')%nat /\ (db w = Some h \/ (opened w <= h)%nat)) ->
  NoDup closing ->
  handlesOk w'.
Proof.
  intros Hok Hdb Hop Hcl Hnew Hclosing Hnd.
  pose proof Hok as (Hshared & Hnodup & Hall).
  unfold handlesOk. rewrite Hdb, Hcl. split; [| split].
  - intros h Hh. destruct (Hnew h Hh) as (Hlt & Hnc & Hwhere).
    split; [exact Hlt |]. rewrite elem_of_app. intros [Hin | Hin]; [| tauto].
    destruct Hwhere as [Hold | Hfresh].
    + apply Hshared in Hold. tauto.
    + eapply handlesOk_closed_fresh; eassumption.
  - apply NoDup_app. split; [exact Hnodup |]. split; [| exact Hnd].
    intros h Hin Hin'. destruct (Hclosing h Hin') as (_ & [Hold | Hfresh]).
    + apply Hshared in Hold. tauto.
    + eapply handlesOk_closed_fresh; eassumption.
  - apply Forall_app. split.
    + eapply Forall_impl; [exact Hall |]. cbn. intros; lia.
    + rewrite Forall_forall. intros h Hin. apply Hclosing, Hin.
Qed.

Lemma step_handlesOk (ev : Event) (w w' : World) :
  handlesOk w -> Process.step ev w = Some (Ok w') -> handlesOk w'.
Proof.
  intros Hok Hstep. apply step_effect in Hstep.
  assert (Hsame : connSame w w' -> handlesOk w').
  { intros (Hdb & Hop & Hcl & _). eapply handlesOk_same; eassumption. }
  pose proof Hok as (Hshared & _).
  destruct ev as [oe p | ce | p q | p | | | | i inp]; try (apply Hsame; exact Hstep).
  - destruct Hstep as (_ & Hcl & Hdb & Hop).
    apply (handlesOk_step w w' (db w') []); auto.
    + destruct oe; lia.
    + rewrite app_nil_r. exact Hcl.
    + intros h Hh. rewrite Hdb in Hh. destruct oe; [discriminate |].
      injection Hh as <-. rewrite Hop. split; [lia |]. split; [| right; lia].
      apply not_elem_of_nil.
    + intros h Hin. apply elem_of_nil in Hin. contradiction.
    + constructor.
  - destruct Hstep as (_ & Hdb & Hop & Hcl).
    apply (handlesOk_step w w' None (match db w with Some h => [h] | None => [] end));
      auto.
    + lia.
    + intros h Hh. discriminate.
    + intros h Hin. destruct (db w) as [h0 |] eqn:Hdbw.
      * apply list_elem_of_singleton in Hin. subst h0.
        rewrite Hop. split; [apply Hshared; reflexivity | left; reflexivity].
      * apply elem_of_nil in Hin. contradiction.
    + destruct (db w); [apply NoDup_singleton | constructor].
  - destruct inp as [| o | |]; try (apply Hsame; exact Hstep).
    destruct Hstep as (Hh & _). unfold handlesEffect in Hh.
    destruct o as [err | err ce | ce].
    + destruct Hh as (Hdb & Hop & Hcl). eapply handlesOk_same; eassumption.
    + destruct Hh as (Hdb & Hop & Hcl).
      apply (handlesOk_step w w' (db w) [opened w]); auto.
      * lia.
      * intros h Hh. split; [apply Hshared in Hh; lia |]. split; [| left; exact Hh].
        rewrite list_elem_of_singleton. apply Hshared in Hh. lia.
      * intros h Hin. apply list_elem_of_singleton in Hin. subst h.
        split; [lia | right; lia].
      * apply NoDup_singleton.
    + destruct Hh as (Hdb & Hop & Hcl).
      apply (handlesOk_step w w' (Some (opened w))
               (match db w with Some h => [h] | None => [] end)); auto.
      * lia.
      * intros h Hh. injection Hh as <-. split; [lia |]. split; [| right; lia].
        destruct (db w) as [h0 |] eqn:Hdbw; [| apply not_elem_of_nil].
        rewrite list_elem_of_singleton. intros Heq. subst h0.
        destruct (Hshared (opened w) eq_refl). lia.
      * intros h Hin. destruct (db w) as [h0 |] eqn:Hdbw.
        -- apply list_elem_of_singleton in Hin. subst h0.
           split; [destruct (Hshared h eq_refl); lia | left; reflexivity].
        -- apply elem_of_nil in Hin. contradiction.
      * destruct (db w); [apply NoDup_singleton | constructor].
Qed.

(** X21.  In every schedule the handles stay in order: the shared
    handle, when there is one, is a handle that was opened and has not been
    closed, and no handle is ever closed twice. *)
Theorem handles_stay_in_order :
  forall (evs : list Event) (w w' : World),
    handlesOk w ->
    Process.run evs w = Some w' ->
    handlesOk w'.
Proof.
  intros evs w w' Hok Hrun.
  eapply (run_invariant handlesOk); [| exact Hok | exact Hrun].
  intros ev w1 w2. apply step_handlesOk.
Qed.

End ReconnectorInvariants.

Lemma retry_bookkeeping_changes_only_in_attempts_witness :
  match Process.step (H := plainRuntime) (EvLoop 0 (Attempt (OpenFailed "refused")))
          (set_loops [mkLoop InTryConnect 1000000000 (mkReconnectionLogger 0 0 0) []]
             (initialWorld sampleConfig (fun _ => 0))) with
  | Some (Ok w') =>
      retryCount (reconnector w') = 1 /\
      lastError (reconnector w') = Some "refused"
  | _ => False
  end.
Proof.
  destruct (Process.step (H := plainRuntime) (EvLoop 0 (Attempt (OpenFailed "refused")))
              (set_loops [mkLoop InTryConnect 1000000000 (mkReconnectionLogger 0 0 0) []]
                 (initialWorld sampleConfig (fun _ => 0))))
    as [[w' | msg | code] |] eqn:Hstep;
    [| vm_compute in Hstep; discriminate Hstep ..].
  destruct (retry_bookkeeping_changes_only_in_attempts (H := plainRuntime) _ _ _ Hstep)
    as (Hrc & Hle & _).
  split; [exact Hrc | exact Hle].
Defined.

Lemma errorHistory_bounded_witness :
  match Process.run (H := plainRuntime)
          [EvStartReconnection; EvLoop 0 Run; EvLoop 0 Run;
           EvLoop 0 (Attempt (OpenFailed "refused"))]
          (initialWorld sampleConfig (fun _ => 0)) with
  | Some w' => historyOk w'
  | None => False
  end.
Proof.
  destruct (Process.run (H := plainRuntime)
              [EvStartReconnection; EvLoop 0 Run; EvLoop 0 Run;
               EvLoop 0 (Attempt (OpenFailed "refused"))]
              (initialWorld sampleConfig (fun _ => 0))) as [w' |] eqn:Hrun;
    [| vm_compute in Hrun; discriminate Hrun].
  refine (errorHistory_bounded (H := plainRuntime) _ _ _ _ Hrun).
  unfold historyOk. cbn. lia.
Defined.

Lemma addErrorToHistory_keeps_latest_ten_witness :
  exists w',
    Reconn.addErrorToHistory (H := plainRuntime) "refused"
      (initialWorld sampleConfig (fun _ => 0)) = Ok (tt, w') /\
    length (errorHistory (reconnector w')) = 1%nat.
Proof.
  destruct (addErrorToHistory_keeps_latest_ten (H := plainRuntime) "refused"
              (initialWorld sampleConfig (fun _ => 0)))
    as (w' & Hrun & Hhist & _).
  - unfold historyOk. cbn. lia.
  - exists w'. split; [exact Hrun |]. cbv zeta in Hhist. rewrite Hhist. reflexivity.
Defined.

Lemma handles_stay_in_order_witness :
  match Process.run (H := plainRuntime)
          [EvInitDB None None; EvInitDB None None; EvCloseDB None]
          (initialWorld sampleConfig (fun _ => 0)) with
  | Some w' => handlesOk w'
  | None => False
  end.
Proof.
  destruct (Process.run (H := plainRuntime)
              [EvInitDB None None; EvInitDB None None; EvCloseDB None]
              (initialWorld sampleConfig (fun _ => 0))) as [w' |] eqn:Hrun;
    [| vm_compute in Hrun; discriminate Hrun].
  refine (handles_stay_in_order (H := plainRuntime) _ _ _ _ Hrun).
  split; [intros h Hh; discriminate Hh | split; constructor].
Defined.

Lemma GetRecentEntries_suffix_witness :
  exists older : list LogEntry,
    [mkLogEntry LogLevelInfo "a" 1 "" 1 None; mkLogEntry LogLevelInfo "b" 2 "" 1 None;
     mkLogEntry LogLevelInfo "c" 3 "" 1 None; mkLogEntry LogLevelInfo "d" 4 "" 1 None;
     mkLogEntry LogLevelInfo "e" 5 "" 1 None]
    = (older
         ++ Logger.GetRecentEntries 3
              (mkDatabaseLogger
                 [mkLogEntry LogLevelInfo "a" 1 "" 1 None;
                  mkLogEntry LogLevelInfo "b" 2 "" 1 None;
                  mkLogEntry LogLevelInfo "c" 3 "" 1 None;
                  mkLogEntry LogLevelInfo "d" 4 "" 1 None;
                  mkLogEntry LogLevelInfo "e" 5 "" 1 None]
                 100 LogLevelInfo None true))%list /\
    length (Logger.GetRecentEntries 3
              (mkDatabaseLogger
                 [mkLogEntry LogLevelInfo "a" 1 "" 1 None;
                  mkLogEntry LogLevelInfo "b" 2 "" 1 None;
                  mkLogEntry LogLevelInfo "c" 3 "" 1 None;
                  mkLogEntry LogLevelInfo "d" 4 "" 1 None;
                  mkLogEntry LogLevelInfo "e" 5 "" 1 None]
                 100 LogLevelInfo None true))
    = Nat.min (Z.to_nat 3) 5.
Proof.
  apply (GetRecentEntries_suffix 3
           (mkDatabaseLogger
              [mkLogEntry LogLevelInfo "a" 1 "" 1 None;
               mkLogEntry LogLevelInfo "b" 2 "" 1 None;
               mkLogEntry LogLevelInfo "c" 3 "" 1 None;
               mkLogEntry LogLevelInfo "d" 4 "" 1 None;
               mkLogEntry LogLevelInfo "e" 5 "" 1 None]
              100 LogLevelInfo None true)).
  lia.
Defined.

(** * Counts and hourly histograms *)

Section TotalFacts.

Lemma total_app (l k : list Z) : total (l ++ k) = total l + total k.
Proof. unfold total. induction l as [| x l IH]; cbn; [reflexivity | rewrite IH; lia]. Qed.

Lemma total_perm (l k : list Z) : l ≡ₚ k -> total l = total k.
Proof.
  unfold total. induction 1; cbn; lia.
Qed.

Lemma freqTotal_empty : freqTotal ∅ = 0.
Proof. unfold freqTotal. rewrite map_to_list_empty. reflexivity. Qed.

Lemma freqTotal_insert_new (m : gmap string Z) (k : string) (v : Z) :
  m !! k = None -> freqTotal (<[k := v]> m) = v + freqTotal m.
Proof.
  intros Hk. unfold freqTotal.
  rewrite (total_perm _ (((k, v) :: map_to_list m).*2)).
  - reflexivity.
  - apply fmap_Permutation, map_to_list_insert, Hk.
Qed.

Lemma freqTotal_delete (m : gmap string Z) (k : string) (x : Z) :
  m !! k = Some x -> freqTotal m = x + freqTotal (delete k m).
Proof.
  intros Hk. rewrite <- (insert_delete_id m k x Hk) at 1.
  apply freqTotal_insert_new, lookup_delete_eq.
Qed.

Lemma freqTotal_insert_old (m : gmap string Z) (k : string) (x v : Z) :
  m !! k = Some x -> freqTotal (<[k := v]> m) = freqTotal m - x + v.
Proof.
  intros Hk. rewrite (freqTotal_delete m k x Hk), <- insert_delete_eq.
  rewrite freqTotal_insert_new by apply lookup_delete_eq. lia.
Qed.

Lemma freqTotal_nonneg (m : gmap string Z) :
  map_Forall (fun _ v => 0 <= v) m -> 0 <= freqTotal m.
Proof.
  induction m as [| k v m Hk _ IH] using map_first_key_ind.
  - intros _. rewrite freqTotal_empty. lia.
  - intros Hall. apply map_Forall_insert in Hall as [Hv Hm]; [| exact Hk].
    rewrite freqTotal_insert_new by exact Hk. specialize (IH Hm). lia.
Qed.

Lemma freqTotal_bucket_le (m : gmap string Z) (k : string) (x : Z) :
  map_Forall (fun _ v => 0 <= v) m -> m !! k = Some x -> x <= freqTotal m.
Proof.
  intros Hall Hk. rewrite (freqTotal_delete m k x Hk).
  assert (0 <= freqTotal (delete k m)); [| lia].
  apply freqTotal_nonneg. intros j y Hj.
  apply lookup_delete_Some in Hj as [_ Hj]. eapply Hall, Hj.
Qed.

(** [m[k] += v] without overflow adds [v] to the sum of the map. *)
Lemma freqTotal_bump (m : gmap string Z) (k : string) (v : Z) :
  map_Forall (fun _ x => 0 <= x) m ->
  0 <= v ->
  freqTotal m + v < 2 ^ 63 ->
  freqTotal (bump k v m) = freqTotal m + v /\
  map_Forall (fun _ x => 0 <= x) (bump k v m) /\
  bump k v m !! k = Some (default 0 (m !! k) + v).
Proof.
  intros Hall Hv Hsmall. unfold bump.
  pose proof (freqTotal_nonneg m Hall) as Hpos.
  destruct (m !! k) as [x |] eqn:Hk;
    [change (default 0 (Some x)) with x | change (default 0 (@None Z)) with 0].
  - pose proof (freqTotal_bucket_le m k x Hall Hk) as Hle.
    pose proof (Hall k x Hk) as Hx. cbn in Hx.
    unfold Go.int_add. rewrite wrap64_small by lia.
    split; [rewrite (freqTotal_insert_old m k x) by exact Hk; lia |].
    split; [| apply lookup_insert_eq].
    apply map_Forall_insert_2; [lia | exact Hall].
  - unfold Go.int_add. rewrite wrap64_small by lia.
    split; [rewrite freqTotal_insert_new by exact Hk; lia |].
    split; [| apply lookup_insert_eq].
    apply map_Forall_insert_2; [lia | exact Hall].
Qed.

End TotalFacts.

Section HistogramFacts.
Context `{GoRuntime}.

Lemma positive_nonneg (m : gmap string Z) :
  map_Forall (fun _ v => 0 < v) m -> map_Forall (fun _ v => 0 <= v) m.
Proof. intros Hall k v Hk. specialize (Hall k v Hk). cbn in *. lia. Qed.

(** One more error in the hour [hourKey]. *)
Lemma count_and_bucket (count : Z) (freq : gmap string Z) (hourKey : string) (n : Z) :
  0 <= n ->
  map_Forall (fun _ v => 0 < v) freq ->
  count = freqTotal freq ->
  count + (n + 1) < 2 ^ 63 ->
  let freq' := <[hourKey := Go.int_add (default 0 (freq !! hourKey)) 1]> freq in
  map_Forall (fun _ v => 0 < v) freq' /\
  Go.int_add count 1 = freqTotal freq' /\
  Go.int_add count 1 + n < 2 ^ 63.
Proof.
  intros Hn Hpos Hcount Hsmall freq'.
  pose proof (positive_nonneg freq Hpos) as Hnn.
  pose proof (freqTotal_nonneg freq Hnn) as Htot.
  destruct (freqTotal_bump freq hourKey 1 Hnn) as (Hsum & _ & Hbucket); [lia .. |].
  fold (bump hourKey 1 freq) in freq'. subst freq'.
  assert (Hadd : Go.int_add count 1 = count + 1).
  { unfold Go.int_add. apply wrap64_small. lia. }
  rewrite Hadd, Hsum. split; [| lia].
  intros k v Hk. destruct (decide (k = hourKey)) as [-> | Hne].
  - rewrite Hbucket in Hk. injection Hk as <-.
    destruct (freq !! hourKey) as [x |] eqn:Hx; cbn.
    + specialize (Hpos hourKey x Hx). cbn in Hpos. lia.
    + lia.
  - unfold bump in Hk. rewrite lookup_insert_ne in Hk by congruence.
    exact (Hpos k v Hk).
Qed.

Lemma updateErrorSummary_histograms (d : ErrorDetails.t) (errorMsg : string)
    (now : Go.Time) (ea : ErrorAnalyzer) (n : Z) :
  0 <= n ->
  histogramsOk ea ->
  countsBelow (n + 1) ea ->
  histogramsOk (Analyzer.updateErrorSummary d errorMsg now ea) /\
  countsBelow n (Analyzer.updateErrorSummary d errorMsg now ea).
Proof.
  intros Hn Hok [Hroom Hbelow].
  set (k := Analyzer.summaryKey (ErrorDetails.Typ d) (ErrorDetails.Code d)).
  assert (Hnew : forall s,
             summaries (Analyzer.updateErrorSummary d errorMsg now ea) !! k = Some s ->
             histogramOk s /\ ErrorSummary.Count s + n < 2 ^ 63).
  { unfold Analyzer.updateErrorSummary. cbn [summaries]. fold k.
    rewrite lookup_insert_eq. intros s [= <-]. unfold histogramOk. cbn.
    destruct (summaries ea !! k) as [old |] eqn:Hold; cbn.
    - destruct (Hok k old Hold) as [Hpos Hcount].
      specialize (Hbelow k old Hold).
      pose proof (count_and_bucket _ _ (Time_Format "2006-01-02-15" now) n
                    Hn Hpos Hcount Hbelow) as Hstep.
      cbv zeta in Hstep. tauto.
    - pose proof (count_and_bucket 0 ∅ (Time_Format "2006-01-02-15" now) n Hn) as Hstep.
      cbv zeta in Hstep. destruct Hstep as (? & ? & ?).
      + apply map_Forall_empty.
      + symmetry. apply freqTotal_empty.
      + lia.
      + tauto. }
  assert (Hold : forall key s,
             key <> k ->
             summaries (Analyzer.updateErrorSummary d errorMsg now ea) !! key = Some s ->
             summaries ea !! key = Some s).
  { unfold Analyzer.updateErrorSummary. cbn [summaries]. fold k.
    intros key s Hne. rewrite lookup_insert_ne by congruence. auto. }
  split; [| split; [lia |]]; intros key s Hs;
    (destruct (decide (key = k)) as [-> | Hne];
     [apply Hnew, Hs | apply (Hold key s Hne) in Hs]).
  - eapply Hok, Hs.
  - specialize (Hbelow key s Hs). lia.
Qed.

(** X22.  The hourly histogram of a summary accounts for its count:
    after any run of [AnalyzeError] calls every bucket of every summary is
    positive and the buckets of a summary add up to its count, provided
    this held before and no count comes within the number of calls of the
    largest int. *)
Theorem count_is_sum_of_hourly_buckets :
  forall (errs : list (string * Z)) (w : World),
    0 < maxEntries (dbLogger w) ->
    histogramsOk (errorAnalyzer w) ->
    countsBelow (Z.of_nat (length errs)) (errorAnalyzer w) ->
    exists w',
      AnalyzerMore.analyzeAll errs w = Ok (tt, w') /\
      histogramsOk (errorAnalyzer w').
Proof.
  induction errs as [| [errorMsg retryCount] errs IH]; intros w Hmax Hok Hbelow.
  - exists w. auto.
  - cbn [AnalyzerMore.analyzeAll]. rewrite bind_run.
    destruct (AnalyzeError_run w errorMsg retryCount Hmax)
      as (w1 & -> & Hea & _ & _ & _ & _ & _ & Hmax1).
    cbn [length] in Hbelow. rewrite Nat2Z.inj_succ in Hbelow.
    destruct (updateErrorSummary_histograms
                (ErrorDetails.mk
                   (ErrorPattern.Typ (Analyzer.matchErrorPattern (errorAnalyzer w) errorMsg))
                   (ErrorPattern.Code (Analyzer.matchErrorPattern (errorAnalyzer w) errorMsg))
                   errorMsg
                   (ErrorPattern.Cause (Analyzer.matchErrorPattern (errorAnalyzer w) errorMsg))
                   (Analyzer.enhanceSuggestion
                      (Analyzer.matchErrorPattern (errorAnalyzer w) errorMsg) retryCount)
                   (Time_Format "2006-01-02 15:04:05" (clock w (ticks w))) retryCount)
                errorMsg (clock w (ticks w)) (errorAnalyzer w)
                (Z.of_nat (length errs))) as [Hok1 Hbelow1].
    + lia.
    + exact Hok.
    + replace (Z.of_nat (length errs) + 1) with (Z.succ (Z.of_nat (length errs))) by lia.
      exact Hbelow.
    + rewrite <- Hea in Hok1, Hbelow1.
      destruct (IH w1) as (w' & Hrun & Hok'); try assumption; [lia |].
      exists w'. split; assumption.
Qed.

End HistogramFacts.

Lemma count_is_sum_of_hourly_buckets_witness :
  exists w',
    AnalyzerMore.analyzeAll (H := plainRuntime)
      [("dial tcp: connection refused", 0); ("dial tcp: connection refused", 1)]
      (initialWorld sampleConfig (fun _ => 0)) = Ok (tt, w') /\
    histogramsOk (errorAnalyzer w').
Proof.
  apply (count_is_sum_of_hourly_buckets (H := plainRuntime)
           [("dial tcp: connection refused", 0); ("dial tcp: connection refused", 1)]
           (initialWorld sampleConfig (fun _ => 0))).
  - cbn. lia.
  - intros key s Hs. cbn in Hs. rewrite lookup_empty in Hs. discriminate.
  - split; [cbn; lia |].
    intros key s Hs. cbn in Hs. rewrite lookup_empty in Hs. discriminate.
Defined.

(** ** [GetErrorTrends] *)

Section TrendsFacts.
Variable inner : gmap string Z -> list (string * Z).
Hypothesis inner_range : forall m, inner m ≡ₚ map_to_list m.

Lemma histogramOk_count_nonneg (s : ErrorSummary.t) :
  histogramOk s -> 0 <= ErrorSummary.Count s.
Proof.
  intros [Hpos ->]. apply freqTotal_nonneg, positive_nonneg, Hpos.
Qed.

Lemma int_add_small (a b : Z) :
  0 <= a -> 0 <= b -> a + b < 2 ^ 63 -> Go.int_add a b = a + b.
Proof. intros Ha Hb Hs. unfold Go.int_add. apply wrap64_small. lia. Qed.

Lemma total_nonneg (l : list Z) : Forall (fun v => 0 <= v) l -> 0 <= total l.
Proof. unfold total. induction 1; cbn; lia. Qed.

Lemma counts_nonneg (l : list ErrorSummary.t) :
  Forall histogramOk l -> 0 <= total (ErrorSummary.Count <$> l).
Proof.
  intros Hl. apply total_nonneg. apply Forall_fmap.
  eapply Forall_impl; [exact Hl |]. apply histogramOk_count_nonneg.
Qed.

Lemma total_cons (x : Z) (l : list Z) : total (x :: l) = x + total l.
Proof. reflexivity. Qed.

Lemma trends_total (l : list ErrorSummary.t) :
  forall t,
    Forall histogramOk l ->
    0 <= Trends.total_errors t ->
    Trends.total_errors t + total (ErrorSummary.Count <$> l) < 2 ^ 63 ->
    Trends.total_errors (foldl (trendsStep inner) t l)
    = Trends.total_errors t + total (ErrorSummary.Count <$> l).
Proof.
  induction l as [| s l IH]; intros t Hl Ht Hsmall; cbn [foldl].
  - unfold total. cbn. lia.
  - apply Forall_cons in Hl as [Hs Hl].
    pose proof (histogramOk_count_nonneg s Hs) as Hc.
    pose proof (counts_nonneg l Hl) as Hrest.
    rewrite fmap_cons, total_cons in Hsmall |- *.
    rewrite IH; cbn [trendsStep Trends.total_errors]; try assumption;
      rewrite int_add_small by lia; lia.
Qed.

Lemma trends_types (l : list ErrorSummary.t) :
  forall t,
    Forall histogramOk l ->
    map_Forall (fun _ v => 0 <= v) (Trends.error_types t) ->
    freqTotal (Trends.error_types t) + total (ErrorSummary.Count <$> l) < 2 ^ 63 ->
    freqTotal (Trends.error_types (foldl (trendsStep inner) t l))
    = freqTotal (Trends.error_types t) + total (ErrorSummary.Count <$> l).
Proof.
  induction l as [| s l IH]; intros t Hl Ht Hsmall; cbn [foldl].
  - unfold total. cbn. lia.
  - apply Forall_cons in Hl as [Hs Hl].
    pose proof (histogramOk_count_nonneg s Hs) as Hc.
    pose proof (counts_nonneg l Hl) as Hrest.
    rewrite fmap_cons, total_cons in Hsmall |- *.
    destruct (freqTotal_bump (Trends.error_types t) (ErrorSummary.Typ s)
                (ErrorSummary.Count s) Ht Hc) as (Hsum & Hnn & _); [lia |].
    rewrite IH; cbn [trendsStep Trends.error_types]; try assumption;
      rewrite Hsum; lia.
Qed.

(** The inner loop: the hourly buckets of one summary are added in. *)
Lemma hourly_fold (l : list (string * Z)) :
  forall acc,
    map_Forall (fun _ v => 0 <= v) acc ->
    Forall (fun kv => 0 <= kv.2) l ->
    freqTotal acc + total (l.*2) < 2 ^ 63 ->
    freqTotal (foldl (fun acc kv => bump kv.1 kv.2 acc) acc l)
    = freqTotal acc + total (l.*2) /\
    map_Forall (fun _ v => 0 <= v) (foldl (fun acc kv => bump kv.1 kv.2 acc) acc l).
Proof.
  induction l as [| [k v] l IH]; intros acc Hacc Hl Hsmall; cbn [foldl].
  - unfold total. cbn. split; [lia | exact Hacc].
  - apply Forall_cons in Hl as [Hv Hl]. cbn in Hv.
    assert (Hrest : 0 <= total (l.*2)).
    { apply total_nonneg, Forall_fmap. exact Hl. }
    rewrite fmap_cons, total_cons in Hsmall |- *. cbn [snd] in Hsmall |- *.
    destruct (freqTotal_bump acc k v Hacc Hv) as (Hsum & Hnn & _); [lia |].
    destruct (IH (bump k v acc) Hnn Hl) as [Hsum' Hnn']; [rewrite Hsum; lia |].
    cbn [fst snd]. rewrite Hsum', Hsum. split; [lia | exact Hnn'].
Qed.

Lemma inner_total (s : ErrorSummary.t) :
  histogramOk s ->
  total ((inner (ErrorSummary.FrequencyData s)).*2) = ErrorSummary.Count s /\
  Forall (fun kv => 0 <= kv.2) (inner (ErrorSummary.FrequencyData s)).
Proof.
  intros [Hpos Hcount]. split.
  - rewrite Hcount. unfold freqTotal. apply total_perm, fmap_Permutation, inner_range.
  - rewrite Forall_forall. intros [k v] Hin. rewrite inner_range in Hin.
    apply elem_of_map_to_list in Hin. specialize (Hpos k v Hin). cbn in *. lia.
Qed.

Lemma trends_hourly (l : list ErrorSummary.t) :
  forall t,
    Forall histogramOk l ->
    map_Forall (fun _ v => 0 <= v) (Trends.hourly_data t) ->
    freqTotal (Trends.hourly_data t) + total (ErrorSummary.Count <$> l) < 2 ^ 63 ->
    freqTotal (Trends.hourly_data (foldl (trendsStep inner) t l))
    = freqTotal (Trends.hourly_data t) + total (ErrorSummary.Count <$> l).
Proof.
  induction l as [| s l IH]; intros t Hl Ht Hsmall; cbn [foldl].
  - unfold total. cbn. lia.
  - apply Forall_cons in Hl as [Hs Hl].
    pose proof (histogramOk_count_nonneg s Hs) as Hc.
    pose proof (counts_nonneg l Hl) as Hrest.
    rewrite fmap_cons, total_cons in Hsmall |- *.
    destruct (inner_total s Hs) as [Hin Hinn].
    destruct (hourly_fold (inner (ErrorSummary.FrequencyData s)) (Trends.hourly_data t)
                Ht Hinn) as [Hsum Hnn]; [rewrite Hin; lia |].
    rewrite IH; cbn [trendsStep Trends.hourly_data]; try assumption;
      rewrite Hsum, Hin; lia.
Qed.

Lemma trends_resolved (l : list ErrorSummary.t) :
  forall t,
    0 <= Trends.resolved_count t ->
    Trends.resolved_count t + Z.of_nat (length l) < 2 ^ 63 ->
    Trends.resolved_count (foldl (trendsStep inner) t l)
    = Trends.resolved_count t
      + Z.of_nat (length (filter (fun s => ErrorSummary.Resolved s = true) l)).
Proof.
  induction l as [| s l IH]; intros t Ht Hsmall; cbn [foldl].
  - cbn. lia.
  - cbn [length] in Hsmall. rewrite filter_cons.
    rewrite IH; cbn [trendsStep Trends.resolved_count].
    + destruct (ErrorSummary.Resolved s) eqn:Hres.
      * rewrite decide_True by reflexivity. rewrite int_add_small by lia.
        cbn [length]. lia.
      * rewrite decide_False by discriminate. lia.
    + destruct (ErrorSummary.Resolved s); [rewrite int_add_small by lia |]; lia.
    + destruct (ErrorSummary.Resolved s); [rewrite int_add_small by lia |]; lia.
Qed.

(** X23.  The three views of [GetErrorTrends] agree, in whatever order
    the maps are iterated: the total is the sum of the counts of all
    summaries, the totals by type add up to it, and so do the merged hourly
    buckets; the resolved count is the number of resolved summaries.  This
    takes that the histograms account for the counts, as [AnalyzeError]
    keeps them, and that the sums fit an int. *)
Theorem GetErrorTrends_views_agree :
  forall (ea : ErrorAnalyzer) (range : list (string * ErrorSummary.t)),
    range ≡ₚ map_to_list (summaries ea) ->
    histogramsOk ea ->
    total (ErrorSummary.Count <$> range.*2) < 2 ^ 63 ->
    Z.of_nat (length range) < 2 ^ 63 ->
    let t := GetErrorTrends range inner in
    Trends.total_errors t = total (ErrorSummary.Count <$> range.*2) /\
    freqTotal (Trends.error_types t) = Trends.total_errors t /\
    freqTotal (Trends.hourly_data t) = Trends.total_errors t /\
    Trends.resolved_count t
    = Z.of_nat (length (filter (fun s => ErrorSummary.Resolved s = true) (range.*2))).
Proof.
  intros ea range Hrange Hok Hsum Hlen t. subst t. unfold GetErrorTrends.
  assert (Hall : Forall histogramOk (range.*2)).
  { rewrite Forall_forall. intros s Hs.
    apply list_elem_of_fmap in Hs as ([k s'] & -> & Hin).
    rewrite Hrange in Hin. apply elem_of_map_to_list in Hin. eapply Hok, Hin. }
  rewrite trends_total, trends_types, trends_hourly, trends_resolved;
    cbn [Trends.total_errors Trends.error_types Trends.hourly_data Trends.resolved_count];
    rewrite ?freqTotal_empty, ?length_fmap;
    try assumption; try lia; try apply map_Forall_empty.
Qed.

End TrendsFacts.

Lemma GetErrorTrends_views_agree_witness :
  let sums :=
    <["network_NET_001" :=
        ErrorSummary.mk ErrorTypeNetwork "NET_001" 3 1 5
          (<["2024-01-01-10" := 2]> (<["2024-01-01-11" := 1]> ∅)) [] true]>
      (∅ : gmap string ErrorSummary.t) in
  let t := GetErrorTrends (map_to_list sums) map_to_list in
  Trends.total_errors t = total (ErrorSummary.Count <$> (map_to_list sums).*2) /\
  freqTotal (Trends.error_types t) = Trends.total_errors t /\
  freqTotal (Trends.hourly_data t) = Trends.total_errors t /\
  Trends.resolved_count t
  = Z.of_nat (length (filter (fun s => ErrorSummary.Resolved s = true)
                        ((map_to_list sums).*2))).
Proof.
  intros sums.
  apply (GetErrorTrends_views_agree map_to_list (fun m => reflexivity _)
           (mkErrorAnalyzer initializeErrorPatterns sums 10)
           (map_to_list sums)).
  - reflexivity.
  - intros key s Hs. cbn [summaries] in Hs. subst sums.
    apply lookup_insert_Some in Hs as [[_ <-] | [_ Hs]];
      [| rewrite lookup_empty in Hs; discriminate Hs].
    split; [| vm_compute; reflexivity].
    intros k v Hk. cbn in Hk.
    apply lookup_insert_Some in Hk as [[_ <-] | [_ Hk]]; [lia |].
    apply lookup_insert_Some in Hk as [[_ <-] | [_ Hk]]; [lia |].
    rewrite lookup_empty in Hk. discriminate Hk.
  - vm_compute. reflexivity.
  - vm_compute. reflexivity.
Defined.

(** * When the logger goes wrong *)

Section LoggerPanic.

Lemma addEntry_cases now level message details ci dl :
  (currentLevel dl <= level /\
   Logger.isDuplicate dl level message = false /\
   entries dl = [] /\ maxEntries dl <= 0 /\
   exists msg, Logger.addEntry now level message details ci dl = Panic msg) \/
  (~ (currentLevel dl <= level /\
      Logger.isDuplicate dl level message = false /\
      entries dl = [] /\ maxEntries dl <= 0) /\
   exists r, Logger.addEntry now level message details ci dl = Ok r).
Proof.
  unfold Logger.addEntry.
  destruct (Z.ltb_spec level (currentLevel dl)) as [Hlt | Hge].
  { right. split; [lia | eauto]. }
  destruct (Logger.isDuplicate dl level message) eqn:Hdup.
  { right. split; [intros (_ & Hd & _); discriminate | eauto]. }
  destruct (Z.leb_spec (maxEntries dl) (Z.of_nat (length (entries dl)))) as [Hfull | Hroom].
  - destruct (entries dl) as [| e es] eqn:Hes.
    + left. cbn in Hfull. repeat split; try assumption; try lia. cbn. eauto.
    + right. split; [intros (_ & _ & He & _); discriminate | cbn; eauto].
  - right. split; [| cbn; eauto].
    intros (_ & _ & He & Hmax). rewrite He in Hroom. cbn in Hroom. lia.
Qed.

(** X24.  [addEntry] goes wrong in one case only: the call passes the
    threshold, is not merged into the last entry, the buffer is empty and
    the capacity is zero or negative; then [entries[1:]] panics.  In every
    other case it returns, and [Fatal] then ends the process with status 1,
    whether or not the entry was stored. *)
Theorem addEntry_panics_exactly_when :
  forall now level message details ci dl,
    let doomed :=
      currentLevel dl <= level /\
      Logger.isDuplicate dl level message = false /\
      entries dl = [] /\
      maxEntries dl <= 0 in
    ((exists msg, Logger.addEntry now level message details ci dl = Panic msg)
     <-> doomed) /\
    (forall code, Logger.addEntry now level message details ci dl <> Exit code) /\
    (level = LogLevelFatal -> ~ doomed ->
     forall extra, Logger.Fatal now message (details :: extra) dl = Exit 1).
Proof.
  intros now level message details ci dl doomed. subst doomed.
  pose proof (addEntry_cases now level message details ci dl) as Hcases.
  split; [| split].
  - split.
    + intros [msg Hp]. destruct Hcases as [(? & ? & ? & ? & _) | [_ [r Hr]]]; [tauto |].
      rewrite Hr in Hp. discriminate.
    + intros Hd. destruct Hcases as [(_ & _ & _ & _ & Hp) | [Hn _]]; [exact Hp | tauto].
  - intros code Hexit.
    destruct Hcases as [(_ & _ & _ & _ & [msg Hp]) | [_ [r Hr]]]; congruence.
  - intros -> Hn extra. unfold Logger.Fatal. cbn [Logger.firstDetail].
    destruct (addEntry_cases now LogLevelFatal message details [] dl)
      as [(? & ? & ? & ? & _) | [_ [r Hr]]]; [tauto |].
    rewrite Hr. reflexivity.
Qed.

End LoggerPanic.

Lemma addEntry_panics_exactly_when_witness :
  Logger.Fatal 0 "out of memory" ["heap"] Logger.GetDatabaseLogger = Exit 1.
Proof.
  destruct (addEntry_panics_exactly_when 0 LogLevelFatal "out of memory" "heap" []
              Logger.GetDatabaseLogger) as (_ & _ & Hfatal).
  apply (Hfatal eq_refl).
  intros (_ & _ & _ & Hmax). cbn in Hmax. lia.
Defined.
